(** * Smart medicine dispenser (sketch.ino): model and verified properties

    A shallow embedding of the firmware's main context and of its two
    interrupt handlers.  Program globals, the peripherals' inputs (keypad,
    real-time clock, EEPROM, interrupts arriving during sleep) and the
    ordered trace of peripheral commands are fields of one [World]; every
    firmware function is a computation over it. *)

From Stdlib Require Import ZArith Lia Ascii String List.
From Stdlib Require Strings.Byte.
From stdpp Require Import base list strings.
Import ListNotations.
Local Open Scope Z_scope.

(** ** Configuration constants (the sketch's #defines) *)

Definition MAX_MEDICATIONS : nat := 5.
Definition SERVO_CLOSED_POS : Z := 0.
Definition SERVO_OPEN_POS : Z := 90.
Definition DISPENSE_DELAY : Z := 1000.
Definition BUZZER_PIN : Z := 11.
Definition BUZZER_FREQ : Z := 2000.
Definition BUZZER_DURATION : Z := 200.
Definition BUZZER_DISPENSE_BEEPS : Z := 3.
Definition WAKE_LED_PIN : Z := 12.
Definition LED_BLINK_DURATION : Z := 200.
Definition BUTTON_WAKE_BLINKS : Z := 2.
Definition WATCHDOG_WAKE_BLINKS : Z := 1.
Definition SLEEP_TIMEOUT : Z := 10000.
Definition DISPLAY_MODES : Z := 2.
Definition DEBOUNCE_TIME : Z := 200.
Definition CHECK_INTERVAL : Z := 1000.

(** [sizeof(Medication)] on the AVR target: two [bool]s and two [byte]s. *)
Definition SIZEOF_MEDICATION : Z := 4.

(** [unsigned long] is 32 bits wide, [byte] 8 bits. *)
Definition ULONG_MOD : Z := 2 ^ 32.
Definition BYTE_MOD : Z := 256.

(** ** Data *)

(** A [bool] field of a struct occupies one byte. The sketch assigns it
    [false] (0) or [true] (1), [EEPROM.get] copies into it whatever byte is
    stored and [EEPROM.put] copies the byte out again; the field reads as
    true when its byte is not 0. *)
Definition flag_of_bool (b : bool) : Byte.byte :=
  if b then Byte.x01 else Byte.x00.
Definition flag_set (f : Byte.byte) : bool := negb (Byte.eqb f Byte.x00).

(** [struct Medication], the two [bool] fields as their bytes. [hour] and
    [minute] are [byte]s, kept as [Z]. *)
Record Medication : Type := Medication_of_bytes {
  active_byte : Byte.byte;
  hour : Z;
  minute : Z;
  dispensedToday_byte : Byte.byte
}.

(** The fields as the sketch reads them. *)
Definition active (m : Medication) : bool := flag_set (active_byte m).
Definition dispensedToday (m : Medication) : bool :=
  flag_set (dispensedToday_byte m).

(** An entry with the flags as assigned by the sketch. *)
Definition mkMedication (a : bool) (h mi : Z) (d : bool) : Medication :=
  Medication_of_bytes (flag_of_bool a) h mi (flag_of_bool d).

(** Assignments to one field. *)
Definition with_active (b : bool) (m : Medication) : Medication :=
  Medication_of_bytes (flag_of_bool b) (hour m) (minute m)
                      (dispensedToday_byte m).
Definition with_hour (h : Z) (m : Medication) : Medication :=
  Medication_of_bytes (active_byte m) h (minute m) (dispensedToday_byte m).
Definition with_minute (mi : Z) (m : Medication) : Medication :=
  Medication_of_bytes (active_byte m) (hour m) mi (dispensedToday_byte m).
Definition with_dispensedToday (b : bool) (m : Medication) : Medication :=
  Medication_of_bytes (active_byte m) (hour m) (minute m) (flag_of_bool b).

(** The entry written over a slot that fails the range check on load. *)
Definition default_medication : Medication := mkMedication false 0 0 false.

#[global] Instance Medication_inhabited : Inhabited Medication :=
  populate default_medication.

(** The part of RTClib's [DateTime] the sketch reads. *)
Record DateTime : Type := mkDateTime {
  dt_hour : Z;
  dt_minute : Z;
  dt_second : Z
}.

(** Commands sent to the peripherals, in program order. *)
Inductive Event : Type :=
| LcdBacklight | LcdNoBacklight | LcdDisplay | LcdNoDisplay | LcdClear
| LcdSetCursor (col row : Z)
| LcdPrint (s : string)
| LcdPrintNum (n : Z)
| TopServoWrite (pos : Z)
| BottomServoWrite (pos : Z)
| Tone (pin freq dur : Z)
| NoTone (pin : Z)
| DigitalWrite (pin : Z) (high : bool)
| Delay (ms : Z)
| SerialPrint (s : string)
| SerialPrintNum (n : Z)
| SerialPrintln (s : string)
| SerialPrintlnNum (n : Z)
| NoInterrupts | Interrupts
| SetupWatchdog | AdcEnable (on : bool) | SetSleepModePwrDown
| SleepEnable | SleepDisable | ClearIntf0 | SleepCpu | WdtDisable.

(** Interrupts the environment raises while the CPU sleeps; each carries the
    value [millis()] has when its handler runs. *)
Inductive Irq : Type :=
| ButtonIrq (t : Z)
| WatchdogIrq (t : Z).

(** ** The world: program globals, peripherals' inputs, trace *)

Record World : Type := mkWorld {
  medications : list Medication;
  buttonWakeFlag : bool;
  watchdogWakeFlag : bool;
  inSleepMode : bool;
  displayMode : Z;
  lastButtonTime : Z;
  lastActionTime : Z;
  lastCheckTime : Z;
  inSetupMode : bool;
  (* the two statics of displayTime *)
  lastDisplayedMinute : Z;
  lastDisplayMode : Z;
  (* EEPROM cells, by address *)
  eeprom : Z -> Z;
  (* virtual time in ms; [millis()] is its 32-bit view *)
  clock : Z;
  (* the n-th reading of the real-time clock, and how many were taken *)
  rtc : nat -> DateTime;
  rtc_reads : nat;
  (* what the next polls of the keypad answer; afterwards always NO_KEY *)
  keys : list ascii;
  (* interrupts raised during the coming sleeps, one batch per wake-up *)
  irqs : list (list Irq);
  trace : list Event
}.

Definition set_medications (x : list Medication) (w : World) : World :=
  mkWorld x (buttonWakeFlag w) (watchdogWakeFlag w) (inSleepMode w)
    (displayMode w) (lastButtonTime w) (lastActionTime w) (lastCheckTime w)
    (inSetupMode w) (lastDisplayedMinute w) (lastDisplayMode w) (eeprom w)
    (clock w) (rtc w) (rtc_reads w) (keys w) (irqs w) (trace w).
Definition set_buttonWakeFlag (x : bool) (w : World) : World :=
  mkWorld (medications w) x (watchdogWakeFlag w) (inSleepMode w)
    (displayMode w) (lastButtonTime w) (lastActionTime w) (lastCheckTime w)
    (inSetupMode w) (lastDisplayedMinute w) (lastDisplayMode w) (eeprom w)
    (clock w) (rtc w) (rtc_reads w) (keys w) (irqs w) (trace w).
Definition set_watchdogWakeFlag (x : bool) (w : World) : World :=
  mkWorld (medications w) (buttonWakeFlag w) x (inSleepMode w)
    (displayMode w) (lastButtonTime w) (lastActionTime w) (lastCheckTime w)
    (inSetupMode w) (lastDisplayedMinute w) (lastDisplayMode w) (eeprom w)
    (clock w) (rtc w) (rtc_reads w) (keys w) (irqs w) (trace w).
Definition set_inSleepMode (x : bool) (w : World) : World :=
  mkWorld (medications w) (buttonWakeFlag w) (watchdogWakeFlag w) x
    (displayMode w) (lastButtonTime w) (lastActionTime w) (lastCheckTime w)
    (inSetupMode w) (lastDisplayedMinute w) (lastDisplayMode w) (eeprom w)
    (clock w) (rtc w) (rtc_reads w) (keys w) (irqs w) (trace w).
Definition set_displayMode (x : Z) (w : World) : World :=
  mkWorld (medications w) (buttonWakeFlag w) (watchdogWakeFlag w) (inSleepMode w)
    x (lastButtonTime w) (lastActionTime w) (lastCheckTime w)
    (inSetupMode w) (lastDisplayedMinute w) (lastDisplayMode w) (eeprom w)
    (clock w) (rtc w) (rtc_reads w) (keys w) (irqs w) (trace w).
Definition set_lastButtonTime (x : Z) (w : World) : World :=
  mkWorld (medications w) (buttonWakeFlag w) (watchdogWakeFlag w) (inSleepMode w)
    (displayMode w) x (lastActionTime w) (lastCheckTime w)
    (inSetupMode w) (lastDisplayedMinute w) (lastDisplayMode w) (eeprom w)
    (clock w) (rtc w) (rtc_reads w) (keys w) (irqs w) (trace w).
Definition set_lastActionTime (x : Z) (w : World) : World :=
  mkWorld (medications w) (buttonWakeFlag w) (watchdogWakeFlag w) (inSleepMode w)
    (displayMode w) (lastButtonTime w) x (lastCheckTime w)
    (inSetupMode w) (lastDisplayedMinute w) (lastDisplayMode w) (eeprom w)
    (clock w) (rtc w) (rtc_reads w) (keys w) (irqs w) (trace w).
Definition set_lastCheckTime (x : Z) (w : World) : World :=
  mkWorld (medications w) (buttonWakeFlag w) (watchdogWakeFlag w) (inSleepMode w)
    (displayMode w) (lastButtonTime w) (lastActionTime w) x
    (inSetupMode w) (lastDisplayedMinute w) (lastDisplayMode w) (eeprom w)
    (clock w) (rtc w) (rtc_reads w) (keys w) (irqs w) (trace w).
Definition set_inSetupMode (x : bool) (w : World) : World :=
  mkWorld (medications w) (buttonWakeFlag w) (watchdogWakeFlag w) (inSleepMode w)
    (displayMode w) (lastButtonTime w) (lastActionTime w) (lastCheckTime w)
    x (lastDisplayedMinute w) (lastDisplayMode w) (eeprom w)
    (clock w) (rtc w) (rtc_reads w) (keys w) (irqs w) (trace w).
Definition set_displayStatics (mi dm : Z) (w : World) : World :=
  mkWorld (medications w) (buttonWakeFlag w) (watchdogWakeFlag w) (inSleepMode w)
    (displayMode w) (lastButtonTime w) (lastActionTime w) (lastCheckTime w)
    (inSetupMode w) mi dm (eeprom w)
    (clock w) (rtc w) (rtc_reads w) (keys w) (irqs w) (trace w).
Definition set_eeprom (x : Z -> Z) (w : World) : World :=
  mkWorld (medications w) (buttonWakeFlag w) (watchdogWakeFlag w) (inSleepMode w)
    (displayMode w) (lastButtonTime w) (lastActionTime w) (lastCheckTime w)
    (inSetupMode w) (lastDisplayedMinute w) (lastDisplayMode w) x
    (clock w) (rtc w) (rtc_reads w) (keys w) (irqs w) (trace w).
Definition set_clock (x : Z) (w : World) : World :=
  mkWorld (medications w) (buttonWakeFlag w) (watchdogWakeFlag w) (inSleepMode w)
    (displayMode w) (lastButtonTime w) (lastActionTime w) (lastCheckTime w)
    (inSetupMode w) (lastDisplayedMinute w) (lastDisplayMode w) (eeprom w)
    x (rtc w) (rtc_reads w) (keys w) (irqs w) (trace w).
Definition set_rtc_reads (x : nat) (w : World) : World :=
  mkWorld (medications w) (buttonWakeFlag w) (watchdogWakeFlag w) (inSleepMode w)
    (displayMode w) (lastButtonTime w) (lastActionTime w) (lastCheckTime w)
    (inSetupMode w) (lastDisplayedMinute w) (lastDisplayMode w) (eeprom w)
    (clock w) (rtc w) x (keys w) (irqs w) (trace w).
Definition set_keys (x : list ascii) (w : World) : World :=
  mkWorld (medications w) (buttonWakeFlag w) (watchdogWakeFlag w) (inSleepMode w)
    (displayMode w) (lastButtonTime w) (lastActionTime w) (lastCheckTime w)
    (inSetupMode w) (lastDisplayedMinute w) (lastDisplayMode w) (eeprom w)
    (clock w) (rtc w) (rtc_reads w) x (irqs w) (trace w).
Definition set_irqs (x : list (list Irq)) (w : World) : World :=
  mkWorld (medications w) (buttonWakeFlag w) (watchdogWakeFlag w) (inSleepMode w)
    (displayMode w) (lastButtonTime w) (lastActionTime w) (lastCheckTime w)
    (inSetupMode w) (lastDisplayedMinute w) (lastDisplayMode w) (eeprom w)
    (clock w) (rtc w) (rtc_reads w) (keys w) x (trace w).
Definition set_trace (x : list Event) (w : World) : World :=
  mkWorld (medications w) (buttonWakeFlag w) (watchdogWakeFlag w) (inSleepMode w)
    (displayMode w) (lastButtonTime w) (lastActionTime w) (lastCheckTime w)
    (inSetupMode w) (lastDisplayedMinute w) (lastDisplayMode w) (eeprom w)
    (clock w) (rtc w) (rtc_reads w) (keys w) (irqs w) x.

(** ** Computations

    A call either returns a value in a new world, or never returns (a wait
    loop whose exit condition the environment never provides); [Hang] keeps
    the world the program is stuck in. *)

Inductive Res (A : Type) : Type :=
| Ret (a : A) (w : World)
| Hang (w : World).
Arguments Ret {A} a w.
Arguments Hang {A} w.

Definition world_of {A} (r : Res A) : World :=
  match r with Ret _ w => w | Hang w => w end.

Definition M (A : Type) : Type := World -> Res A.

Definition ret {A} (a : A) : M A := fun w => Ret a w.
Definition bind {A B} (m : M A) (k : A -> M B) : M B := fun w =>
  match m w with
  | Ret a w' => k a w'
  | Hang w' => Hang w'
  end.

Declare Scope prog_scope.
Delimit Scope prog_scope with prog.
Notation "x ← y ; z" := (bind y (fun x => z))
  (at level 20, y at level 100, z at level 200, only parsing) : prog_scope.
Notation "x ;; z" := (bind x (fun _ => z))
  (at level 100, z at level 200, only parsing, right associativity)
  : prog_scope.
Local Open Scope prog_scope.

Definition get {A} (f : World -> A) : M A := fun w => Ret (f w) w.
Definition modify (f : World -> World) : M unit := fun w => Ret tt (f w).
Definition hang {A} : M A := fun w => Hang w.

(** [for (int i = ...; ...; i++) body], over the indices the loop visits. *)
Fixpoint forM (ixs : list nat) (body : nat -> M unit) : M unit :=
  match ixs with
  | [] => ret tt
  | i :: rest => body i;; forM rest body
  end.

(** The same for a body that may execute [return r], written [Some r]. *)
Fixpoint forM_return {A} (ixs : list nat) (body : nat -> M (option A))
    : M (option A) :=
  match ixs with
  | [] => ret None
  | i :: rest =>
      r ← body i;
      match r with
      | Some a => ret (Some a)
      | None => forM_return rest body
      end
  end.

(** ** Peripheral primitives *)

Definition emit (e : Event) : M unit :=
  modify (fun w => set_trace (trace w ++ [e]) w).

Definition millis : M Z := get (fun w => clock w mod ULONG_MOD).

(** [delay(ms)] blocks for [ms] milliseconds. *)
Definition delay (ms : Z) : M unit :=
  emit (Delay ms);; modify (fun w => set_clock (clock w + ms) w).

(** [rtc.now()]: the next reading of the real-time clock. *)
Definition rtc_now : M DateTime := fun w =>
  Ret (rtc w (rtc_reads w)) (set_rtc_reads (S (rtc_reads w)) w).

(** [medications[i]] read and updated in place. *)
Definition med (i : nat) : M Medication := get (fun w => medications w !!! i).
Definition update_med (i : nat) (f : Medication -> Medication) : M unit :=
  modify (fun w => set_medications (alter f i (medications w)) w).

(** ** resetDailyDispensedFlags *)

Definition resetDailyDispensedFlags : M unit :=
  forM (seq 0 MAX_MEDICATIONS) (fun i =>
    update_med i (with_dispensedToday false)).

(** ** checkMedicationDue *)

(** One iteration of the loop over the table; [Some true] stands for the
    [return true] inside it. *)
Definition checkMedicationDue_entry (now : DateTime) (i : nat)
    : M (option bool) :=
  emit (SerialPrint "  Med #");;
  emit (SerialPrintNum (Z.of_nat i + 1));;
  emit (SerialPrint ": ");;
  m ← med i;
  if negb (active m) then
    emit (SerialPrintln "Inactive - skipping");;
    ret None
  else
    emit (SerialPrint "Active, ");;
    emit (SerialPrint "Time=");;
    emit (SerialPrintNum (hour m));;
    emit (SerialPrint ":");;
    emit (SerialPrintNum (minute m));;
    emit (SerialPrint ", ");;
    if dispensedToday m then
      emit (SerialPrintln "Already dispensed today");;
      ret None
    else
      emit (SerialPrint "Not yet dispensed, ");;
      if (hour m =? dt_hour now) && (minute m =? dt_minute now) then
        emit (SerialPrintln "TIME MATCH! Medication needs dispensing!");;
        ret (Some true)
      else
        emit (SerialPrintln "No time match");;
        ret None.

Definition checkMedicationDue : M bool :=
  now ← rtc_now;
  emit (SerialPrint "Checking medication at: ");;
  emit (SerialPrintNum (dt_hour now));;
  emit (SerialPrint ":");;
  emit (SerialPrintNum (dt_minute now));;
  emit (SerialPrint ":");;
  emit (SerialPrintlnNum (dt_second now));;
  if (dt_hour now =? 0) && (dt_minute now =? 0) then
    emit (SerialPrintln "Midnight detected! Resetting dispensed flags.");;
    resetDailyDispensedFlags;;
    ret false
  else
    emit (SerialPrintln "Checking scheduled medications:");;
    r ← forM_return (seq 0 MAX_MEDICATIONS) (checkMedicationDue_entry now);
    match r with
    | Some b => ret b
    | None =>
        emit (SerialPrintln "No medication due at this time");;
        ret false
    end.

(** ** beep and blinkLED *)

Definition beep (count : Z) : M unit :=
  forM (seq 0 (Z.to_nat count)) (fun i =>
    emit (Tone BUZZER_PIN BUZZER_FREQ BUZZER_DURATION);;
    delay BUZZER_DURATION;;
    emit (NoTone BUZZER_PIN);;
    if Z.of_nat i <? count - 1 then delay BUZZER_DURATION else ret tt).

Definition blinkLED (count : Z) : M unit :=
  forM (seq 0 (Z.to_nat count)) (fun i =>
    emit (DigitalWrite WAKE_LED_PIN true);;
    delay LED_BLINK_DURATION;;
    emit (DigitalWrite WAKE_LED_PIN false);;
    if Z.of_nat i <? count - 1 then delay LED_BLINK_DURATION else ret tt).

(** ** getTimeToNextMedication *)

(** The AVR [int] is 16 bits wide, two's complement. *)
Definition int16 (x : Z) : Z := (x + 32768) mod 65536 - 32768.

(** One iteration of the loop over the table; [acc] is
    [(minMinutes, found)]. *)
Definition nextMedication_step (now : DateTime) (meds : list Medication)
    (acc : Z * bool) (i : nat) : Z * bool :=
  let m := meds !!! i in
  if active m then
    let medicationTotalMinutes := int16 (hour m * 60 + minute m) in
    let currentTotalMinutes := int16 (dt_hour now * 60 + dt_minute now) in
    let minutesDiff :=
      if dispensedToday m then
        int16 (medicationTotalMinutes + 24 * 60 - currentTotalMinutes)
      else
        let d := int16 (medicationTotalMinutes - currentTotalMinutes) in
        if d <? 0 then int16 (d + 24 * 60) else d in
    if minutesDiff <? fst acc then (minutesDiff, true) else acc
  else acc.

(** Answers [(found, (hoursToNext, minutesToNext))]: the return value and
    the two reference parameters. *)
Definition getTimeToNextMedication (now : DateTime) : M (bool * (Z * Z)) :=
  meds ← get medications;
  let acc := fold_left (nextMedication_step now meds)
               (seq 0 MAX_MEDICATIONS) (24 * 60, false) in
  let minMinutes := fst acc in
  ret (snd acc, (Z.quot minMinutes 60, Z.rem minMinutes 60)).

(** ** displayTime *)

Definition displayTime (forceUpdate : bool) : M unit :=
  now ← rtc_now;
  lastMinute ← get lastDisplayedMinute;
  lastMode ← get lastDisplayMode;
  mode ← get displayMode;
  if forceUpdate || negb (dt_minute now =? lastMinute) || negb (mode =? lastMode)
  then
    modify (set_displayStatics (dt_minute now) mode);;
    emit LcdClear;;
    emit (LcdPrint "Time: ");;
    (if dt_hour now <? 10 then emit (LcdPrint "0") else ret tt);;
    emit (LcdPrintNum (dt_hour now));;
    emit (LcdPrint ":");;
    (if dt_minute now <? 10 then emit (LcdPrint "0") else ret tt);;
    emit (LcdPrintNum (dt_minute now));;
    emit (LcdSetCursor 0 1);;
    if mode =? 0 then
      emit (LcdPrint "Press A -> Setup")
    else if mode =? 1 then
      emit (LcdPrint "Next: ");;
      r ← getTimeToNextMedication now;
      let hasNext := fst (r : bool * (Z * Z)) in
      let hoursToNext := fst (snd r) in
      let minutesToNext := snd (snd r) in
      if hasNext then
        (if hoursToNext >? 0 then
           emit (LcdPrintNum hoursToNext);; emit (LcdPrint "h")
         else ret tt);;
        emit (LcdPrintNum minutesToNext);;
        emit (LcdPrint "m")
      else
        emit (LcdPrint "None")
    else ret tt
  else ret tt.

(** ** dispense *)

Definition dispense : M unit :=
  (* Step 1: open the top gate *)
  emit LcdClear;;
  emit (LcdPrint "Dispensing...");;
  emit (LcdSetCursor 0 1);;
  emit (LcdPrint "Step 1/3");;
  emit (TopServoWrite SERVO_OPEN_POS);;
  delay DISPENSE_DELAY;;
  (* Step 2: close the top gate *)
  emit (LcdSetCursor 0 1);;
  emit (LcdPrint "Step 2/3       ");;
  emit (TopServoWrite SERVO_CLOSED_POS);;
  delay DISPENSE_DELAY;;
  (* Step 3: open the bottom gate *)
  emit (LcdSetCursor 0 1);;
  emit (LcdPrint "Step 3/3       ");;
  emit (BottomServoWrite SERVO_OPEN_POS);;
  delay DISPENSE_DELAY;;
  (* Step 4: close the bottom gate *)
  emit (BottomServoWrite SERVO_CLOSED_POS);;
  beep BUZZER_DISPENSE_BEEPS;;
  emit LcdClear;;
  emit (LcdPrint "Medicine");;
  emit (LcdSetCursor 0 1);;
  emit (LcdPrint "Dispensed!");;
  delay 2000;;
  emit LcdClear;;
  displayTime true.

(** ** checkSchedule *)

(** Whether entry [m] is to be dispensed at [now]: the loop's condition. *)
Definition is_due (now : DateTime) (m : Medication) : bool :=
  active m && negb (dispensedToday m) &&
  (hour m =? dt_hour now) && (minute m =? dt_minute now).

(** The body of the [if] inside the loop, for entry [i]. *)
Definition dispense_entry (i : nat) : M unit :=
  emit LcdClear;;
  emit (LcdPrint "MEDICINE TIME!");;
  emit (LcdSetCursor 0 1);;
  emit (LcdPrint "Dispensing #");;
  emit (LcdPrintNum (Z.of_nat i + 1));;
  dispense;;
  update_med i (with_dispensedToday true);;
  t ← millis;
  modify (set_lastActionTime t);;
  delay 5000.

(** One iteration of the loop over the table. *)
Definition checkSchedule_entry (now : DateTime) (i : nat) : M unit :=
  m ← med i;
  if is_due now m then dispense_entry i else ret tt.

Definition checkSchedule_from (now : DateTime) : M unit :=
  (if (dt_hour now =? 0) && (dt_minute now =? 0)
   then resetDailyDispensedFlags else ret tt);;
  forM (seq 0 MAX_MEDICATIONS) (checkSchedule_entry now).

Definition checkSchedule : M unit :=
  now ← rtc_now;
  checkSchedule_from now.

(** ** saveMedications and loadMedications *)

(** The byte a flag puts into an EEPROM cell, and the flag a cell gives. *)
Definition cell_of_flag (f : Byte.byte) : Z := Z.of_N (Byte.to_N f).
Definition flag_of_cell (c : Z) : Byte.byte :=
  match Byte.of_N (Z.to_N (c mod BYTE_MOD)) with
  | Some f => f
  | None => Byte.x00
  end.

(** [EEPROM.put(addr, m)]: the four bytes of the struct, in field order. *)
Definition eeprom_put (addr : Z) (m : Medication) (mem : Z -> Z) : Z -> Z :=
  fun a =>
    if a =? addr then cell_of_flag (active_byte m)
    else if a =? addr + 1 then hour m mod BYTE_MOD
    else if a =? addr + 2 then minute m mod BYTE_MOD
    else if a =? addr + 3 then cell_of_flag (dispensedToday_byte m)
    else mem a.

(** [EEPROM.get(addr, m)]: the four bytes of the struct, as stored. *)
Definition eeprom_get (addr : Z) (mem : Z -> Z) : Medication :=
  Medication_of_bytes (flag_of_cell (mem addr))
                      (mem (addr + 1) mod BYTE_MOD)
                      (mem (addr + 2) mod BYTE_MOD)
                      (flag_of_cell (mem (addr + 3))).

Definition saveMedications : M unit :=
  forM (seq 0 MAX_MEDICATIONS) (fun i =>
    let addr := Z.of_nat i * SIZEOF_MEDICATION in
    m ← med i;
    modify (fun w => set_eeprom (eeprom_put addr m (eeprom w)) w)).

(** One iteration of the loading loop. *)
Definition load_entry (i : nat) : M unit :=
  let addr := Z.of_nat i * SIZEOF_MEDICATION in
  mem ← get eeprom;
  update_med i (fun _ => eeprom_get addr mem);;
  m ← med i;
  if (hour m >? 23) || (minute m >? 59) then
    update_med i (with_active false);;
    update_med i (with_hour 0);;
    update_med i (with_minute 0);;
    update_med i (with_dispensedToday false)
  else ret tt.

Definition loadMedications : M unit :=
  forM (seq 0 MAX_MEDICATIONS) load_entry.

(** ** Interrupt service routines *)

(** [ISR(INT0_vect)]: the wake button. The subtraction is on
    [unsigned long]. *)
Definition ISR_INT0 : M unit :=
  currentTime ← millis;
  last ← get lastButtonTime;
  if (currentTime - last) mod ULONG_MOD >=? DEBOUNCE_TIME then
    asleep ← get inSleepMode;
    (if asleep then
       modify (set_buttonWakeFlag true)
     else
       mode ← get displayMode;
       modify (set_displayMode (Z.rem (mode + 1) DISPLAY_MODES mod BYTE_MOD));;
       modify (set_lastActionTime currentTime));;
    modify (set_lastButtonTime currentTime)
  else ret tt.

(** [ISR(WDT_vect)]: the watchdog timer. *)
Definition ISR_WDT : M unit :=
  modify (set_watchdogWakeFlag true).

(** An interrupt of the environment: time has moved on to [t], then the
    handler runs. *)
Definition deliver (q : Irq) : M unit :=
  match q with
  | ButtonIrq t => modify (set_clock t);; ISR_INT0
  | WatchdogIrq t => modify (set_clock t);; ISR_WDT
  end.

Fixpoint deliver_all (qs : list Irq) : M unit :=
  match qs with
  | [] => ret tt
  | q :: rest => deliver q;; deliver_all rest
  end.

(** ** setupWatchdog and enterSleepMode *)

(** The three register writes that arm the watchdog interrupt (~8 s). *)
Definition setupWatchdog : M unit := emit SetupWatchdog.

(** [sleep_cpu()] followed by [while(!buttonWakeFlag && !watchdogWakeFlag){}]:
    the CPU stays here until the handlers of some batch of interrupts have
    set a wake flag; with no such batch left it stays for ever. *)
Fixpoint await_wake (batches : list (list Irq)) : M unit :=
  match batches with
  | [] => hang
  | qs :: rest =>
      modify (set_irqs rest);;
      deliver_all qs;;
      b ← get buttonWakeFlag;
      wd ← get watchdogWakeFlag;
      if negb b && negb wd then await_wake rest else ret tt
  end.

Definition enterSleepMode : M unit :=
  modify (set_buttonWakeFlag false);;
  modify (set_watchdogWakeFlag false);;
  emit LcdNoBacklight;;
  emit LcdNoDisplay;;
  modify (set_inSleepMode true);;
  setupWatchdog;;
  emit (AdcEnable false);;
  emit SetSleepModePwrDown;;
  emit SleepEnable;;
  emit ClearIntf0;;
  emit SleepCpu;;
  batches ← get irqs;
  await_wake batches;;
  emit SleepDisable;;
  emit (AdcEnable true);;
  emit WdtDisable;;
  modify (set_inSleepMode false).

(** ** Keypad *)

Definition NO_KEY : ascii := zero.

(** The value of a [char] (signed on this target). *)
Definition char_val (c : ascii) : Z :=
  let n := Z.of_N (N_of_ascii c) in
  if n <? 128 then n else n - 256.

Definition key_is (k c : ascii) : bool := char_val k =? char_val c.
Definition key_in (k lo hi : ascii) : bool :=
  (char_val k >=? char_val lo) && (char_val k <=? char_val hi).

(** [keypad.getKey()]: the keys still to come, then NO_KEY for ever. *)
Definition getKey : M ascii := fun w =>
  match keys w with
  | [] => Ret NO_KEY w
  | k :: rest => Ret k (set_keys rest w)
  end.

(** A loop whose every iteration polls the keypad once:
    [while (...) { key = keypad.getKey(); body }]. The body gets the key
    and the loop's local state; it answers [inl s] to go round again and
    [inr r] to leave (a [break], a [return] or an exit condition that has
    become false, told apart by [r]). [ks] are the polls still to come; when
    they are used up the keypad answers NO_KEY for ever, and a body that does
    not leave on it spins for ever. *)
Fixpoint poll_loop {S A : Type} (ks : list ascii)
    (body : ascii -> S -> M (S + A)) (s : S) : M A :=
  match ks with
  | [] =>
      r ← body NO_KEY s;
      match r with
      | inr a => ret a
      | inl _ => hang
      end
  | k :: rest =>
      modify (set_keys rest);;
      r ← body k s;
      match r with
      | inr a => ret a
      | inl s' => poll_loop rest body s'
      end
  end.

Definition touch_lastActionTime : M unit :=
  t ← millis;
  modify (set_lastActionTime t).

(** ** setMedicationTime *)

(** The digit-entry loop for the hour ([limit] 23) and for the minute
    ([limit] 59), which the sketch writes out twice. The loop's local is the
    [byte] being entered; it leaves with [Some value] on '#' and with [None]
    on 'D' (the function's [return]). *)
Definition enter_number_body (prompt : string) (limit : Z)
    (key : ascii) (value : Z) : M (Z + option Z) :=
  touch_lastActionTime;;
  if key_in key "0" "9" then
    let digit := (char_val key - char_val "0") mod BYTE_MOD in
    let value1 :=
      if value =? 0 then digit else (value * 10 + digit) mod BYTE_MOD in
    let value2 := if value1 >? limit then limit else value1 in
    emit LcdClear;;
    emit (LcdPrint prompt);;
    emit (LcdSetCursor 0 1);;
    emit (LcdPrintNum value2);;
    ret (inl value2)
  else if key_is key "#" then
    ret (inr (Some value))
  else if key_is key "*" then
    emit (LcdSetCursor 0 1);;
    emit (LcdPrint "    ");;
    emit (LcdSetCursor 0 1);;
    ret (inl 0)
  else if key_is key "D" then
    ret (inr None)
  else ret (inl value).

Definition enter_number (prompt : string) (limit : Z) : M (option Z) :=
  emit LcdClear;;
  emit (LcdPrint prompt);;
  emit (LcdSetCursor 0 1);;
  ks ← get keys;
  poll_loop ks (enter_number_body prompt limit) 0.

(** The first loop: [Some activeKey] on '1' or '0', [None] on 'D'. *)
Definition active_prompt_body (activeKey : ascii) (_ : unit)
    : M (unit + option ascii) :=
  touch_lastActionTime;;
  if key_is activeKey "1" || key_is activeKey "0" then
    ret (inr (Some activeKey))
  else if key_is activeKey "D" then ret (inr None)
  else ret (inl tt).

(** The prompt for the active flag and its wait. *)
Definition ask_active (index : nat) : M (option ascii) :=
  emit LcdClear;;
  emit (LcdPrint "Set Medicine ");;
  emit (LcdPrintNum (Z.of_nat index + 1));;
  emit (LcdSetCursor 0 1);;
  emit (LcdPrint "Active? 1=Y 0=N");;
  ks ← get keys;
  poll_loop ks active_prompt_body tt.

Definition setMedicationTime (index : nat) : M unit :=
  answer ← ask_active index;
  match answer with
  | None => ret tt
  | Some activeKey =>
      update_med index (with_active (key_is activeKey "1"));;
      m ← med index;
      if negb (active m) then
        emit LcdClear;;
        emit (LcdPrint "Medicine ");;
        emit (LcdPrintNum (Z.of_nat index + 1));;
        emit (LcdSetCursor 0 1);;
        emit (LcdPrint "Deactivated");;
        delay 1500
      else
        h ← enter_number "Set Hour (0-23):" 23;
        match h with
        | None => ret tt
        | Some hour' =>
            update_med index (with_hour hour');;
            mi ← enter_number "Set Minute (0-59):" 59;
            match mi with
            | None => ret tt
            | Some minute' =>
                update_med index (with_minute minute');;
                update_med index (with_dispensedToday false);;
                emit LcdClear;;
                emit (LcdPrint "Medicine ");;
                emit (LcdPrintNum (Z.of_nat index + 1));;
                emit (LcdSetCursor 0 1);;
                emit (LcdPrint "Time Set!");;
                delay 1500
            end
        end
  end.

(** ** setupMedications *)

Definition selection_body (selection : ascii) (_ : unit)
    : M (unit + option ascii) :=
  touch_lastActionTime;;
  if key_in selection "1" "5" then ret (inr (Some selection))
  else if key_is selection "D" then ret (inr None)
  else ret (inl tt).

Definition setupMedications : M unit :=
  emit LcdClear;;
  emit (LcdPrint "Setup Medicine");;
  emit (LcdSetCursor 0 1);;
  emit (LcdPrint "Pick 1-5 D=exit");;
  ks ← get keys;
  picked ← poll_loop ks selection_body tt;
  match picked with
  | None => ret tt
  | Some selection =>
      let index := char_val selection - char_val "1" in
      setMedicationTime (Z.to_nat index);;
      saveMedications
  end.

(** ** displayAllMedications *)

(** The wait inside the loop: [None] on '#' (next entry), [Some tt] on 'D'
    (the function's [return]). *)
Definition review_body (key : ascii) (_ : unit) : M (unit + option unit) :=
  touch_lastActionTime;;
  if key_is key "#" then ret (inr None)
  else if key_is key "D" then ret (inr (Some tt))
  else ret (inl tt).

Definition displayAllMedications : M unit :=
  r ← forM_return (seq 0 MAX_MEDICATIONS) (fun i =>
    m ← med i;
    if active m then
      emit LcdClear;;
      emit (LcdPrint "Med ");;
      emit (LcdPrintNum (Z.of_nat i + 1));;
      emit (LcdPrint ": ");;
      (if hour m <? 10 then emit (LcdPrint "0") else ret tt);;
      emit (LcdPrintNum (hour m));;
      emit (LcdPrint ":");;
      (if minute m <? 10 then emit (LcdPrint "0") else ret tt);;
      emit (LcdPrintNum (minute m));;
      emit (LcdSetCursor 0 1);;
      emit (LcdPrint "#=next | D=exit");;
      ks ← get keys;
      poll_loop ks review_body tt
    else ret None);
  match r with
  | Some _ => ret tt
  | None =>
      emit LcdClear;;
      emit (LcdPrint "End of list");;
      delay 1000
  end.

(** ** loop *)

(** The wait of the manual dispense test: '1' dispenses, 'D' cancels. *)
Definition test_body (testKey : ascii) (_ : unit) : M (unit + unit) :=
  touch_lastActionTime;;
  if key_is testKey "1" then dispense;; ret (inr tt)
  else if key_is testKey "D" then ret (inr tt)
  else ret (inl tt).

(** What follows the two wake checks: keypad, schedule, display, sleep. *)
Definition loop_rest : M unit :=
  key ← getKey;
  (if negb (char_val key =? 0) then
     touch_lastActionTime;;
     (if key_is key "A" then
        modify (set_inSetupMode true);;
        setupMedications;;
        modify (set_inSetupMode false)
      else if key_is key "B" then
        displayAllMedications
      else if key_is key "C" then
        emit LcdClear;;
        emit (LcdPrint "Test dispenser");;
        emit (LcdSetCursor 0 1);;
        emit (LcdPrint "1=Yes D=Cancel");;
        ks ← get keys;
        poll_loop ks test_body tt
      else if key_is key "D" then
        emit LcdClear
      else ret tt);;
     displayTime true
   else ret tt);;
  currentMillis ← millis;
  lastCheck ← get lastCheckTime;
  (if (currentMillis - lastCheck) mod ULONG_MOD >=? CHECK_INTERVAL then
     modify (set_lastCheckTime currentMillis);;
     checkSchedule
   else ret tt);;
  setup1 ← get inSetupMode;
  (if negb setup1 then displayTime false else ret tt);;
  t ← millis;
  lastAction ← get lastActionTime;
  setup2 ← get inSetupMode;
  if ((t - lastAction) mod ULONG_MOD >? SLEEP_TIMEOUT) && negb setup2 then
    emit LcdClear;;
    emit (LcdPrint "Entering sleep");;
    emit (LcdSetCursor 0 1);;
    emit (LcdPrint "Press wake btn");;
    delay 1500;;
    enterSleepMode
  else ret tt.

(** The block run when [buttonWakeFlag] is set. *)
Definition button_wake : M unit :=
  emit NoInterrupts;;
  touch_lastActionTime;;
  emit (SerialPrint "--Woken up manually!--");;
  modify (set_buttonWakeFlag false);;
  emit Interrupts;;
  blinkLED BUTTON_WAKE_BLINKS;;
  emit LcdBacklight;;
  emit LcdDisplay;;
  touch_lastActionTime;;
  t ← millis;
  modify (set_lastCheckTime t);;
  emit LcdClear;;
  emit (LcdPrint "System active");;
  delay 1000;;
  emit LcdClear;;
  displayTime true.

(** The block run when [watchdogWakeFlag && !buttonWakeFlag]; it answers
    [true] when it executed the [return] that ends the iteration. *)
Definition watchdog_wake : M bool :=
  modify (set_watchdogWakeFlag false);;
  blinkLED WATCHDOG_WAKE_BLINKS;;
  due ← checkMedicationDue;
  if due then
    emit LcdBacklight;;
    emit LcdDisplay;;
    touch_lastActionTime;;
    t ← millis;
    modify (set_lastCheckTime t);;
    ret false
  else
    enterSleepMode;;
    ret true.

Definition loop : M unit :=
  b ← get buttonWakeFlag;
  (if b then button_wake else ret tt);;
  wd ← get watchdogWakeFlag;
  b' ← get buttonWakeFlag;
  returned ← (if wd && negb b' then watchdog_wake else ret false);
  if returned then ret tt else loop_rest.

(** * Vocabulary of the statements *)

(** [returns m]: the call always comes back. *)
Definition returns {A} (m : M A) : Prop :=
  forall w, exists a w', m w = Ret a w'.

(** [keeps proj m]: the call leaves [proj] of the world as it was, whether
    it comes back or not. *)
Definition keeps {T A} (proj : World -> T) (m : M A) : Prop :=
  forall w, proj (world_of (m w)) = proj w.

(** [emits P m]: the call only appends to the trace, and only events
    satisfying [P]. *)
Definition emits {A} (P : Event -> Prop) (m : M A) : Prop :=
  forall w, exists evs,
    trace (world_of (m w)) = trace w ++ evs /\ Forall P evs.

(** The reading of the real-time clock the next [rtc.now()] returns. *)
Definition next_reading (w : World) : DateTime := rtc w (rtc_reads w).

(** The minute in which the daily flags are reset. *)
Definition is_midnight (now : DateTime) : bool :=
  (dt_hour now =? 0) && (dt_minute now =? 0).

(** Some entry of the table is due at [now]. *)
Definition some_due (now : DateTime) (meds : list Medication) : bool :=
  existsb (fun i => is_due now (meds !!! i)) (seq 0 MAX_MEDICATIONS).

(** The entries of [l] at the indices [ixs], each rewritten in place. *)
Definition alter_range (g : nat -> Medication -> Medication)
    (ixs : list nat) (l : list Medication) : list Medication :=
  fold_left (fun l' i => alter (g i) i l') ixs l.

(** What the loading loop leaves in a slot whose stored record is [m]. *)
Definition validate (m : Medication) : Medication :=
  if (hour m >? 23) || (minute m >? 59) then default_medication else m.

(** The indices [checkSchedule] finds due, in the order it visits them. *)
Definition due_indices (now : DateTime) (meds : list Medication) : list nat :=
  List.filter (fun i => is_due now (meds !!! i)) (seq 0 MAX_MEDICATIONS).

(** The table after every due entry has been marked dispensed. *)
Definition mark_due (now : DateTime) (meds : list Medication)
    : list Medication :=
  (fun m => if is_due now m then with_dispensedToday true m else m) <$> meds.

(** Kinds of events. *)
Definition is_lcd (e : Event) : bool :=
  match e with
  | LcdBacklight | LcdNoBacklight | LcdDisplay | LcdNoDisplay | LcdClear
  | LcdSetCursor _ _ | LcdPrint _ | LcdPrintNum _ => true
  | _ => false
  end.

Definition is_gate (e : Event) : bool :=
  match e with
  | TopServoWrite _ | BottomServoWrite _ => true
  | _ => false
  end.

Definition is_tone (e : Event) : bool :=
  match e with
  | Tone _ _ _ => true
  | _ => false
  end.

(** The commands that switch the display on. *)
Definition is_display_on (e : Event) : bool :=
  match e with
  | LcdBacklight | LcdDisplay => true
  | _ => false
  end.

(** The gate actuations of a trace in order, each with the time spent in
    [delay] since the actuation before it ([waited] so far). *)
Fixpoint gate_log_from (waited : Z) (evs : list Event) : list (Event * Z) :=
  match evs with
  | [] => []
  | Delay ms :: rest => gate_log_from (waited + ms) rest
  | TopServoWrite p :: rest => (TopServoWrite p, waited) :: gate_log_from 0 rest
  | BottomServoWrite p :: rest =>
      (BottomServoWrite p, waited) :: gate_log_from 0 rest
  | _ :: rest => gate_log_from waited rest
  end.

Definition gate_log (evs : list Event) : list (Event * Z) :=
  gate_log_from 0 evs.

(** What [dispense] sends before it closes the bottom gate ... *)
Definition dispense_opening : list Event :=
  [ LcdClear; LcdPrint "Dispensing..."; LcdSetCursor 0 1; LcdPrint "Step 1/3";
    TopServoWrite SERVO_OPEN_POS; Delay DISPENSE_DELAY;
    LcdSetCursor 0 1; LcdPrint "Step 2/3       ";
    TopServoWrite SERVO_CLOSED_POS; Delay DISPENSE_DELAY;
    LcdSetCursor 0 1; LcdPrint "Step 3/3       ";
    BottomServoWrite SERVO_OPEN_POS; Delay DISPENSE_DELAY ].

(** ... and after it, up to the refresh of the time display. *)
Definition dispense_closing : list Event :=
  [ Tone BUZZER_PIN BUZZER_FREQ BUZZER_DURATION; Delay BUZZER_DURATION;
    NoTone BUZZER_PIN; Delay BUZZER_DURATION;
    Tone BUZZER_PIN BUZZER_FREQ BUZZER_DURATION; Delay BUZZER_DURATION;
    NoTone BUZZER_PIN; Delay BUZZER_DURATION;
    Tone BUZZER_PIN BUZZER_FREQ BUZZER_DURATION; Delay BUZZER_DURATION;
    NoTone BUZZER_PIN;
    LcdClear; LcdPrint "Medicine"; LcdSetCursor 0 1; LcdPrint "Dispensed!";
    Delay 2000; LcdClear ].

(** What [enterSleepMode] sends before the CPU halts. *)
Definition sleep_entry_events : list Event :=
  [ LcdNoBacklight; LcdNoDisplay; SetupWatchdog; AdcEnable false;
    SetSleepModePwrDown; SleepEnable; ClearIntf0; SleepCpu ].


(** ** Concrete states *)

(** A device just started: awake, display mode 0, nothing pending, an
    erased EEPROM, and a real-time clock that reads [now]. *)
Definition idle_world (meds : list Medication) (now : DateTime) : World :=
  mkWorld meds false false false 0 0 0 0 false 99 99 (fun _ => 255) 0
          (fun _ => now) 0 [] [] [].

Definition free_slot : Medication := default_medication.

Definition no_medications : list Medication :=
  [free_slot; free_slot; free_slot; free_slot; free_slot].

(** Two doses at 08:00 (slots 1 and 4), one at 20:30 already dispensed. *)
Definition morning_table : list Medication :=
  [ mkMedication true 8 0 false; free_slot; free_slot;
    mkMedication true 8 0 false; mkMedication true 20 30 true ].

Definition breakfast_world : World :=
  idle_world morning_table (mkDateTime 8 0 0).

(** Woken by the watchdog alone at 09:00, when nothing is due. *)
Definition watchdog_woken_world : World :=
  set_watchdogWakeFlag true (idle_world morning_table (mkDateTime 9 0 0)).

(** An EEPROM with a valid record for slot 0 (active, 08:30), a record
    with minute 77 for slot 1, and erased cells elsewhere. *)
Definition stored_cells (a : Z) : Z :=
  if a =? 0 then 1 else if a =? 1 then 8 else if a =? 2 then 30
  else if a =? 3 then 0
  else if a =? 4 then 1 else if a =? 5 then 9 else if a =? 6 then 77
  else if a =? 7 then 0
  else 255.

Definition booting_world : World :=
  set_eeprom stored_cells (idle_world no_medications (mkDateTime 7 0 0)).

(** Awake, five seconds after start, the button never pressed before. *)
Definition button_world : World :=
  set_clock 5000 (idle_world morning_table (mkDateTime 9 0 0)).


(** One dose at 00:10, the clock at 23:50. *)
Definition late_evening_world : World :=
  idle_world
    [ mkMedication true 0 10 false; free_slot; free_slot; free_slot;
      free_slot ]
    (mkDateTime 23 50 0).

(** One dose at 12:00, dispensed a moment ago; the clock still at 12:00. *)
Definition just_dispensed_world : World :=
  idle_world
    [ mkMedication true 12 0 true; free_slot; free_slot; free_slot;
      free_slot ]
    (mkDateTime 12 0 0).

(** About to sleep at 09:00 with nothing due; during the sleep the watchdog
    fires and the button is pressed before the main context resumes. *)
Definition sleeper_world : World :=
  set_irqs [[WatchdogIrq 60000; ButtonIrq 60000]]
    (idle_world no_medications (mkDateTime 9 0 0)).

(** What the button-wake block sends when the display mode is 0 and the
    clock reads 09:00. *)
Definition button_wake_events : list Event :=
  [ NoInterrupts; SerialPrint "--Woken up manually!--"; Interrupts;
    DigitalWrite WAKE_LED_PIN true; Delay LED_BLINK_DURATION;
    DigitalWrite WAKE_LED_PIN false; Delay LED_BLINK_DURATION;
    DigitalWrite WAKE_LED_PIN true; Delay LED_BLINK_DURATION;
    DigitalWrite WAKE_LED_PIN false;
    LcdBacklight; LcdDisplay;
    LcdClear; LcdPrint "System active"; Delay 1000; LcdClear;
    LcdClear; LcdPrint "Time: "; LcdPrint "0"; LcdPrintNum 9; LcdPrint ":";
    LcdPrint "0"; LcdPrintNum 0; LcdSetCursor 0 1;
    LcdPrint "Press A -> Setup" ].

(** What [checkMedicationDue] logs at 09:00:00 over an empty table. *)
Definition empty_check_log : list Event :=
  [ SerialPrint "Checking medication at: "; SerialPrintNum 9;
    SerialPrint ":"; SerialPrintNum 0; SerialPrint ":"; SerialPrintlnNum 0;
    SerialPrintln "Checking scheduled medications:" ]
  ++ flat_map
       (fun n => [ SerialPrint "  Med #"; SerialPrintNum n; SerialPrint ": ";
                   SerialPrintln "Inactive - skipping" ])
       [1; 2; 3; 4; 5]
  ++ [ SerialPrintln "No medication due at this time" ].

(** ** Further vocabulary *)

(** Every entry of the table has a valid time of day. *)
Definition table_in_range (meds : list Medication) : Prop :=
  Forall (fun m => 0 <= hour m <= 23 /\ 0 <= minute m <= 59) meds.

(** The byte [saveMedications] leaves in EEPROM cell [a] (0 to 19) for the
    table [meds]: slot [a / 4], field [a mod 4]. *)
Definition cell_of (meds : list Medication) (a : Z) : Z :=
  let m := meds !!! Z.to_nat (a / SIZEOF_MEDICATION) in
  let field := a mod SIZEOF_MEDICATION in
  if field =? 0 then cell_of_flag (active_byte m)
  else if field =? 1 then hour m mod BYTE_MOD
  else if field =? 2 then minute m mod BYTE_MOD
  else cell_of_flag (dispensedToday_byte m).

(** The EEPROM after the rounds [ixs] of the saving loop. *)
Definition saved_cells (meds : list Medication) (ixs : list nat)
    (mem : Z -> Z) : Z -> Z :=
  fold_left
    (fun mem' i => eeprom_put (Z.of_nat i * SIZEOF_MEDICATION) (meds !!! i) mem')
    ixs mem.

(** Every hour and minute of the table fits its [byte]. *)
Definition table_of_bytes (meds : list Medication) : Prop :=
  Forall (fun m => 0 <= hour m < BYTE_MOD /\ 0 <= minute m < BYTE_MOD) meds.

(** A device whose table holds a record with minute 77 in slot 1. *)
Definition odd_table : list Medication :=
  [ mkMedication true 8 30 false; mkMedication true 9 77 true; free_slot;
    mkMedication false 23 59 true; free_slot ].

(** The table as the firmware expects it: five entries, valid times. *)
Definition table_ok (meds : list Medication) : Prop :=
  length meds = MAX_MEDICATIONS /\ table_in_range meds.

(** [maintains I m]: if [I] holds when [m] starts it holds in the world [m]
    returns in, or is stuck in. *)
Definition maintains {A} (I : World -> Prop) (m : M A) : Prop :=
  forall w, I w -> I (world_of (m w)).

(** What one round of the digit-entry loop does to its local [value] for
    the key it polled: [inl] to go round again, [inr] to leave. *)
Definition enter_step (limit : Z) (key : ascii) (value : Z) : Z + option Z :=
  if key_in key "0" "9" then
    let digit := (char_val key - char_val "0") mod BYTE_MOD in
    let value1 :=
      if value =? 0 then digit else (value * 10 + digit) mod BYTE_MOD in
    inl (if value1 >? limit then limit else value1)
  else if key_is key "#" then inr (Some value)
  else if key_is key "*" then inl 0
  else if key_is key "D" then inr None
  else inl value.

(** The user types 9 9 # : more than any hour. *)
Definition eager_world : World :=
  set_keys ["9"; "9"; "#"]%char (idle_world morning_table (mkDateTime 9 0 0)).

(** The user answers 1 to the active prompt, types 7 # for the hour, then
    cancels the minute entry with D. *)
Definition cancelling_world : World :=
  set_keys ["1"; "7"; "#"; "D"]%char
    (idle_world morning_table (mkDateTime 9 0 0)).

(** The user presses A, picks slot 3, answers 1 and types 9 9 # 9 9 #. *)
Definition setup_world : World :=
  set_keys ["A"; "3"; "1"; "9"; "9"; "#"; "9"; "9"; "#"]%char
    (idle_world morning_table (mkDateTime 9 0 0)).

(** At 08:00, two seconds after start, so that the schedule is checked. *)
Definition checking_world : World :=
  set_clock 2000 breakfast_world.

(** A reading of the real-time clock within a day. *)
Definition valid_time (now : DateTime) : Prop :=
  0 <= dt_hour now <= 23 /\ 0 <= dt_minute now <= 59.

(** Minutes from [now] to the next time entry [m] is due: later today if it
    has not been dispensed and its time has not passed, tomorrow otherwise
    (the arithmetic of [getTimeToNextMedication], without the 16-bit wrap). *)
Definition minutes_until (now : DateTime) (m : Medication) : Z :=
  let medicationTotalMinutes := hour m * 60 + minute m in
  let currentTotalMinutes := dt_hour now * 60 + dt_minute now in
  if dispensedToday m then
    medicationTotalMinutes + 24 * 60 - currentTotalMinutes
  else if medicationTotalMinutes - currentTotalMinutes <? 0 then
    medicationTotalMinutes - currentTotalMinutes + 24 * 60
  else medicationTotalMinutes - currentTotalMinutes.

(** Whether an entry is dispensed by a check in the midnight minute. *)
Definition is_midnight_dose (m : Medication) : bool :=
  active m && (hour m =? 0) && (minute m =? 0).

(** A dose at 00:00 already marked dispensed, one at 08:00 dispensed, and
    the clock at 00:00:30, two seconds after start. *)
Definition midnight_world : World :=
  set_clock 2000
    (idle_world
       [ mkMedication true 0 0 true; mkMedication true 8 0 true; free_slot;
         free_slot; free_slot ]
       (mkDateTime 0 0 30)).

(** The four commands one dispensing sends to the gates. *)
Definition gate_cycle : list Event :=
  [ TopServoWrite SERVO_OPEN_POS; TopServoWrite SERVO_CLOSED_POS;
    BottomServoWrite SERVO_OPEN_POS; BottomServoWrite SERVO_CLOSED_POS ].

(** The gate commands in the trace are [base] followed by whole cycles. *)
Definition whole_cycles (base : list Event) (w : World) : Prop :=
  exists k,
    List.filter is_gate (trace w) = base ++ concat (replicate k gate_cycle).

(** What the wake-up blocks of [loop] leave alone: the EEPROM and the keys
    still to be polled. *)
Definition store_keys (w : World) : (Z -> Z) * list ascii :=
  (eeprom w, keys w).

Definition is_watchdog (q : Irq) : bool :=
  match q with
  | WatchdogIrq _ => true
  | ButtonIrq _ => false
  end.

(** What holds of the world [w'] some interrupts later, for a device that
    was asleep in [w]: it is still asleep, a wake flag that was set is still
    set, and neither the display mode nor the inactivity timer has moved. *)
Definition slept (w w' : World) : Prop :=
  inSleepMode w' = true /\
  displayMode w' = displayMode w /\
  lastActionTime w' = lastActionTime w /\
  trace w' = trace w /\
  (buttonWakeFlag w = true -> buttonWakeFlag w' = true) /\
  (watchdogWakeFlag w = true -> watchdogWakeFlag w' = true).

(** Two seconds after start, the button last pressed 100 ms ago; a bounce
    of the button 50 ms from now, then the watchdog eight seconds later. *)
Definition dozing_world : World :=
  set_irqs [[ButtonIrq 2050]; [WatchdogIrq 10000]]
    (set_lastButtonTime 1900
       (set_clock 2000 (idle_world morning_table (mkDateTime 9 0 0)))).

Definition is_led_on (e : Event) : bool :=
  match e with
  | DigitalWrite _ true => true
  | _ => false
  end.

(** The commands of an awake device that is neither dispensing nor going
    to sleep. *)
Definition stays_up (e : Event) : bool :=
  match e with
  | TopServoWrite _ | BottomServoWrite _ | SleepCpu | LcdNoBacklight
  | LcdNoDisplay => false
  | _ => true
  end.

(** The keys to come, the setup flag, the clock and the two timers. *)
Definition timers (w : World) : list ascii * bool * Z * Z * Z :=
  (keys w, inSetupMode w, clock w, lastActionTime w, lastCheckTime w).

(** Woken by the watchdog alone at 08:00, ten seconds after start, with the
    doses of slots 1 and 4 due. *)
Definition due_woken_world : World :=
  set_watchdogWakeFlag true (set_clock 10000 breakfast_world).

(** What no interrupt handler touches: the table, the EEPROM, the keys to
    come, the trace of commands sent to the peripherals and the sleep
    flag. *)
Definition main_state (w : World)
    : list Medication * (Z -> Z) * list ascii * list Event * bool :=
  (medications w, eeprom w, keys w, trace w, inSleepMode w).

Definition mode_valid (w : World) : Prop :=
  0 <= displayMode w < DISPLAY_MODES.

(** What [loop] shows before it goes to sleep. *)
Definition sleep_announcement : list Event :=
  [ LcdClear; LcdPrint "Entering sleep"; LcdSetCursor 0 1;
    LcdPrint "Press wake btn"; Delay 1500 ].

(** Idle at 09:00, 10.5 s after the last key and just after a schedule
    check; no interrupt will come. *)
Definition weary_world : World :=
  set_lastCheckTime 10500
    (set_clock 10500 (idle_world morning_table (mkDateTime 9 0 0))).

(** What redrawing the display leaves alone. *)
Definition wake_view (w : World)
    : list Medication * bool * bool * list ascii * bool * Z * Z * Z
      * (nat -> DateTime) * list (list Irq) :=
  (medications w, buttonWakeFlag w, watchdogWakeFlag w, keys w,
   inSetupMode w, clock w, lastActionTime w, lastCheckTime w, rtc w, irqs w).

(** Woken by the button at 09:00, a minute after start, nothing due. *)
Definition button_woken_world : World :=
  set_buttonWakeFlag true
    (set_clock 60000 (idle_world morning_table (mkDateTime 9 0 0))).

(** What the scheduler sends for the due entry [i]: the announcement with
    the entry's number, the dispensing sequence, what the refresh of the time
    display [shown] and the five seconds for which the result stays on the
    display. *)
Definition dose_events (i : nat) (shown : list Event) : list Event :=
  [ LcdClear; LcdPrint "MEDICINE TIME!"; LcdSetCursor 0 1;
    LcdPrint "Dispensing #"; LcdPrintNum (Z.of_nat i + 1) ]
  ++ dispense_opening ++ BottomServoWrite SERVO_CLOSED_POS
  :: dispense_closing ++ shown ++ [Delay 5000].

(** The time one dispensing by the scheduler blocks: three gate delays,
    the beeps, the confirmation and the hold. *)
Definition DOSE_DURATION : Z :=
  3 * DISPENSE_DELAY + 5 * BUZZER_DURATION + 2000 + 5000.

(** An EEPROM whose record for slot 0 has a valid time (08:30) between two
    flag bytes that are neither 0 nor 1, as a save interrupted on an erased
    chip can leave them; the other cells are erased. *)
Definition worn_cells (a : Z) : Z :=
  if a =? 0 then 2 else if a =? 1 then 8 else if a =? 2 then 30 else 255.

Definition worn_world : World :=
  set_eeprom worn_cells (idle_world no_medications (mkDateTime 7 0 0)).

(** * Reasoning principles *)

(** The flags of an entry: what an assignment stores is what is read, and a
    byte put into an EEPROM cell is the byte the cell gives back. *)
Lemma flag_set_of_bool b : flag_set (flag_of_bool b) = b.
Proof. now destruct b. Qed.

Lemma active_with_active b m : active (with_active b m) = b.
Proof. apply flag_set_of_bool. Qed.

Lemma dispensedToday_with_dispensedToday b m :
  dispensedToday (with_dispensedToday b m) = b.
Proof. apply flag_set_of_bool. Qed.

Lemma cell_of_flag_range f : 0 <= cell_of_flag f < BYTE_MOD.
Proof.
  unfold cell_of_flag, BYTE_MOD. pose proof (Byte.to_N_bounded f). lia.
Qed.

Lemma flag_of_cell_of_flag f : flag_of_cell (cell_of_flag f) = f.
Proof.
  unfold flag_of_cell. rewrite Z.mod_small by apply cell_of_flag_range.
  unfold cell_of_flag. now rewrite N2Z.id, Byte.of_to_N.
Qed.

(** Worlds built by nested setters, brought back to one constructor. *)
Ltac norm_world :=
  cbv beta delta
      [set_medications set_buttonWakeFlag set_watchdogWakeFlag
       set_inSleepMode set_displayMode set_lastButtonTime set_lastActionTime
       set_lastCheckTime set_inSetupMode set_displayStatics set_eeprom
       set_clock set_rtc_reads set_keys set_irqs set_trace];
  cbn [medications buttonWakeFlag watchdogWakeFlag inSleepMode displayMode
       lastButtonTime lastActionTime lastCheckTime inSetupMode
       lastDisplayedMinute lastDisplayMode eeprom clock rtc rtc_reads keys
       irqs trace world_of].

(** Equations that execute the statement at the head of a sequence. *)
Lemma bind_ret {A B} (a : A) (k : A -> M B) w : bind (ret a) k w = k a w.
Proof. reflexivity. Qed.

Lemma bind_get {A B} (f : World -> A) (k : A -> M B) w :
  bind (get f) k w = k (f w) w.
Proof. reflexivity. Qed.

Lemma bind_modify {B} f (k : unit -> M B) w :
  bind (modify f) k w = k tt (f w).
Proof. reflexivity. Qed.

Lemma bind_emit {B} e (k : unit -> M B) w :
  bind (emit e) k w = k tt (set_trace (trace w ++ [e]) w).
Proof. reflexivity. Qed.

Lemma bind_delay {B} ms (k : unit -> M B) w :
  bind (delay ms) k w
  = k tt (set_clock (clock w + ms) (set_trace (trace w ++ [Delay ms]) w)).
Proof. reflexivity. Qed.

Lemma bind_millis {B} (k : Z -> M B) w :
  bind millis k w = k (clock w mod ULONG_MOD) w.
Proof. reflexivity. Qed.

Lemma bind_rtc_now {B} (k : DateTime -> M B) w :
  bind rtc_now k w = k (next_reading w) (set_rtc_reads (S (rtc_reads w)) w).
Proof. reflexivity. Qed.

Lemma bind_med {B} i (k : Medication -> M B) w :
  bind (med i) k w = k (medications w !!! i) w.
Proof. reflexivity. Qed.

Lemma bind_update_med {B} i f (k : unit -> M B) w :
  bind (update_med i f) k w
  = k tt (set_medications (alter f i (medications w)) w).
Proof. reflexivity. Qed.

Lemma bind_bind {A B C} (m : M A) (k : A -> M B) (h : B -> M C) w :
  bind (bind m k) h w = bind m (fun a => bind (k a) h) w.
Proof. unfold bind. now destruct (m w). Qed.

Ltac run1 :=
  first
    [ rewrite bind_ret | rewrite bind_get | rewrite bind_modify
    | rewrite bind_emit | rewrite bind_delay | rewrite bind_millis
    | rewrite bind_rtc_now | rewrite bind_med | rewrite bind_update_med
    | rewrite bind_bind ];
  norm_world.

Ltac run := repeat run1; norm_world.

Lemma bind_Ret {A B} (m : M A) (k : A -> M B) w a w1 :
  m w = Ret a w1 -> bind m k w = k a w1.
Proof. intros E. unfold bind. now rewrite E. Qed.

Lemma bind_Hang {A B} (m : M A) (k : A -> M B) w w1 :
  m w = Hang w1 -> bind m k w = Hang w1.
Proof. intros E. unfold bind. now rewrite E. Qed.

Lemma returns_ret {A} (a : A) : returns (ret a).
Proof. intros w. now exists a, w. Qed.

Lemma returns_bind {A B} (m : M A) (k : A -> M B) :
  returns m -> (forall a, returns (k a)) -> returns (bind m k).
Proof.
  intros Hm Hk w. destruct (Hm w) as (a & w1 & E).
  rewrite (bind_Ret _ _ _ _ _ E). apply Hk.
Qed.

Lemma returns_get {A} (f : World -> A) : returns (get f).
Proof. intros w. now exists (f w), w. Qed.

Lemma returns_modify f : returns (modify f).
Proof. intros w. now exists tt, (f w). Qed.

Lemma returns_forM ixs body :
  (forall i, returns (body i)) -> returns (forM ixs body).
Proof.
  intros Hb. induction ixs as [|i rest IH]; simpl.
  - apply returns_ret.
  - apply returns_bind; auto.
Qed.

Section Frames.
Context {T : Type} (proj : World -> T).

Lemma keeps_ret {A} (a : A) : keeps proj (ret a).
Proof. now intros w. Qed.

Lemma keeps_hang {A} : keeps proj (@hang A).
Proof. now intros w. Qed.

Lemma keeps_get {A} (f : World -> A) : keeps proj (get f).
Proof. now intros w. Qed.

Lemma keeps_modify f : (forall w, proj (f w) = proj w) -> keeps proj (modify f).
Proof. intros H w. apply H. Qed.

Lemma keeps_bind {A B} (m : M A) (k : A -> M B) :
  keeps proj m -> (forall a, keeps proj (k a)) -> keeps proj (bind m k).
Proof.
  intros Hm Hk w. unfold bind. specialize (Hm w).
  destruct (m w) as [a w1|w1]; simpl in *.
  - now rewrite Hk.
  - exact Hm.
Qed.

Lemma keeps_forM ixs body :
  (forall i, keeps proj (body i)) -> keeps proj (forM ixs body).
Proof.
  intros Hb. induction ixs as [|i rest IH]; simpl.
  - apply keeps_ret.
  - apply keeps_bind; auto.
Qed.

Lemma keeps_forM_return {A} ixs (body : nat -> M (option A)) :
  (forall i, keeps proj (body i)) -> keeps proj (forM_return ixs body).
Proof.
  intros Hb. induction ixs as [|i rest IH]; simpl.
  - apply keeps_ret.
  - apply keeps_bind; [apply Hb|]. intros [a|]; [apply keeps_ret | exact IH].
Qed.

Lemma keeps_poll_loop {S A} ks (body : ascii -> S -> M (S + A)) s :
  (forall x w, proj (set_keys x w) = proj w) ->
  (forall k s', keeps proj (body k s')) -> keeps proj (poll_loop ks body s).
Proof.
  intros Hk Hb. revert s. induction ks as [|k rest IH]; intros s; simpl.
  - apply keeps_bind; [apply Hb|].
    intros [s'|a]; [apply keeps_hang | apply keeps_ret].
  - apply keeps_bind; [apply keeps_modify, Hk|]. intros _.
    apply keeps_bind; [apply Hb|]. intros [s'|a]; [apply IH | apply keeps_ret].
Qed.

End Frames.

Section Emissions.
Context (P : Event -> Prop).

Lemma emits_silent {A} (m : M A) : keeps trace m -> emits P m.
Proof.
  intros H w. exists []. rewrite H, app_nil_r.
  split; [reflexivity | constructor].
Qed.

Lemma emits_emit e : P e -> emits P (emit e).
Proof.
  intros H w. exists [e]. split; [reflexivity | repeat constructor; exact H].
Qed.

Lemma emits_bind {A B} (m : M A) (k : A -> M B) :
  emits P m -> (forall a, emits P (k a)) -> emits P (bind m k).
Proof.
  intros Hm Hk w. unfold bind. destruct (Hm w) as (e1 & E1 & F1).
  destruct (m w) as [a w1|w1]; simpl in *.
  - destruct (Hk a w1) as (e2 & E2 & F2). exists (e1 ++ e2).
    rewrite E2, E1, app_assoc. split; [reflexivity | now apply Forall_app].
  - now exists e1.
Qed.

Lemma emits_forM ixs body :
  (forall i, emits P (body i)) -> emits P (forM ixs body).
Proof.
  intros Hb. induction ixs as [|i rest IH]; simpl.
  - apply emits_silent, keeps_ret.
  - apply emits_bind; auto.
Qed.

Lemma emits_forM_return {A} ixs (body : nat -> M (option A)) :
  (forall i, emits P (body i)) -> emits P (forM_return ixs body).
Proof.
  intros Hb. induction ixs as [|i rest IH]; simpl.
  - apply emits_silent, keeps_ret.
  - apply emits_bind; [apply Hb|].
    intros [a|]; [apply emits_silent, keeps_ret | exact IH].
Qed.

Lemma emits_poll_loop {S A} ks (body : ascii -> S -> M (S + A)) s :
  (forall k s', emits P (body k s')) -> emits P (poll_loop ks body s).
Proof.
  intros Hb. revert s. induction ks as [|k rest IH]; intros s; simpl.
  - apply emits_bind; [apply Hb|].
    intros [s'|a]; apply emits_silent; [apply keeps_hang | apply keeps_ret].
  - apply emits_bind; [apply emits_silent, keeps_modify; reflexivity|].
    intros _. apply emits_bind; [apply Hb|].
    intros [s'|a]; [apply IH | apply emits_silent, keeps_ret].
Qed.

End Emissions.

(** * The table and its loops *)

Lemma set_medications_twice x y w :
  set_medications x (set_medications y w) = set_medications x w.
Proof. reflexivity. Qed.

Lemma set_medications_same w : set_medications (medications w) w = w.
Proof. now destruct w. Qed.

(** A loop that rewrites entry [i] at its [i]-th round rewrites the table
    and nothing else. *)
Lemma forM_update_med g ixs w :
  forM ixs (fun i => update_med i (g i)) w
  = Ret tt (set_medications (alter_range g ixs (medications w)) w).
Proof.
  revert w. induction ixs as [|i rest IH]; intros w; simpl.
  - unfold ret. now rewrite set_medications_same.
  - unfold bind at 1, update_med at 1, modify. now rewrite IH.
Qed.

Lemma alter_range_seq_lookup g n : forall k l i,
  alter_range g (seq k n) l !! i
  = if decide (k <= i < k + n)%nat then g i <$> l !! i else l !! i.
Proof.
  induction n as [|n IH]; intros k l i; simpl.
  - case_decide; [lia | reflexivity].
  - unfold alter_range in *. simpl. rewrite IH.
    destruct (decide (i = k)) as [->|Hne].
    + rewrite list_lookup_alter_eq. repeat case_decide; try lia. reflexivity.
    + rewrite list_lookup_alter_ne by congruence.
      repeat case_decide; try lia; reflexivity.
Qed.

Lemma alter_range_whole f (l : list Medication) :
  alter_range (fun _ => f) (seq 0 (length l)) l = f <$> l.
Proof.
  apply list_eq. intros i. rewrite alter_range_seq_lookup, list_lookup_fmap.
  case_decide as H; [reflexivity|].
  rewrite lookup_ge_None_2 by lia. reflexivity.
Qed.

Lemma resetDailyDispensedFlags_run w :
  length (medications w) = MAX_MEDICATIONS ->
  resetDailyDispensedFlags w
  = Ret tt (set_medications (with_dispensedToday false <$> medications w) w).
Proof.
  intros Hlen. unfold resetDailyDispensedFlags.
  rewrite (forM_update_med (fun _ => with_dispensedToday false)).
  now rewrite <- Hlen, alter_range_whole.
Qed.

(** C7. The midnight reset clears [dispensedToday] in all five entries,
    changes nothing else (neither another field of an entry nor anything
    outside the table), and a second reset leaves the state the first one
    produced exactly as it is. *)
Theorem resetDailyDispensedFlags_idempotent (w : World) :
  length (medications w) = MAX_MEDICATIONS ->
  exists w1,
    resetDailyDispensedFlags w = Ret tt w1 /\
    w1 = set_medications (medications w1) w /\
    length (medications w1) = MAX_MEDICATIONS /\
    (forall i m, medications w !! i = Some m ->
       medications w1 !! i
       = Some (Medication_of_bytes (active_byte m) (hour m) (minute m)
                                   (flag_of_bool false))) /\
    resetDailyDispensedFlags w1 = Ret tt w1.
Proof.
  intros Hlen. eexists. split; [apply resetDailyDispensedFlags_run, Hlen|].
  simpl. repeat split.
  - now rewrite length_fmap.
  - intros i m Hi. now rewrite list_lookup_fmap, Hi.
  - rewrite resetDailyDispensedFlags_run by (simpl; now rewrite length_fmap).
    simpl. rewrite set_medications_twice. do 2 f_equal.
    rewrite <- list_fmap_compose. apply list_fmap_ext. now intros ? [].
Qed.

(** * checkMedicationDue *)

Lemma is_due_spec now m :
  is_due now m = true <->
  active m = true /\ dispensedToday m = false /\
  hour m = dt_hour now /\ minute m = dt_minute now.
Proof.
  unfold is_due. rewrite !andb_true_iff, negb_true_iff, !Z.eqb_eq. tauto.
Qed.

Lemma is_midnight_spec now :
  is_midnight now = true <-> dt_hour now = 0 /\ dt_minute now = 0.
Proof. unfold is_midnight. now rewrite andb_true_iff, !Z.eqb_eq. Qed.

Lemma some_due_spec now meds :
  some_due now meds = true <->
  exists i m, (i < MAX_MEDICATIONS)%nat /\ meds !! i = Some m /\
              is_due now m = true.
Proof.
  unfold some_due. rewrite existsb_exists. split.
  - intros (i & Hin & Hdue). apply in_seq in Hin.
    destruct (meds !! i) as [m|] eqn:Hi.
    + exists i, m. rewrite (list_lookup_total_correct _ _ _ Hi) in Hdue.
      repeat split; try lia; auto.
    + rewrite list_lookup_total_alt, Hi in Hdue. discriminate.
  - intros (i & m & Hlt & Hi & Hdue). exists i. split.
    + apply in_seq. lia.
    + now rewrite (list_lookup_total_correct _ _ _ Hi).
Qed.

Lemma checkMedicationDue_entry_run now i w :
  exists w',
    checkMedicationDue_entry now i w
    = Ret (if is_due now (medications w !!! i) then Some true else None) w'
    /\ medications w' = medications w.
Proof.
  unfold checkMedicationDue_entry, is_due, bind, emit, modify, med, get, ret.
  simpl. generalize (medications w !!! i). intros m.
  destruct (active m); simpl; [|eexists; split; reflexivity].
  destruct (dispensedToday m); simpl; [eexists; split; reflexivity|].
  destruct ((hour m =? dt_hour now) && (minute m =? dt_minute now));
    eexists; split; reflexivity.
Qed.

Lemma checkMedicationDue_loop_run now ixs : forall w,
  exists w',
    forM_return ixs (checkMedicationDue_entry now) w
    = Ret (if existsb (fun i => is_due now (medications w !!! i)) ixs
           then Some true else None) w'
    /\ medications w' = medications w.
Proof.
  induction ixs as [|i rest IH]; intros w; simpl.
  - now exists w.
  - destruct (checkMedicationDue_entry_run now i w) as (w1 & E1 & M1).
    rewrite (bind_Ret _ _ _ _ _ E1).
    destruct (is_due now (medications w !!! i)); simpl.
    + now exists w1.
    + destruct (IH w1) as (w2 & E2 & M2). rewrite M1 in E2.
      exists w2. split; [exact E2 | congruence].
Qed.

(** What [checkMedicationDue] answers, from the table and the clock alone. *)
Lemma checkMedicationDue_result w :
  exists w',
    checkMedicationDue w
    = Ret (negb (is_midnight (next_reading w))
           && some_due (next_reading w) (medications w)) w'.
Proof.
  unfold checkMedicationDue. destruct w as [meds]. run.
  set (now := next_reading _). unfold is_midnight.
  destruct ((dt_hour now =? 0) && (dt_minute now =? 0)); simpl negb.
  - run. unfold resetDailyDispensedFlags.
    rewrite (bind_Ret _ _ _ _ _ (forM_update_med _ _ _)).
    eexists. reflexivity.
  - run.
    match goal with |- context [bind (forM_return _ _) _ ?w0] =>
      destruct (checkMedicationDue_loop_run now (seq 0 MAX_MEDICATIONS) w0)
        as (w1 & E1 & _) end.
    rewrite (bind_Ret _ _ _ _ _ E1). norm_world.
    fold (some_due now meds).
    destruct (some_due now meds); run; eexists; reflexivity.
Qed.

(** C1. [checkMedicationDue] returns false in the midnight minute whatever
    the table holds, and at any other time it returns true exactly when
    some entry is active, not yet dispensed today, and set to the current
    hour and minute. *)
Theorem checkMedicationDue_iff (w : World) :
  exists b w',
    checkMedicationDue w = Ret b w' /\
    (dt_hour (next_reading w) = 0 /\ dt_minute (next_reading w) = 0 ->
     b = false) /\
    (~ (dt_hour (next_reading w) = 0 /\ dt_minute (next_reading w) = 0) ->
     (b = true <->
      exists i m, (i < MAX_MEDICATIONS)%nat /\
        medications w !! i = Some m /\
        active m = true /\ dispensedToday m = false /\
        hour m = dt_hour (next_reading w) /\
        minute m = dt_minute (next_reading w))).
Proof.
  destruct (checkMedicationDue_result w) as (w' & E).
  eexists _, w'. split; [exact E|]. split.
  - intros Hmid. apply is_midnight_spec in Hmid. now rewrite Hmid.
  - intros Hnot. destruct (is_midnight (next_reading w)) eqn:Hmid.
    + now apply is_midnight_spec in Hmid.
    + simpl. rewrite some_due_spec. split.
      * intros (i & m & Hlt & Hi & Hdue). apply is_due_spec in Hdue.
        now exists i, m.
      * intros (i & m & Hlt & Hi & Hdue). exists i, m.
        now rewrite is_due_spec.
Qed.

(** * Blocks that return, keep a part of the world, emit only some events *)

Lemma returns_emit e : returns (emit e).
Proof. apply returns_modify. Qed.

Lemma returns_rtc_now : returns rtc_now.
Proof. intros w. eexists _, _. reflexivity. Qed.

Lemma returns_forM_return {A} ixs (body : nat -> M (option A)) :
  (forall i, returns (body i)) -> returns (forM_return ixs body).
Proof.
  intros Hb. induction ixs as [|i rest IH]; simpl.
  - apply returns_ret.
  - apply returns_bind; [apply Hb|]. intros [a|]; [apply returns_ret | exact IH].
Qed.

Lemma keeps_rtc_now {T} (proj : World -> T) :
  (forall n w, proj (set_rtc_reads n w) = proj w) -> keeps proj rtc_now.
Proof. intros H w. apply H. Qed.

Lemma keeps_getKey {T} (proj : World -> T) :
  (forall x w, proj (set_keys x w) = proj w) -> keeps proj getKey.
Proof. intros H w. unfold getKey. destruct (keys w); simpl; auto. Qed.

Lemma keeps_Ret {T A} (proj : World -> T) (m : M A) w a w1 :
  keeps proj m -> m w = Ret a w1 -> proj w1 = proj w.
Proof. intros H E. specialize (H w). now rewrite E in H. Qed.

Lemma emits_Ret {A} P (m : M A) w a w1 :
  emits P m -> m w = Ret a w1 ->
  exists evs, trace w1 = trace w ++ evs /\ Forall P evs.
Proof. intros H E. specialize (H w). now rewrite E in H. Qed.

Create HintDb prog.

(** Goals [returns m], [keeps proj m] and [emits P m], by the shape of [m]. *)
Ltac prog_step :=
  lazymatch goal with
  | |- forall _, _ => intros
  | |- _ (if ?b then _ else _) => destruct b
  | |- _ (match ?x with _ => _ end) => destruct x
  | |- returns (ret _) => apply returns_ret
  | |- returns (get _) => apply returns_get
  | |- returns (modify _) => apply returns_modify
  | |- returns (emit _) => apply returns_emit
  | |- returns (delay _) => unfold delay
  | |- returns millis => unfold millis
  | |- returns (med _) => unfold med
  | |- returns (update_med _ _) => unfold update_med
  | |- returns touch_lastActionTime => unfold touch_lastActionTime
  | |- returns rtc_now => apply returns_rtc_now
  | |- returns (bind _ _) => apply returns_bind
  | |- returns (forM _ _) => apply returns_forM
  | |- returns (forM_return _ _) => apply returns_forM_return
  | |- keeps _ (ret _) => apply keeps_ret
  | |- keeps _ hang => apply keeps_hang
  | |- keeps _ (get _) => apply keeps_get
  | |- keeps _ (modify _) => apply keeps_modify; intros; reflexivity
  | |- keeps _ (emit _) => unfold emit
  | |- keeps _ (delay _) => unfold delay
  | |- keeps _ millis => unfold millis
  | |- keeps _ (med _) => unfold med
  | |- keeps _ touch_lastActionTime => unfold touch_lastActionTime
  | |- keeps _ rtc_now => apply keeps_rtc_now; intros; reflexivity
  | |- keeps _ getKey => apply keeps_getKey; intros; reflexivity
  | |- keeps _ (bind _ _) => apply keeps_bind
  | |- keeps _ (forM _ _) => apply keeps_forM
  | |- keeps _ (forM_return _ _) => apply keeps_forM_return
  | |- keeps _ (poll_loop _ _ _) =>
      apply keeps_poll_loop; [intros; reflexivity|]
  | |- emits _ (emit _) => apply emits_emit
  | |- emits _ (delay _) => unfold delay
  | |- emits _ millis => unfold millis
  | |- emits _ (med _) => unfold med
  | |- emits _ (update_med _ _) => unfold update_med
  | |- emits _ touch_lastActionTime => unfold touch_lastActionTime
  | |- emits _ (ret _) => apply emits_silent, keeps_ret
  | |- emits _ hang => apply emits_silent, keeps_hang
  | |- emits _ (get _) => apply emits_silent, keeps_get
  | |- emits _ (modify _) =>
      apply emits_silent, keeps_modify; intros; reflexivity
  | |- emits _ rtc_now =>
      apply emits_silent, keeps_rtc_now; intros; reflexivity
  | |- emits _ getKey =>
      apply emits_silent, keeps_getKey; intros; reflexivity
  | |- emits _ (bind _ _) => apply emits_bind
  | |- emits _ (forM _ _) => apply emits_forM
  | |- emits _ (forM_return _ _) => apply emits_forM_return
  | |- emits _ (poll_loop _ _ _) => apply emits_poll_loop
  | |- _ => solve [auto with prog nocore]
  end.

Ltac prog := repeat prog_step.

Lemma returns_beep count : returns (beep count).
Proof. unfold beep. prog. Qed.

Lemma returns_blinkLED count : returns (blinkLED count).
Proof. unfold blinkLED. prog. Qed.

Lemma returns_displayTime force : returns (displayTime force).
Proof. unfold displayTime, getTimeToNextMedication. prog. Qed.

#[export] Hint Resolve returns_beep returns_blinkLED returns_displayTime
  : prog.

Lemma returns_dispense : returns dispense.
Proof. unfold dispense. prog. Qed.

(** Nothing but [update_med] writes the table. *)
Lemma keeps_medications_displayTime force :
  keeps medications (displayTime force).
Proof. unfold displayTime, getTimeToNextMedication. prog. Qed.

Lemma keeps_medications_dispense : keeps medications dispense.
Proof.
  pose proof keeps_medications_displayTime. unfold dispense, beep. prog.
Qed.

(** * checkSchedule *)

Lemma dispense_run w :
  exists w', dispense w = Ret tt w' /\ medications w' = medications w.
Proof.
  destruct (returns_dispense w) as ([] & w' & E). exists w'.
  split; [exact E|]. exact (keeps_Ret _ _ _ _ _ keeps_medications_dispense E).
Qed.

Lemma dispense_entry_run i w :
  exists w',
    dispense_entry i w = Ret tt w' /\
    medications w' = alter (with_dispensedToday true) i (medications w).
Proof.
  unfold dispense_entry. run.
  match goal with |- context [bind dispense _ ?w0] =>
    destruct (dispense_run w0) as (w1 & E1 & M1) end.
  rewrite (bind_Ret _ _ _ _ _ E1). run. rewrite M1. norm_world.
  eexists. split; reflexivity.
Qed.

(** The rounds [k], [k+1], ... of the loop: each looks at an entry no
    earlier round has written, so the loop dispenses exactly the entries
    that were due when it started, in the order of their indices. *)
Lemma checkSchedule_loop now n : forall k w,
  exists w',
    forM (seq k n) (checkSchedule_entry now) w = Ret tt w' /\
    forM (List.filter (fun i => is_due now (medications w !!! i)) (seq k n))
         dispense_entry w = Ret tt w' /\
    forall i,
      medications w' !! i
      = if decide (k <= i < k + n)%nat
        then (fun m => if is_due now m then with_dispensedToday true m else m)
               <$> medications w !! i
        else medications w !! i.
Proof.
  induction n as [|n IH]; intros k w.
  - exists w. repeat split. intros i. case_decide; [lia | reflexivity].
  - cbn [seq forM List.filter]. unfold checkSchedule_entry at 1.
    rewrite bind_bind, bind_med.
    destruct (is_due now (medications w !!! k)) eqn:Hdue.
    + destruct (dispense_entry_run k w) as (w1 & E1 & M1).
      destruct (IH (S k) w1) as (w2 & E2 & F2 & L2).
      exists w2.
      rewrite (bind_Ret _ _ _ _ _ E1). cbn [forM].
      rewrite (bind_Ret _ _ _ _ _ E1). split; [exact E2|]. split.
      * rewrite <- F2. f_equal. apply List.filter_ext_in.
        intros i Hi. apply in_seq in Hi. rewrite M1.
        rewrite list_lookup_total_alter_ne by lia. reflexivity.
      * intros i. rewrite L2, M1.
        destruct (decide (i = k)) as [->|Hne].
        -- rewrite list_lookup_alter_eq. repeat case_decide; try lia.
           destruct (medications w !! k) as [m|] eqn:Hk; [|reflexivity].
           simpl. rewrite (list_lookup_total_correct _ _ _ Hk) in Hdue.
           now rewrite Hdue.
        -- rewrite list_lookup_alter_ne by congruence.
           repeat case_decide; try lia; reflexivity.
    + rewrite bind_ret.
      destruct (IH (S k) w) as (w2 & E2 & F2 & L2). exists w2.
      split; [exact E2|]. split; [exact F2|].
      intros i. rewrite L2. destruct (decide (i = k)) as [->|Hne].
      * repeat case_decide; try lia.
        destruct (medications w !! k) as [m|] eqn:Hk; [|reflexivity].
        simpl. rewrite (list_lookup_total_correct _ _ _ Hk) in Hdue.
        now rewrite Hdue.
      * repeat case_decide; try lia; reflexivity.
Qed.

(** * dispense *)

Lemma bind_beep_dispense {B} (k : unit -> M B) w :
  bind (beep BUZZER_DISPENSE_BEEPS) k w
  = k tt (set_clock (clock w + 5 * BUZZER_DURATION)
            (set_trace
               (trace w ++
                [ Tone BUZZER_PIN BUZZER_FREQ BUZZER_DURATION;
                  Delay BUZZER_DURATION;
                  NoTone BUZZER_PIN; Delay BUZZER_DURATION;
                  Tone BUZZER_PIN BUZZER_FREQ BUZZER_DURATION;
                  Delay BUZZER_DURATION;
                  NoTone BUZZER_PIN; Delay BUZZER_DURATION;
                  Tone BUZZER_PIN BUZZER_FREQ BUZZER_DURATION;
                  Delay BUZZER_DURATION;
                  NoTone BUZZER_PIN ]) w)).
Proof.
  destruct w. unfold beep.
  change (seq 0 (Z.to_nat BUZZER_DISPENSE_BEEPS)) with [0; 1; 2]%nat.
  cbn [forM].
  change (Z.of_nat 0 <? BUZZER_DISPENSE_BEEPS - 1) with true.
  change (Z.of_nat 1 <? BUZZER_DISPENSE_BEEPS - 1) with true.
  change (Z.of_nat 2 <? BUZZER_DISPENSE_BEEPS - 1) with false.
  cbv iota. run. f_equal. f_equal.
  - unfold BUZZER_DURATION. lia.
  - rewrite <- !app_assoc. reflexivity.
Qed.

Lemma emits_lcd_displayTime force :
  emits (fun e => is_lcd e = true) (displayTime force).
Proof. unfold displayTime, getTimeToNextMedication. prog; reflexivity. Qed.

Lemma gate_log_from_lcd evs : forall waited,
  Forall (fun e => is_lcd e = true) evs -> gate_log_from waited evs = [].
Proof.
  induction evs as [|e rest IH]; intros waited H; [reflexivity|].
  inversion H as [|? ? He Hrest]; subst.
  destruct e; try discriminate He; simpl; now apply IH.
Qed.

Lemma gate_log_from_app_lcd evs shown : forall waited,
  Forall (fun e => is_lcd e = true) shown ->
  gate_log_from waited (evs ++ shown) = gate_log_from waited evs.
Proof.
  induction evs as [|e rest IH]; intros waited H; simpl.
  - now apply gate_log_from_lcd.
  - destruct e; simpl; rewrite ?IH; auto.
Qed.

Lemma filter_lcd (p : Event -> bool) shown :
  (forall e, is_lcd e = true -> p e = false) ->
  Forall (fun e => is_lcd e = true) shown -> List.filter p shown = [].
Proof.
  intros Hp H. induction H as [|e rest He _ IH]; simpl; [reflexivity|].
  now rewrite (Hp e He).
Qed.

(** C4. Every call of [dispense] returns, and what it sends is: the
    opening of the top gate, its closing, the opening of the bottom gate and
    its closing, in this order and nothing else to the gates, each one
    [DISPENSE_DELAY] of [delay] after the one before; after the fourth
    actuation three tones and no more; then only commands to the display.
    The table is not touched in between. *)
Theorem dispense_sequence (w : World) :
  exists w' shown,
    dispense w = Ret tt w' /\
    trace w'
    = trace w ++ dispense_opening ++ BottomServoWrite SERVO_CLOSED_POS
              :: dispense_closing ++ shown /\
    Forall (fun e => is_lcd e = true) shown /\
    gate_log (dispense_opening ++ BottomServoWrite SERVO_CLOSED_POS
                :: dispense_closing ++ shown)
    = [ (TopServoWrite SERVO_OPEN_POS, 0);
        (TopServoWrite SERVO_CLOSED_POS, DISPENSE_DELAY);
        (BottomServoWrite SERVO_OPEN_POS, DISPENSE_DELAY);
        (BottomServoWrite SERVO_CLOSED_POS, DISPENSE_DELAY) ] /\
    List.filter is_tone dispense_opening = [] /\
    List.filter is_gate (dispense_closing ++ shown) = [] /\
    length (List.filter is_tone (dispense_closing ++ shown))
    = Z.to_nat BUZZER_DISPENSE_BEEPS /\
    medications w' = medications w.
Proof.
  destruct w as [meds]. unfold dispense. run. rewrite bind_beep_dispense. run.
  match goal with |- context [displayTime true ?w0] =>
    destruct (returns_displayTime true w0) as ([] & w' & E);
    destruct (emits_Ret _ _ _ _ _ (emits_lcd_displayTime true) E)
      as (shown & Htrace & Hlcd);
    pose proof (keeps_Ret _ _ _ _ _ (keeps_medications_displayTime true) E)
      as Hmeds
  end.
  revert Htrace Hmeds. norm_world. intros Htrace Hmeds.
  exists w', shown. split; [exact E|]. split.
  { rewrite Htrace, <- !app_assoc. reflexivity. }
  split; [exact Hlcd|]. split.
  { change (dispense_opening ++ BottomServoWrite SERVO_CLOSED_POS
              :: dispense_closing ++ shown)
      with ((dispense_opening ++ BottomServoWrite SERVO_CLOSED_POS
               :: dispense_closing) ++ shown).
    unfold gate_log. now rewrite gate_log_from_app_lcd. }
  split; [reflexivity|]. split.
  { rewrite List.filter_app, (filter_lcd is_gate shown); auto.
    now intros []. }
  split; [|exact Hmeds].
  rewrite List.filter_app, (filter_lcd is_tone shown); auto.
  now intros [].
Qed.

(** * What checkSchedule sends *)

Lemma dispense_trace w :
  exists w' shown,
    dispense w = Ret tt w' /\
    trace w'
    = trace w ++ dispense_opening ++ BottomServoWrite SERVO_CLOSED_POS
              :: dispense_closing ++ shown /\
    Forall (fun e => is_lcd e = true) shown /\
    clock w'
    = clock w + (3 * DISPENSE_DELAY + 5 * BUZZER_DURATION + 2000).
Proof.
  destruct w as [meds]. unfold dispense. run. rewrite bind_beep_dispense. run.
  match goal with |- context [displayTime true ?w0] =>
    destruct (returns_displayTime true w0) as ([] & w' & E);
    destruct (emits_Ret _ _ _ _ _ (emits_lcd_displayTime true) E)
      as (shown & Htrace & Hlcd);
    assert (keeps clock (displayTime true)) as Hk
      by (unfold displayTime, getTimeToNextMedication; prog);
    pose proof (keeps_Ret _ _ _ _ _ Hk E) as Hclock
  end.
  revert Htrace Hclock. norm_world. intros Htrace Hclock.
  exists w', shown. split; [exact E|]. split.
  { rewrite Htrace, <- !app_assoc. reflexivity. }
  split; [exact Hlcd|]. rewrite Hclock. lia.
Qed.

Lemma dispense_entry_trace i w :
  exists w' shown,
    dispense_entry i w = Ret tt w' /\
    trace w' = trace w ++ dose_events i shown /\
    Forall (fun e => is_lcd e = true) shown /\
    clock w' = clock w + DOSE_DURATION.
Proof.
  destruct w as [meds]. unfold dispense_entry. run.
  match goal with |- context [bind dispense _ ?w0] =>
    destruct (dispense_trace w0) as (w1 & shown & E1 & T1 & L1 & C1) end.
  rewrite (bind_Ret _ _ _ _ _ E1). clear E1. revert T1 C1. norm_world.
  destruct w1 as [meds1]. norm_world. intros -> ->. run.
  unfold delay. run. unfold modify. norm_world.
  eexists _, shown. split; [reflexivity|]. norm_world.
  split; [|split; [exact L1 | unfold DOSE_DURATION; lia]].
  unfold dose_events. rewrite <- !app_assoc. cbn [app].
  rewrite <- !app_assoc. reflexivity.
Qed.

Lemma dispense_entries_trace ixs : forall w,
  exists w' shows,
    forM ixs dispense_entry w = Ret tt w' /\
    length shows = length ixs /\
    Forall (Forall (fun e => is_lcd e = true)) shows /\
    trace w' = trace w ++ concat (zip_with dose_events ixs shows) /\
    clock w' = clock w + Z.of_nat (length ixs) * DOSE_DURATION.
Proof.
  induction ixs as [|i rest IH]; intros w; cbn [forM].
  - exists w, []. split; [reflexivity|]. split; [reflexivity|].
    split; [constructor|]. cbn. rewrite app_nil_r. split; [reflexivity|lia].
  - destruct (dispense_entry_trace i w) as (w1 & shown & E1 & T1 & L1 & C1).
    rewrite (bind_Ret _ _ _ _ _ E1).
    destruct (IH w1) as (w2 & shows & E2 & Hlen & L2 & T2 & C2).
    exists w2, (shown :: shows). split; [exact E2|].
    split; [cbn; now rewrite Hlen|]. split; [now constructor|]. split.
    + rewrite T2, T1. cbn [zip_with concat]. now rewrite <- app_assoc.
    + rewrite C2, C1. cbn [length]. lia.
Qed.

Lemma dose_events_gates i shown :
  Forall (fun e => is_lcd e = true) shown ->
  List.filter is_gate (dose_events i shown) = gate_cycle.
Proof.
  intros Hlcd. unfold dose_events.
  change (BottomServoWrite SERVO_CLOSED_POS :: dispense_closing ++ shown
            ++ [Delay 5000])
    with ((BottomServoWrite SERVO_CLOSED_POS :: dispense_closing)
            ++ shown ++ [Delay 5000]).
  rewrite !List.filter_app, (filter_lcd is_gate shown); auto.
  now intros [].
Qed.

Lemma doses_gates ixs : forall shows,
  length shows = length ixs ->
  Forall (Forall (fun e => is_lcd e = true)) shows ->
  List.filter is_gate (concat (zip_with dose_events ixs shows))
  = concat (replicate (length ixs) gate_cycle).
Proof.
  induction ixs as [|i rest IH]; intros [|shown shows] Hlen Hlcd;
    try discriminate; [reflexivity|].
  apply Forall_cons in Hlcd as [H1 H2].
  cbn [zip_with concat length replicate].
  rewrite List.filter_app, dose_events_gates by exact H1.
  rewrite IH; [reflexivity | now injection Hlen | exact H2].
Qed.

(** C2. Outside the midnight minute one call of [checkSchedule] runs the
    dispensing block (announce, dispense, mark as dispensed) for exactly the
    entries that are active, not yet dispensed today and set to the current
    hour and minute, in increasing index order; afterwards those entries
    have [dispensedToday = true] and every other entry is as it was. What
    the call sends to the peripherals is, for each of these entries in this
    order, the announcement with the entry's number, the whole dispensing
    sequence, the refreshed display and the hold, and nothing else: one gate
    cycle per due entry, and [DOSE_DURATION] of blocking for each. *)
Theorem checkSchedule_dispenses_due (w : World) :
  is_midnight (next_reading w) = false ->
  length (medications w) = MAX_MEDICATIONS ->
  let due := due_indices (next_reading w) (medications w) in
  exists w' shows,
    checkSchedule w = Ret tt w' /\
    (rtc_now;; forM due dispense_entry) w = Ret tt w' /\
    medications w' = mark_due (next_reading w) (medications w) /\
    length shows = length due /\
    Forall (Forall (fun e => is_lcd e = true)) shows /\
    trace w' = trace w ++ concat (zip_with dose_events due shows) /\
    List.filter is_gate (trace w')
    = List.filter is_gate (trace w)
      ++ concat (replicate (length due) gate_cycle) /\
    clock w' = clock w + Z.of_nat (length due) * DOSE_DURATION.
Proof.
  intros Hmid Hlen due. unfold checkSchedule, checkSchedule_from.
  rewrite !bind_rtc_now. unfold is_midnight in Hmid. rewrite Hmid, bind_ret.
  set (w0 := set_rtc_reads _ w).
  destruct (checkSchedule_loop (next_reading w) MAX_MEDICATIONS 0 w0)
    as (w' & E & F & L).
  change (List.filter (fun i => is_due (next_reading w) (medications w0 !!! i))
            (seq 0 MAX_MEDICATIONS)) with due in F.
  destruct (dispense_entries_trace due w0)
    as (w2 & shows & E2 & Hshows & Hlcd & Htr & Hclock).
  rewrite F in E2. injection E2 as <-.
  exists w', shows. split; [exact E|]. split; [exact F|]. split.
  { apply list_eq. intros i. rewrite L. unfold mark_due.
    rewrite list_lookup_fmap. subst w0. norm_world.
    case_decide as Hi; [reflexivity|].
    rewrite lookup_ge_None_2 by lia. reflexivity. }
  split; [exact Hshows|]. split; [exact Hlcd|].
  split; [exact Htr|]. split; [|exact Hclock].
  rewrite Htr, List.filter_app, doses_gates by assumption. reflexivity.
Qed.

(** * loadMedications *)

Lemma validate_in_range m :
  0 <= hour m -> 0 <= minute m ->
  0 <= hour (validate m) <= 23 /\ 0 <= minute (validate m) <= 59.
Proof.
  intros Hh Hm. unfold validate.
  destruct (hour m >? 23) eqn:E1; simpl; [lia|].
  destruct (minute m >? 59) eqn:E2; simpl; lia.
Qed.

Lemma length_alter_range g ixs : forall l,
  length (alter_range g ixs l) = length l.
Proof.
  unfold alter_range. induction ixs as [|i rest IH]; intros l; simpl.
  - reflexivity.
  - now rewrite IH, length_alter.
Qed.

Lemma load_entry_run i w :
  (i < length (medications w))%nat ->
  load_entry i w
  = Ret tt (set_medications
              (alter (fun _ => validate (eeprom_get
                                 (Z.of_nat i * SIZEOF_MEDICATION) (eeprom w)))
                     i (medications w)) w).
Proof.
  intros Hi. destruct w as [meds]. unfold load_entry. run.
  revert Hi. norm_world. intros Hi.
  set (stored := eeprom_get _ _).
  rewrite list_lookup_total_alter_eq by exact Hi. unfold validate.
  destruct ((hour stored >? 23) || (minute stored >? 59)).
  - run. unfold update_med, modify. norm_world.
    rewrite !list_alter_alter_eq. reflexivity.
  - reflexivity.
Qed.

Lemma loadMedications_loop n : forall k w,
  (k + n <= length (medications w))%nat ->
  forM (seq k n) load_entry w
  = Ret tt (set_medications
              (alter_range
                 (fun i _ => validate (eeprom_get
                               (Z.of_nat i * SIZEOF_MEDICATION) (eeprom w)))
                 (seq k n) (medications w)) w).
Proof.
  induction n as [|n IH]; intros k w Hlen.
  - simpl. unfold ret. now rewrite set_medications_same.
  - cbn [seq forM].
    rewrite (bind_Ret _ _ _ _ _ (load_entry_run k w ltac:(lia))).
    rewrite IH by (simpl; rewrite length_alter; lia).
    reflexivity.
Qed.

(** C6. [loadMedications] returns without a message or any other effect
    than on the table, and leaves in every slot the record stored for it if
    that has hour <= 23 and minute <= 59, and the default entry otherwise;
    so every entry ends with its hour in [0,23] and its minute in [0,59]. *)
Theorem loadMedications_validates (w : World) :
  length (medications w) = MAX_MEDICATIONS ->
  exists w',
    loadMedications w = Ret tt w' /\
    w' = set_medications (medications w') w /\
    length (medications w') = MAX_MEDICATIONS /\
    forall i, (i < MAX_MEDICATIONS)%nat ->
      exists m,
        medications w' !! i = Some m /\
        0 <= hour m <= 23 /\ 0 <= minute m <= 59 /\
        m = validate (eeprom_get (Z.of_nat i * SIZEOF_MEDICATION) (eeprom w)) /\
        (forall stored,
           stored = eeprom_get (Z.of_nat i * SIZEOF_MEDICATION) (eeprom w) ->
           (hour stored > 23 \/ minute stored > 59 ->
            m = mkMedication false 0 0 false) /\
           (hour stored <= 23 /\ minute stored <= 59 -> m = stored)).
Proof.
  intros Hlen. unfold loadMedications. eexists. split.
  { apply loadMedications_loop. lia. }
  split; [reflexivity|]. split.
  { norm_world. now rewrite length_alter_range. }
  intros i Hi. norm_world. rewrite alter_range_seq_lookup.
  case_decide; [|lia].
  destruct (lookup_lt_is_Some_2 (medications w) i ltac:(lia)) as (m0 & Hm0).
  rewrite Hm0. simpl. eexists. split; [reflexivity|].
  set (stored := eeprom_get _ _).
  assert (0 <= hour stored /\ 0 <= minute stored) as [Hh Hm].
  { unfold stored, eeprom_get, BYTE_MOD; simpl. split; apply Z.mod_pos_bound; lia. }
  destruct (validate_in_range stored Hh Hm) as [? ?].
  split; [lia|]. split; [lia|]. split; [reflexivity|].
  intros ? ->. fold stored. unfold validate. split.
  - intros [Hbad|Hbad].
    + replace (hour stored >? 23) with true by (symmetry; lia). reflexivity.
    + replace (minute stored >? 59) with true by (symmetry; lia).
      now rewrite orb_true_r.
  - intros [Hok1 Hok2].
    replace (hour stored >? 23) with false by (symmetry; lia).
    replace (minute stored >? 59) with false by (symmetry; lia). reflexivity.
Qed.

(** * The button interrupt *)

(** Elapsed time as the handler computes it, on the 32-bit counter: right
    for any gap shorter than the debounce window, wrap-around or not. *)
Lemma millis_gap c d :
  0 <= d < DEBOUNCE_TIME ->
  ((c + d) mod ULONG_MOD - c mod ULONG_MOD) mod ULONG_MOD = d.
Proof.
  intros Hd. rewrite Zminus_mod_idemp_r, Zminus_mod_idemp_l.
  replace (c + d - c) with d by lia. apply Z.mod_small.
  unfold DEBOUNCE_TIME, ULONG_MOD in *. lia.
Qed.

(** C9. Once a button interrupt has been accepted (it sets the wake flag
    when asleep, toggles the display mode when awake: one event), a further
    button interrupt less than [DEBOUNCE_TIME] ms later changes nothing at
    all, in whatever state it arrives: no flag, no display mode, no time
    stamp. The counter of [millis()] may wrap around between the two. *)
Theorem ISR_INT0_debounce (w : World) :
  DEBOUNCE_TIME <= (clock w mod ULONG_MOD - lastButtonTime w) mod ULONG_MOD ->
  exists w1,
    ISR_INT0 w = Ret tt w1 /\
    lastButtonTime w1 = clock w mod ULONG_MOD /\
    (if inSleepMode w
     then w1 = set_lastButtonTime (clock w mod ULONG_MOD)
                 (set_buttonWakeFlag true w)
     else w1 = set_lastButtonTime (clock w mod ULONG_MOD)
                 (set_lastActionTime (clock w mod ULONG_MOD)
                    (set_displayMode
                       (Z.rem (displayMode w + 1) DISPLAY_MODES mod BYTE_MOD)
                       w))) /\
    forall w2 d,
      0 <= d < DEBOUNCE_TIME ->
      lastButtonTime w2 = lastButtonTime w1 ->
      clock w2 = clock w + d ->
      ISR_INT0 w2 = Ret tt w2.
Proof.
  intros Hacc. unfold ISR_INT0 at 1. run.
  destruct (Z.geb_spec ((clock w mod ULONG_MOD - lastButtonTime w)
                          mod ULONG_MOD) DEBOUNCE_TIME) as [_|Hlt]; [|lia].
  assert (Hrej : forall w2 d, 0 <= d < DEBOUNCE_TIME ->
            lastButtonTime w2 = clock w mod ULONG_MOD ->
            clock w2 = clock w + d -> ISR_INT0 w2 = Ret tt w2).
  { intros w2 d Hd Hlast Hclock. unfold ISR_INT0. run.
    rewrite Hlast, Hclock, (millis_gap _ _ Hd).
    destruct (Z.geb_spec d DEBOUNCE_TIME); [lia | reflexivity]. }
  run. destruct (inSleepMode w) eqn:Hs; run; unfold modify;
    (eexists; split; [reflexivity|]; split; [reflexivity|];
     split; [now rewrite Hs | exact Hrej]).
Qed.

(** * Sleep and wake *)

Lemma keeps_trace_deliver q : keeps trace (deliver q).
Proof. destruct q; unfold deliver, ISR_INT0, ISR_WDT; prog. Qed.

Lemma keeps_trace_deliver_all qs : keeps trace (deliver_all qs).
Proof.
  pose proof keeps_trace_deliver.
  induction qs as [|q rest IH]; simpl; prog.
Qed.

Lemma keeps_trace_await_wake batches : keeps trace (await_wake batches).
Proof.
  pose proof keeps_trace_deliver_all.
  induction batches as [|qs rest IH]; simpl; prog.
Qed.

Lemma keeps_keys_await_wake batches : keeps keys (await_wake batches).
Proof.
  assert (forall q, keeps keys (deliver q)) as Hd.
  { intros []; unfold deliver, ISR_INT0, ISR_WDT; prog. }
  assert (forall qs, keeps keys (deliver_all qs)) as Hall.
  { induction qs as [|q rest IH]; simpl; prog. }
  induction batches as [|qs rest IH]; simpl; prog.
Qed.

Lemma keeps_keys_enterSleepMode : keeps keys enterSleepMode.
Proof.
  pose proof keeps_keys_await_wake.
  unfold enterSleepMode, setupWatchdog. prog.
Qed.

(** Going to sleep: the display is switched off and the CPU halted; what
    follows the halt, if anything, is the wake-up housekeeping. *)
Lemma enterSleepMode_trace w :
  exists after,
    trace (world_of (enterSleepMode w))
    = trace w ++ sleep_entry_events ++ after /\
    Forall (fun e => is_display_on e = false) after.
Proof.
  destruct w as [meds]. unfold enterSleepMode, setupWatchdog. run.
  match goal with |- context [bind (await_wake ?bs) ?k ?w0] =>
    pose proof (keeps_trace_await_wake bs w0) as Htr;
    destruct (await_wake bs w0) as [[] w1|w1] eqn:E
  end; revert Htr; norm_world; intros Htr.
  - rewrite (bind_Ret _ _ _ _ _ E). run. unfold modify. norm_world.
    rewrite Htr. exists [SleepDisable; AdcEnable true; WdtDisable].
    split; [|repeat constructor]. rewrite <- !app_assoc. reflexivity.
  - rewrite (bind_Hang _ _ _ _ E). norm_world. rewrite Htr. exists [].
    split; [|constructor]. rewrite <- !app_assoc. reflexivity.
Qed.

(** With no interrupt to come the CPU never leaves the halt. *)
Lemma enterSleepMode_stays_asleep w :
  irqs w = [] ->
  exists w', enterSleepMode w = Hang w' /\ inSleepMode w' = true.
Proof.
  intros Hq. destruct w as [meds]. simpl in Hq. subst.
  unfold enterSleepMode, setupWatchdog. run. cbn [await_wake].
  eexists. split; reflexivity.
Qed.

Lemma bind_blinkLED_watchdog {B} (k : unit -> M B) w :
  bind (blinkLED WATCHDOG_WAKE_BLINKS) k w
  = k tt (set_clock (clock w + LED_BLINK_DURATION)
            (set_trace
               (trace w ++
                [ DigitalWrite WAKE_LED_PIN true; Delay LED_BLINK_DURATION;
                  DigitalWrite WAKE_LED_PIN false ]) w)).
Proof.
  destruct w. unfold blinkLED.
  change (seq 0 (Z.to_nat WATCHDOG_WAKE_BLINKS)) with [0%nat].
  cbn [forM].
  change (Z.of_nat 0 <? WATCHDOG_WAKE_BLINKS - 1) with false.
  cbv iota. run. f_equal. f_equal. rewrite <- !app_assoc. reflexivity.
Qed.

Lemma emits_checkMedicationDue :
  emits (fun e => is_display_on e = false) checkMedicationDue.
Proof.
  unfold checkMedicationDue, checkMedicationDue_entry,
    resetDailyDispensedFlags.
  prog; reflexivity.
Qed.

Lemma keeps_keys_checkMedicationDue : keeps keys checkMedicationDue.
Proof.
  unfold checkMedicationDue, checkMedicationDue_entry,
    resetDailyDispensedFlags, update_med.
  prog.
Qed.

(** C5. When only the watchdog wake flag is set and no dose is due, the
    iteration of [loop] goes back to sleep: it sends the sleep entry
    sequence ending in the CPU halt, sends no command that switches the
    display on, neither before nor after, and does not get as far as
    polling the keypad; with no further interrupt the device stays asleep.
    Conversely a dose is due whenever that path switches the display on. *)
Theorem loop_watchdog_wake_without_dose (w : World) :
  buttonWakeFlag w = false ->
  watchdogWakeFlag w = true ->
  (exists w', checkMedicationDue w = Ret false w') ->
  exists before after,
    trace (world_of (loop w))
    = trace w ++ before ++ sleep_entry_events ++ after /\
    Forall (fun e => is_display_on e = false)
           (before ++ sleep_entry_events ++ after) /\
    keys (world_of (loop w)) = keys w /\
    (irqs w = [] ->
     exists w', loop w = Hang w' /\ inSleepMode w' = true).
Proof.
  intros Hb Hwd (w' & Hdue).
  destruct (checkMedicationDue_result w) as (w'' & Hres).
  rewrite Hres in Hdue. injection Hdue as Hdue _. clear Hres w' w''.
  unfold loop. run. rewrite Hb. run. rewrite Hwd, Hb. cbn [andb negb].
  unfold watchdog_wake. run. rewrite bind_blinkLED_watchdog. run.
  match goal with |- context [bind checkMedicationDue _ ?w0] =>
    set (w1 := w0) end.
  destruct (checkMedicationDue_result w1) as (w2 & E2).
  destruct (emits_Ret _ _ _ _ _ emits_checkMedicationDue E2)
    as (evs & Htr & Hevs).
  pose proof (keeps_Ret _ _ _ _ _ keeps_keys_checkMedicationDue E2)
    as Hkeys.
  assert (Hirqs : irqs w2 = irqs w).
  { assert (keeps irqs checkMedicationDue) as Hk.
    { unfold checkMedicationDue, checkMedicationDue_entry,
        resetDailyDispensedFlags, update_med. prog. }
    apply (keeps_Ret _ _ _ _ _ Hk E2). }
  change (medications w1) with (medications w) in E2.
  change (next_reading w1) with (next_reading w) in E2.
  rewrite Hdue in E2. rewrite (bind_Ret _ _ _ _ _ E2).
  rewrite bind_bind.
  destruct (enterSleepMode_trace w2) as (after & Hsleep & Hafter).
  pose proof (keeps_keys_enterSleepMode w2) as Hk2.
  exists ([DigitalWrite WAKE_LED_PIN true; Delay LED_BLINK_DURATION;
           DigitalWrite WAKE_LED_PIN false] ++ evs), after.
  assert (Hquiet : Forall (fun e => is_display_on e = false)
            (([DigitalWrite WAKE_LED_PIN true; Delay LED_BLINK_DURATION;
               DigitalWrite WAKE_LED_PIN false] ++ evs)
             ++ sleep_entry_events ++ after)).
  { repeat (apply Forall_app; split); auto; repeat constructor. }
  destruct (enterSleepMode w2) as [[] w3|w3] eqn:E3; simpl in Hsleep, Hk2.
  - rewrite (bind_Ret _ _ _ _ _ E3), bind_ret. cbn [world_of ret].
    rewrite Hsleep, Htr, Hk2, Hkeys. subst w1. norm_world.
    rewrite <- !app_assoc. repeat split; auto.
    intros Hnone. rewrite <- Hirqs in Hnone.
    destruct (enterSleepMode_stays_asleep w2 Hnone) as (w4 & E4 & _).
    congruence.
  - rewrite (bind_Hang _ _ _ _ E3). cbn [world_of].
    rewrite Hsleep, Htr, Hk2, Hkeys. subst w1. norm_world.
    rewrite <- !app_assoc. repeat split; auto.
    intros Hnone. rewrite <- Hirqs in Hnone.
    destruct (enterSleepMode_stays_asleep w2 Hnone) as (w4 & E4 & Hs).
    exists w3. split; [reflexivity|]. congruence.
Qed.

(** * Waiting for a key that never comes

    [poll_loop] answers [Hang] when the keys are used up and the body does
    not leave on NO_KEY. That is what the loops of the sketch do: on NO_KEY
    each body goes round again with its local state unchanged, and after the
    first such round the world does not change any more. *)

Lemma touch_lastActionTime_twice w :
  exists w1,
    touch_lastActionTime w = Ret tt w1 /\ touch_lastActionTime w1 = Ret tt w1.
Proof. destruct w. eexists. split; reflexivity. Qed.

Lemma selection_body_idle w :
  exists w1,
    selection_body NO_KEY tt w = Ret (inl tt) w1 /\
    selection_body NO_KEY tt w1 = Ret (inl tt) w1.
Proof. destruct w. eexists. split; reflexivity. Qed.

Lemma active_prompt_body_idle w :
  exists w1,
    active_prompt_body NO_KEY tt w = Ret (inl tt) w1 /\
    active_prompt_body NO_KEY tt w1 = Ret (inl tt) w1.
Proof. destruct w. eexists. split; reflexivity. Qed.

Lemma enter_number_body_idle prompt limit value w :
  exists w1,
    enter_number_body prompt limit NO_KEY value w = Ret (inl value) w1 /\
    enter_number_body prompt limit NO_KEY value w1 = Ret (inl value) w1.
Proof. destruct w. eexists. split; reflexivity. Qed.

Lemma review_body_idle w :
  exists w1,
    review_body NO_KEY tt w = Ret (inl tt) w1 /\
    review_body NO_KEY tt w1 = Ret (inl tt) w1.
Proof. destruct w. eexists. split; reflexivity. Qed.

Lemma test_body_idle w :
  exists w1,
    test_body NO_KEY tt w = Ret (inl tt) w1 /\
    test_body NO_KEY tt w1 = Ret (inl tt) w1.
Proof. destruct w. eexists. split; reflexivity. Qed.

(** * Setting up a slot *)

Lemma world_of_bind {A B} (m : M A) (k : A -> M B) w :
  world_of (bind m k w)
  = match m w with
    | Ret a w1 => world_of (k a w1)
    | Hang w1 => w1
    end.
Proof. unfold bind. now destruct (m w). Qed.

Lemma keeps_medications_ask_active i : keeps medications (ask_active i).
Proof. unfold ask_active, active_prompt_body. prog. Qed.

Lemma keeps_medications_enter_number prompt limit :
  keeps medications (enter_number prompt limit).
Proof. unfold enter_number, enter_number_body. prog. Qed.

Lemma keeps_medications_saveMedications : keeps medications saveMedications.
Proof. unfold saveMedications. prog. Qed.





(** The selection loop leaves only with a key from '1' to '5'. *)
Lemma selection_in_range ks : forall w c w1,
  poll_loop ks selection_body tt w = Ret (Some c) w1 ->
  key_in c "1" "5" = true.
Proof.
  induction ks as [|k rest IH]; intros w c w1; cbn [poll_loop].
  - unfold selection_body, touch_lastActionTime. run.
    change (key_in NO_KEY "1" "5") with false.
    change (key_is NO_KEY "D") with false. cbv iota. run.
    unfold hang. discriminate.
  - unfold selection_body at 1, touch_lastActionTime. run.
    destruct (key_in k "1" "5") eqn:Hk.
    + run. unfold ret. intros [= <- _]. exact Hk.
    + destruct (key_is k "D"); run.
      * unfold ret. discriminate.
      * apply IH.
Qed.

Lemma selection_index c :
  key_in c "1" "5" = true ->
  (Z.to_nat (char_val c - char_val "1") < MAX_MEDICATIONS)%nat.
Proof.
  unfold key_in. rewrite andb_true_iff, Z.geb_le, Z.leb_le.
  change (char_val "1") with 49. change (char_val "5") with 53.
  unfold MAX_MEDICATIONS. lia.
Qed.






(** C3. At 23:50 a dose set to 00:10 and not yet dispensed is reported as
    0 h 20 min away. But an active entry
    does not always make the function answer [found = true]: a dose whose
    next occurrence is 24 hours away or more (already dispensed today and
    set to the current minute or to a later time of the day) is never below
    the initial minimum of 24 * 60, so with no nearer dose the function
    answers false, with 24 h 0 min. *)
Theorem getTimeToNextMedication_misses_day_away :
  getTimeToNextMedication (mkDateTime 23 50 0) late_evening_world
  = Ret (true, (0, 20)) late_evening_world /\
  (exists m, medications just_dispensed_world !! 0%nat = Some m /\
             active m = true) /\
  getTimeToNextMedication (mkDateTime 12 0 0) just_dispensed_world
  = Ret (false, (24, 0)) just_dispensed_world /\
  getTimeToNextMedication (mkDateTime 11 0 0) just_dispensed_world
  = Ret (false, (24, 0)) just_dispensed_world.
Proof.
  split; [vm_compute; reflexivity|]. split.
  - exists (mkMedication true 12 0 true). split; reflexivity.
  - split; vm_compute; reflexivity.
Qed.

(** C8. A device that went to sleep with nothing due, and during whose
    sleep both the watchdog fired and the button was pressed, resumes with
    both wake flags set. The next iteration of [loop] runs the button-wake
    block (display on, timers reset, "System active"), and then, the button
    flag being cleared by that block, runs the watchdog block as well:
    nothing is due, so it switches the display off again and halts the CPU
    in that same iteration. *)
Theorem loop_both_wake_flags_sleeps_again :
  exists w1 w2,
    enterSleepMode sleeper_world = Ret tt w1 /\
    buttonWakeFlag w1 = true /\ watchdogWakeFlag w1 = true /\
    loop w1 = Hang w2 /\
    inSleepMode w2 = true /\
    lastActionTime w2 = 60600 /\
    trace w2
    = trace w1 ++ button_wake_events
      ++ [ DigitalWrite WAKE_LED_PIN true; Delay LED_BLINK_DURATION;
           DigitalWrite WAKE_LED_PIN false ]
      ++ empty_check_log ++ sleep_entry_events.
Proof.
  exists (world_of (enterSleepMode sleeper_world)).
  exists (world_of (loop (world_of (enterSleepMode sleeper_world)))).
  split; [vm_compute; reflexivity|].
  split; [vm_compute; reflexivity|].
  split; [vm_compute; reflexivity|].
  split; [vm_compute; reflexivity|].
  split; [vm_compute; reflexivity|].
  split; vm_compute; reflexivity.
Qed.

(** * The properties at concrete states *)

Lemma resetDailyDispensedFlags_idempotent_witness :
  exists w1,
    resetDailyDispensedFlags breakfast_world = Ret tt w1 /\
    medications w1
    = [ mkMedication true 8 0 false; free_slot; free_slot;
        mkMedication true 8 0 false; mkMedication true 20 30 false ] /\
    resetDailyDispensedFlags w1 = Ret tt w1.
Proof.
  destruct (resetDailyDispensedFlags_idempotent breakfast_world eq_refl)
    as (w1 & H1 & H2 & _ & _ & H5).
  exists w1. split; [exact H1|]. split; [|exact H5].
  vm_compute in H1. injection H1 as <-. reflexivity.
Defined.

Lemma checkSchedule_dispenses_due_witness :
  exists w',
    checkSchedule breakfast_world = Ret tt w' /\
    due_indices (mkDateTime 8 0 0) morning_table = [0; 3]%nat /\
    medications w'
    = [ mkMedication true 8 0 true; free_slot; free_slot;
        mkMedication true 8 0 true; mkMedication true 20 30 true ] /\
    List.filter is_gate (trace w') = gate_cycle ++ gate_cycle /\
    clock w' = 22000.
Proof.
  destruct (checkSchedule_dispenses_due breakfast_world eq_refl eq_refl)
    as (w' & shows & H1 & _ & H3 & _ & _ & _ & Hg & Hc).
  exists w'. split; [exact H1|]. split; [vm_compute; reflexivity|].
  split; [rewrite H3; vm_compute; reflexivity|].
  split; [rewrite Hg; vm_compute; reflexivity|].
  rewrite Hc. vm_compute. reflexivity.
Defined.

Lemma loadMedications_validates_witness :
  exists w',
    loadMedications booting_world = Ret tt w' /\
    medications w'
    = [ mkMedication true 8 30 false; free_slot; free_slot; free_slot;
        free_slot ].
Proof.
  destruct (loadMedications_validates booting_world eq_refl)
    as (w' & H1 & _).
  exists w'. split; [exact H1|].
  vm_compute in H1. injection H1 as <-. reflexivity.
Defined.

Lemma ISR_INT0_debounce_witness :
  exists w1,
    ISR_INT0 button_world = Ret tt w1 /\
    displayMode w1 = 1 /\
    ISR_INT0 (set_clock 5050 w1) = Ret tt (set_clock 5050 w1).
Proof.
  assert (DEBOUNCE_TIME
          <= (clock button_world mod ULONG_MOD - lastButtonTime button_world)
             mod ULONG_MOD) as Hacc by (vm_compute; discriminate).
  destruct (ISR_INT0_debounce button_world Hacc) as (w1 & H1 & _ & H3 & H4).
  exists w1. split; [exact H1|]. split.
  - vm_compute in H3. subst w1. reflexivity.
  - apply (H4 (set_clock 5050 w1) 50).
    + unfold DEBOUNCE_TIME. lia.
    + reflexivity.
    + reflexivity.
Defined.

Lemma loop_watchdog_wake_without_dose_witness :
  exists w', loop watchdog_woken_world = Hang w' /\ inSleepMode w' = true.
Proof.
  assert (exists w', checkMedicationDue watchdog_woken_world = Ret false w')
    as Hdue
    by (exists (world_of (checkMedicationDue watchdog_woken_world));
        vm_compute; reflexivity).
  destruct (loop_watchdog_wake_without_dose watchdog_woken_world
              eq_refl eq_refl Hdue) as (before & after & _ & _ & _ & H4).
  exact (H4 eq_refl).
Defined.


(** * Saving and reloading the table *)

Lemma saveMedications_loop meds ixs : forall w,
  medications w = meds ->
  forM ixs (fun i =>
    let addr := Z.of_nat i * SIZEOF_MEDICATION in
    m ← med i;
    modify (fun w => set_eeprom (eeprom_put addr m (eeprom w)) w)) w
  = Ret tt (set_eeprom (saved_cells meds ixs (eeprom w)) w).
Proof.
  induction ixs as [|i rest IH]; intros w Hm; cbn [forM saved_cells fold_left].
  - unfold ret. now destruct w.
  - cbv zeta. rewrite bind_bind, bind_med, bind_modify.
    rewrite IH by exact Hm. rewrite Hm. reflexivity.
Qed.

Lemma cell_slot k j :
  0 <= j < 4 ->
  Z.to_nat ((Z.of_nat k * 4 + j) / 4) = k /\ (Z.of_nat k * 4 + j) mod 4 = j.
Proof.
  intros Hj. rewrite Z.add_comm, Z.div_add, Z.mod_add by lia.
  rewrite Z.div_small, Z.mod_small by lia. split; [|reflexivity].
  now rewrite Z.add_0_l, Nat2Z.id.
Qed.

Lemma cell_of_slot meds k j :
  0 <= j < 4 ->
  cell_of meds (Z.of_nat k * 4 + j)
  = let m := meds !!! k in
    if j =? 0 then cell_of_flag (active_byte m)
    else if j =? 1 then hour m mod BYTE_MOD
    else if j =? 2 then minute m mod BYTE_MOD
    else cell_of_flag (dispensedToday_byte m).
Proof.
  intros Hj. unfold cell_of, SIZEOF_MEDICATION.
  destruct (cell_slot k j Hj) as [-> ->]. reflexivity.
Qed.

Lemma saved_cells_seq meds n : forall k mem a,
  saved_cells meds (seq k n) mem a
  = if decide (Z.of_nat k * SIZEOF_MEDICATION <= a
               < Z.of_nat (k + n) * SIZEOF_MEDICATION)
    then cell_of meds a else mem a.
Proof.
  unfold saved_cells, SIZEOF_MEDICATION.
  induction n as [|n IH]; intros k mem a; cbn [seq fold_left].
  - case_decide; [lia | reflexivity].
  - rewrite IH. case_decide as Hlater.
    + case_decide; [reflexivity | lia].
    + unfold eeprom_put.
      destruct (Z.eqb_spec a (Z.of_nat k * 4)) as [->|H0];
        [|destruct (Z.eqb_spec a (Z.of_nat k * 4 + 1)) as [->|H1];
          [|destruct (Z.eqb_spec a (Z.of_nat k * 4 + 2)) as [->|H2];
            [|destruct (Z.eqb_spec a (Z.of_nat k * 4 + 3)) as [->|H3]]]].
      5: { case_decide; [lia | reflexivity]. }
      all: case_decide; [|lia].
      * rewrite <- (Z.add_0_r (Z.of_nat k * 4)).
        now rewrite cell_of_slot by lia.
      * now rewrite cell_of_slot by lia.
      * now rewrite cell_of_slot by lia.
      * now rewrite cell_of_slot by lia.
Qed.

Lemma saveMedications_run w :
  saveMedications w
  = Ret tt (set_eeprom
              (saved_cells (medications w) (seq 0 MAX_MEDICATIONS) (eeprom w))
              w).
Proof. unfold saveMedications. now apply saveMedications_loop. Qed.

(** X1. [saveMedications] returns and changes nothing but the EEPROM, and
    there only the cells 0 to 19: cell [a] gets field [a mod 4] of slot
    [a / 4] as the byte it occupies in memory (a flag loaded as the byte 2
    is saved as 2), every other cell keeps its content. *)
Theorem saveMedications_layout (w : World) :
  exists w1,
    saveMedications w = Ret tt w1 /\
    w1 = set_eeprom (eeprom w1) w /\
    forall a,
      eeprom w1 a
      = if decide (0 <= a < Z.of_nat MAX_MEDICATIONS * SIZEOF_MEDICATION)
        then cell_of (medications w) a else eeprom w a.
Proof.
  eexists. split; [apply saveMedications_run|]. split; [reflexivity|].
  intros a. norm_world. rewrite saved_cells_seq. reflexivity.
Qed.

Lemma eeprom_get_saved meds mem i :
  (i < MAX_MEDICATIONS)%nat ->
  (forall a, 0 <= a < Z.of_nat MAX_MEDICATIONS * SIZEOF_MEDICATION ->
             mem a = cell_of meds a) ->
  eeprom_get (Z.of_nat i * SIZEOF_MEDICATION) mem
  = Medication_of_bytes (active_byte (meds !!! i))
                        (hour (meds !!! i) mod BYTE_MOD)
                        (minute (meds !!! i) mod BYTE_MOD)
                        (dispensedToday_byte (meds !!! i)).
Proof.
  unfold MAX_MEDICATIONS, SIZEOF_MEDICATION. intros Hi Hmem.
  unfold eeprom_get. rewrite !Hmem by lia.
  rewrite <- (Z.add_0_r (Z.of_nat i * 4)) at 1.
  rewrite !cell_of_slot by lia. cbv zeta. cbn [Z.eqb Pos.eqb].
  now rewrite !Zmod_mod, !flag_of_cell_of_flag.
Qed.

Lemma validate_id m :
  0 <= hour m <= 23 /\ 0 <= minute m <= 59 -> validate m = m.
Proof.
  intros [Hh Hm]. unfold validate.
  replace (hour m >? 23) with false by (symmetry; lia).
  replace (minute m >? 59) with false by (symmetry; lia). reflexivity.
Qed.

Lemma validate_table_id meds :
  table_in_range meds -> validate <$> meds = meds.
Proof.
  intros Hrange. rewrite <- (list_fmap_id meds) at 2.
  apply list_fmap_ext. intros i m Hm.
  unfold table_in_range in Hrange. rewrite Forall_lookup in Hrange.
  cbn. apply validate_id. exact (Hrange i m Hm).
Qed.

Lemma load_after_save w :
  length (medications w) = MAX_MEDICATIONS ->
  table_of_bytes (medications w) ->
  exists w1,
    saveMedications w = Ret tt w1 /\
    forall w2,
      eeprom w2 = eeprom w1 ->
      length (medications w2) = MAX_MEDICATIONS ->
      exists w3,
        loadMedications w2 = Ret tt w3 /\
        medications w3 = validate <$> medications w.
Proof.
  intros Hlen Hbytes. eexists. split; [apply saveMedications_run|].
  intros w2 Hmem Hlen2. revert Hmem. norm_world. intros Hmem.
  unfold loadMedications. rewrite loadMedications_loop by lia.
  eexists. split; [reflexivity|]. norm_world.
  apply list_eq. intros i. rewrite alter_range_seq_lookup, list_lookup_fmap.
  case_decide as Hi.
  - destruct (lookup_lt_is_Some_2 (medications w2) i ltac:(lia)) as (m2 & ->).
    destruct (lookup_lt_is_Some_2 (medications w) i ltac:(lia)) as (m & Hm).
    rewrite Hm. cbn [fmap option_fmap option_map]. do 2 f_equal.
    rewrite Hmem, (eeprom_get_saved (medications w)) by
      (try lia; intros a Ha; rewrite saved_cells_seq; now case_decide).
    rewrite (list_lookup_total_correct _ _ _ Hm).
    unfold table_of_bytes in Hbytes. rewrite Forall_lookup in Hbytes.
    destruct (Hbytes i m Hm) as [Hh Hmi].
    rewrite !Z.mod_small by assumption. now destruct m.
  - rewrite !lookup_ge_None_2 by lia. reflexivity.
Qed.

(** X2. What [saveMedications] wrote, [loadMedications] reads back: into
    whatever table the device holds afterwards (a restart), loading from
    the EEPROM left by a save gives the saved table with every record of
    hour > 23 or minute > 59 replaced by the default entry; a table whose
    times are all valid comes back exactly, [dispensedToday] flags
    included. *)
Theorem save_then_load (w : World) :
  length (medications w) = MAX_MEDICATIONS ->
  table_of_bytes (medications w) ->
  exists w1,
    saveMedications w = Ret tt w1 /\
    forall w2,
      eeprom w2 = eeprom w1 ->
      length (medications w2) = MAX_MEDICATIONS ->
      exists w3,
        loadMedications w2 = Ret tt w3 /\
        medications w3 = validate <$> medications w /\
        (table_in_range (medications w) -> medications w3 = medications w).
Proof.
  intros Hlen Hbytes.
  destruct (load_after_save w Hlen Hbytes) as (w1 & Hsave & Hload).
  exists w1. split; [exact Hsave|]. intros w2 Hmem Hlen2.
  destruct (Hload w2 Hmem Hlen2) as (w3 & H3 & Hm).
  exists w3. split; [exact H3|]. split; [exact Hm|].
  intros Hrange. rewrite Hm. now apply validate_table_id.
Qed.

Lemma save_then_load_witness :
  exists w1 w3,
    saveMedications (idle_world odd_table (mkDateTime 7 0 0)) = Ret tt w1 /\
    loadMedications (set_medications no_medications w1) = Ret tt w3 /\
    medications w3
    = [ mkMedication true 8 30 false; free_slot; free_slot;
        mkMedication false 23 59 true; free_slot ].
Proof.
  assert (table_of_bytes odd_table) as Hb.
  { unfold table_of_bytes, odd_table, BYTE_MOD.
    repeat (apply List.Forall_cons; [simpl; lia|]). apply List.Forall_nil. }
  destruct (save_then_load (idle_world odd_table (mkDateTime 7 0 0))
              eq_refl Hb) as (w1 & Hs & Hl).
  destruct (Hl (set_medications no_medications w1) eq_refl eq_refl)
    as (w3 & H3 & Hm & _).
  exists w1, w3. split; [exact Hs|]. split; [exact H3|].
  rewrite Hm. vm_compute. reflexivity.
Defined.

(** * Invariants of blocks *)

Section Maintains.
Context (I : World -> Prop).

Lemma maintains_ret {A} (a : A) : maintains I (ret a).
Proof. now intros w. Qed.

Lemma maintains_hang {A} : maintains I (@hang A).
Proof. now intros w. Qed.

Lemma maintains_get {A} (f : World -> A) : maintains I (get f).
Proof. now intros w. Qed.

Lemma maintains_modify f : (forall w, I w -> I (f w)) -> maintains I (modify f).
Proof. intros H w. apply H. Qed.

Lemma maintains_bind {A B} (m : M A) (k : A -> M B) :
  maintains I m -> (forall a, maintains I (k a)) -> maintains I (bind m k).
Proof.
  intros Hm Hk w Hw. unfold bind. specialize (Hm w Hw).
  destruct (m w) as [a w1|w1]; cbn [world_of] in *.
  - now apply Hk.
  - exact Hm.
Qed.

Lemma maintains_forM ixs body :
  (forall i, maintains I (body i)) -> maintains I (forM ixs body).
Proof.
  intros Hb. induction ixs as [|i rest IH]; cbn [forM].
  - apply maintains_ret.
  - apply maintains_bind; auto.
Qed.

Lemma maintains_forM_return {A} ixs (body : nat -> M (option A)) :
  (forall i, maintains I (body i)) -> maintains I (forM_return ixs body).
Proof.
  intros Hb. induction ixs as [|i rest IH]; cbn [forM_return].
  - apply maintains_ret.
  - apply maintains_bind; [apply Hb|].
    intros [a|]; [apply maintains_ret | exact IH].
Qed.

Lemma maintains_poll_loop {S A} ks (body : ascii -> S -> M (S + A)) s :
  (forall x w, I w -> I (set_keys x w)) ->
  (forall k s', maintains I (body k s')) -> maintains I (poll_loop ks body s).
Proof.
  intros Hk Hb. revert s. induction ks as [|k rest IH]; intros s;
    cbn [poll_loop].
  - apply maintains_bind; [apply Hb|].
    intros [s'|a]; [apply maintains_hang | apply maintains_ret].
  - apply maintains_bind; [apply maintains_modify, Hk|]. intros _.
    apply maintains_bind; [apply Hb|].
    intros [s'|a]; [apply IH | apply maintains_ret].
Qed.

End Maintains.

(** A block that keeps what [I] looks at maintains [I]. *)
Lemma maintains_keeps {T A} (proj : World -> T) (P : T -> Prop) (m : M A) :
  keeps proj m -> maintains (fun w => P (proj w)) m.
Proof. intros Hk w Hw. now rewrite Hk. Qed.

(** * Entering a number *)

Lemma enter_number_body_run prompt limit key value w :
  exists w1,
    enter_number_body prompt limit key value w
    = Ret (enter_step limit key value) w1.
Proof.
  unfold enter_number_body, enter_step, touch_lastActionTime. run.
  destruct (key_in key "0" "9"); [run; eexists; reflexivity|].
  destruct (key_is key "#"); [run; eexists; reflexivity|].
  destruct (key_is key "*"); [run; eexists; reflexivity|].
  destruct (key_is key "D"); run; eexists; reflexivity.
Qed.

Lemma enter_step_range limit key value :
  0 <= limit -> 0 <= value <= limit ->
  match enter_step limit key value with
  | inl v | inr (Some v) => 0 <= v <= limit
  | inr None => True
  end.
Proof.
  intros Hl Hv. unfold enter_step.
  destruct (key_in key "0" "9").
  - cbv zeta.
    set (digit := (char_val key - char_val "0") mod BYTE_MOD).
    assert (0 <= digit) by (apply Z.mod_pos_bound; reflexivity).
    assert (0 <= (value * 10 + digit) mod BYTE_MOD)
      by (apply Z.mod_pos_bound; reflexivity).
    destruct (value =? 0);
      match goal with |- context [?x >? limit] =>
        destruct (Z.gtb_spec x limit) end; lia.
  - destruct (key_is key "#"); [exact Hv|].
    destruct (key_is key "*"); [lia|].
    destruct (key_is key "D"); [exact I | exact Hv].
Qed.

Lemma enter_loop_range prompt limit ks : forall value w v w',
  0 <= limit -> 0 <= value <= limit ->
  poll_loop ks (enter_number_body prompt limit) value w = Ret (Some v) w' ->
  0 <= v <= limit.
Proof.
  induction ks as [|k rest IH]; intros value w v w' Hl Hv; cbn [poll_loop].
  - destruct (enter_number_body_run prompt limit NO_KEY value w) as (w1 & E).
    rewrite (bind_Ret _ _ _ _ _ E).
    pose proof (enter_step_range limit NO_KEY value Hl Hv) as Hr.
    destruct (enter_step limit NO_KEY value) as [v1|[v1|]];
      unfold hang, ret; intros [=]; subst; exact Hr.
  - rewrite bind_modify.
    match goal with |- context [bind (enter_number_body _ _ _ _) _ ?w0] =>
      destruct (enter_number_body_run prompt limit k value w0) as (w1 & E) end.
    rewrite (bind_Ret _ _ _ _ _ E).
    pose proof (enter_step_range limit k value Hl Hv) as Hr.
    destruct (enter_step limit k value) as [v1|[v1|]].
    + now apply IH.
    + unfold ret. intros [=]; subst; exact Hr.
    + unfold ret. discriminate.
Qed.

Lemma enter_number_range prompt limit w :
  0 <= limit ->
  match enter_number prompt limit w with
  | Ret (Some v) _ => 0 <= v <= limit
  | _ => True
  end.
Proof.
  intros Hl.
  destruct (enter_number prompt limit w) as [[v|] w'|w'] eqn:E;
    [|exact I|exact I].
  revert E. unfold enter_number. run.
  apply enter_loop_range; [exact Hl | lia].
Qed.

(** X3. Whatever is typed, the number [enter_number] hands back on '#' is
    between 0 and its limit: an entry is clamped, never rejected. *)
Theorem enter_number_clamped (prompt : string) (limit : Z) (w w' : World)
    (v : Z) :
  0 <= limit ->
  enter_number prompt limit w = Ret (Some v) w' ->
  0 <= v <= limit.
Proof.
  intros Hl E. pose proof (enter_number_range prompt limit w Hl) as H.
  now rewrite E in H.
Qed.

Lemma enter_number_clamped_witness :
  exists w',
    enter_number "Set Hour (0-23):" 23 eager_world = Ret (Some 23) w' /\
    0 <= 23 <= 23.
Proof.
  exists (world_of (enter_number "Set Hour (0-23):" 23 eager_world)).
  assert (enter_number "Set Hour (0-23):" 23 eager_world
          = Ret (Some 23)
              (world_of (enter_number "Set Hour (0-23):" 23 eager_world)))
    as E by (vm_compute; reflexivity).
  split; [exact E|].
  apply (enter_number_clamped _ 23 _ _ 23 ltac:(lia) E).
Defined.

(** * What setMedicationTime can leave in the table *)

Lemma run_keeping_medications {A} (m : M A) w :
  keeps medications m ->
  match m w with
  | Ret _ w1 | Hang w1 => medications w1 = medications w
  end.
Proof. intros Hk. specialize (Hk w). now destruct (m w). Qed.

Lemma setMedicationTime_cases (i : nat) (w : World) :
  (i < length (medications w))%nat ->
  let meds := medications w in
  let meds' := medications (world_of (setMedicationTime i w)) in
  meds' = meds \/
  meds' = alter (with_active false) i meds \/
  meds' = alter (with_active true) i meds \/
  (exists h, 0 <= h <= 23 /\
     meds' = alter (with_hour h) i (alter (with_active true) i meds)) \/
  (exists h mi, 0 <= h <= 23 /\ 0 <= mi <= 59 /\
     meds' = alter (with_dispensedToday false) i
               (alter (with_minute mi) i
                  (alter (with_hour h) i
                     (alter (with_active true) i meds)))).
Proof.
  intros Hi. cbv zeta. unfold setMedicationTime.
  pose proof (run_keeping_medications _ w (keeps_medications_ask_active i))
    as M1.
  destruct (ask_active i w) as [[key|] w1|w1] eqn:E1.
  2: { rewrite (bind_Ret _ _ _ _ _ E1). left. exact M1. }
  2: { rewrite (bind_Hang _ _ _ _ E1). left. exact M1. }
  rewrite (bind_Ret _ _ _ _ _ E1). run. rewrite M1.
  rewrite list_lookup_total_alter_eq by exact Hi. rewrite active_with_active.
  destruct (key_is key "1") eqn:Hkey; cbn [negb].
  2: { unfold delay. run. unfold modify. norm_world. right. left.
       reflexivity. }
  match goal with |- context [bind (enter_number ?p ?l) _ ?w0] =>
    pose proof (run_keeping_medications _ w0
                  (keeps_medications_enter_number p l)) as M2;
    pose proof (enter_number_range p l w0 ltac:(lia)) as R2;
    destruct (enter_number p l w0) as [[h|] w3|w3] eqn:E2
  end; revert M2; norm_world; intros M2; cbn in R2.
  2: { rewrite (bind_Ret _ _ _ _ _ E2). right. right. left. exact M2. }
  2: { rewrite (bind_Hang _ _ _ _ E2). right. right. left. exact M2. }
  rewrite (bind_Ret _ _ _ _ _ E2). run. rewrite M2.
  match goal with |- context [bind (enter_number ?p ?l) _ ?w0] =>
    pose proof (run_keeping_medications _ w0
                  (keeps_medications_enter_number p l)) as M3;
    pose proof (enter_number_range p l w0 ltac:(lia)) as R3;
    destruct (enter_number p l w0) as [[mi|] w5|w5] eqn:E3
  end; revert M3; norm_world; intros M3; cbn in R3.
  2: { rewrite (bind_Ret _ _ _ _ _ E3). right. right. right. left.
       exists h. split; [exact R2 | exact M3]. }
  2: { rewrite (bind_Hang _ _ _ _ E3). right. right. right. left.
       exists h. split; [exact R2 | exact M3]. }
  rewrite (bind_Ret _ _ _ _ _ E3). run. rewrite M3.
  unfold delay. run. unfold modify. norm_world.
  right. right. right. right. exists h, mi. auto.
Qed.

(** X4. [setMedicationTime i] ends, or is stuck, with one of five tables:
    the old one (cancelled at the first prompt); slot [i] deactivated and
    otherwise as it was; slot [i] activated and otherwise as it was (hour
    entry cancelled or never finished: the activation is not undone); slot
    [i] activated with a new hour but the old minute and [dispensedToday]
    (minute entry cancelled or never finished); slot [i] activated with a
    new hour and minute and [dispensedToday] cleared. A new hour is at most
    23, a new minute at most 59. *)
Theorem setMedicationTime_table (i : nat) (w : World) :
  (i < length (medications w))%nat ->
  let meds := medications w in
  let meds' := medications (world_of (setMedicationTime i w)) in
  meds' = meds \/
  meds' = alter (with_active false) i meds \/
  meds' = alter (with_active true) i meds \/
  (exists h, 0 <= h <= 23 /\
     meds' = alter (with_hour h) i (alter (with_active true) i meds)) \/
  (exists h mi, 0 <= h <= 23 /\ 0 <= mi <= 59 /\
     meds' = alter (with_dispensedToday false) i
               (alter (with_minute mi) i
                  (alter (with_hour h) i
                     (alter (with_active true) i meds)))).
Proof. exact (setMedicationTime_cases i w). Qed.

Lemma setMedicationTime_table_witness :
  exists h, 0 <= h <= 23 /\
    medications (world_of (setMedicationTime 4 cancelling_world))
    = alter (with_hour h) 4%nat (alter (with_active true) 4%nat morning_table).
Proof.
  assert (4 < length (medications cancelling_world))%nat as Hi
    by (simpl; lia).
  destruct (setMedicationTime_table 4 cancelling_world Hi)
    as [H|[H|[H|[H|(h & mi & _ & _ & H)]]]].
  - vm_compute in H. discriminate H.
  - vm_compute in H. discriminate H.
  - vm_compute in H. discriminate H.
  - exact H.
  - vm_compute in H. discriminate H.
Defined.

(** * The table stays valid *)

Lemma table_ok_alter f i meds :
  (forall m, 0 <= hour m <= 23 /\ 0 <= minute m <= 59 ->
             0 <= hour (f m) <= 23 /\ 0 <= minute (f m) <= 59) ->
  table_ok meds -> table_ok (alter f i meds).
Proof.
  intros Hf [Hlen Hr]. split; [now rewrite length_alter|].
  unfold table_in_range in *. rewrite Forall_lookup in *. intros j m Hj.
  destruct (decide (j = i)) as [->|Hne].
  - rewrite list_lookup_alter_eq in Hj.
    destruct (meds !! i) as [m0|] eqn:Hm0; [|discriminate].
    injection Hj as <-. apply Hf. exact (Hr i m0 Hm0).
  - rewrite list_lookup_alter_ne in Hj by congruence. exact (Hr j m Hj).
Qed.

Lemma maintains_ok_update_flag i (f : Medication -> Medication) :
  (forall m, hour (f m) = hour m /\ minute (f m) = minute m) ->
  maintains (fun w => table_ok (medications w)) (update_med i f).
Proof.
  intros Hf. unfold update_med. apply maintains_modify. intros w Hw.
  norm_world. apply table_ok_alter; [|exact Hw].
  intros m Hm. destruct (Hf m) as [-> ->]. exact Hm.
Qed.

Lemma maintains_ok_of_keeps {A} (m : M A) :
  keeps medications m -> maintains (fun w => table_ok (medications w)) m.
Proof. apply (maintains_keeps medications table_ok). Qed.

Lemma maintains_ok_rtc_now :
  maintains (fun w => table_ok (medications w)) rtc_now.
Proof. intros w Hw. exact Hw. Qed.

Lemma maintains_ok_getKey :
  maintains (fun w => table_ok (medications w)) getKey.
Proof. intros w Hw. unfold getKey. destruct (keys w); exact Hw. Qed.

(** Goals [maintains I m] for an [I] that looks at the table only. *)
Ltac inv_step :=
  lazymatch goal with
  | |- forall _, _ => intros
  | |- _ (if ?b then _ else _) => destruct b
  | |- _ (match ?x with _ => _ end) => destruct x
  | |- maintains _ (ret _) => apply maintains_ret
  | |- maintains _ hang => apply maintains_hang
  | |- maintains _ (get _) => apply maintains_get
  | |- maintains _ (modify _) =>
      apply maintains_modify;
      let H := fresh in intros ? H; exact H
  | |- maintains _ (emit _) => unfold emit
  | |- maintains _ (delay _) => unfold delay
  | |- maintains _ millis => unfold millis
  | |- maintains _ (med _) => unfold med
  | |- maintains _ touch_lastActionTime => unfold touch_lastActionTime
  | |- maintains _ rtc_now => apply maintains_ok_rtc_now
  | |- maintains _ getKey => apply maintains_ok_getKey
  | |- maintains _ (update_med _ (with_dispensedToday _)) =>
      apply maintains_ok_update_flag; intros []; split; reflexivity
  | |- maintains _ (bind _ _) => apply maintains_bind
  | |- maintains _ (forM _ _) => apply maintains_forM
  | |- maintains _ (forM_return _ _) => apply maintains_forM_return
  | |- maintains _ (poll_loop _ _ _) =>
      apply maintains_poll_loop;
      [let H := fresh in intros ? ? H; exact H|]
  | |- _ => solve [auto with prog nocore]
  end.

Ltac inv_auto := repeat inv_step.

Lemma keeps_medications_await_wake batches :
  keeps medications (await_wake batches).
Proof.
  assert (forall q, keeps medications (deliver q)) as Hd.
  { intros []; unfold deliver, ISR_INT0, ISR_WDT; prog. }
  assert (forall qs, keeps medications (deliver_all qs)) as Hall.
  { induction qs as [|q rest IH]; simpl; prog. }
  induction batches as [|qs rest IH]; simpl; prog.
Qed.

Lemma keeps_medications_enterSleepMode : keeps medications enterSleepMode.
Proof.
  pose proof keeps_medications_await_wake.
  unfold enterSleepMode, setupWatchdog. prog.
Qed.

Lemma maintains_ok_setMedicationTime i :
  (i < MAX_MEDICATIONS)%nat ->
  maintains (fun w => table_ok (medications w)) (setMedicationTime i).
Proof.
  intros Hi w Hw. assert (Hlen := proj1 Hw).
  destruct (setMedicationTime_cases i w ltac:(lia))
    as [H|[H|[H|[(h & Hh & H)|(h & mi & Hh & Hmi & H)]]]];
    rewrite H; clear H; try exact Hw;
    repeat (apply table_ok_alter; [intros [a h0 m0 d]; simpl; tauto|]);
    exact Hw.
Qed.

Lemma maintains_ok_setupMedications :
  maintains (fun w => table_ok (medications w)) setupMedications.
Proof.
  intros w Hw. unfold setupMedications. run.
  match goal with |- context [bind (poll_loop ?ks selection_body tt) _ ?w0] =>
    assert (keeps medications (poll_loop ks selection_body tt)) as Hk
      by (unfold selection_body; prog);
    specialize (Hk w0);
    destruct (poll_loop ks selection_body tt w0) as [[c|] w1|w1] eqn:E
  end; revert Hk; norm_world; intros Hk.
  - rewrite (bind_Ret _ _ _ _ _ E).
    assert (table_ok (medications w1)) as H1 by now rewrite Hk.
    revert H1. generalize w1. change (maintains
      (fun w => table_ok (medications w))
      (setMedicationTime (Z.to_nat (char_val c - char_val "1"));;
       saveMedications)).
    apply maintains_bind.
    + eapply maintains_ok_setMedicationTime, selection_index,
        selection_in_range, E.
    + intros _. apply maintains_ok_of_keeps,
        keeps_medications_saveMedications.
  - rewrite (bind_Ret _ _ _ _ _ E). cbn [world_of ret]. now rewrite Hk.
  - rewrite (bind_Hang _ _ _ _ E). cbn [world_of]. now rewrite Hk.
Qed.

Lemma maintains_ok_dispense :
  maintains (fun w => table_ok (medications w)) dispense.
Proof. apply maintains_ok_of_keeps, keeps_medications_dispense. Qed.

Lemma maintains_ok_displayTime force :
  maintains (fun w => table_ok (medications w)) (displayTime force).
Proof. apply maintains_ok_of_keeps, keeps_medications_displayTime. Qed.

Lemma maintains_ok_enterSleepMode :
  maintains (fun w => table_ok (medications w)) enterSleepMode.
Proof. apply maintains_ok_of_keeps, keeps_medications_enterSleepMode. Qed.

Lemma maintains_ok_checkSchedule :
  maintains (fun w => table_ok (medications w)) checkSchedule.
Proof.
  pose proof maintains_ok_dispense.
  unfold checkSchedule, checkSchedule_from, checkSchedule_entry,
    dispense_entry, resetDailyDispensedFlags.
  inv_auto.
Qed.

Lemma maintains_ok_checkMedicationDue :
  maintains (fun w => table_ok (medications w)) checkMedicationDue.
Proof.
  unfold checkMedicationDue, checkMedicationDue_entry,
    resetDailyDispensedFlags.
  inv_auto.
Qed.

(** X5. One iteration of [loop], whatever the flags, the keys typed, the
    clock and the interrupts, and whether it comes back or waits for ever,
    leaves a table of five entries with hours within 0..23 and minutes
    within 0..59 if it started with one. *)
Theorem loop_keeps_table_valid (w : World) :
  table_ok (medications w) -> table_ok (medications (world_of (loop w))).
Proof.
  revert w. change (maintains (fun w => table_ok (medications w)) loop).
  pose proof maintains_ok_dispense. pose proof maintains_ok_displayTime.
  pose proof maintains_ok_enterSleepMode.
  pose proof maintains_ok_checkSchedule.
  pose proof maintains_ok_checkMedicationDue.
  pose proof maintains_ok_setupMedications.
  assert (maintains (fun w => table_ok (medications w))
            displayAllMedications).
  { unfold displayAllMedications, review_body. inv_auto. }
  assert (forall n, maintains (fun w => table_ok (medications w))
                      (blinkLED n)).
  { intros n. unfold blinkLED. inv_auto. }
  unfold loop, button_wake, watchdog_wake, loop_rest, test_body.
  inv_auto.
Qed.

Lemma morning_table_ok : table_ok morning_table.
Proof.
  split; [reflexivity|]. unfold table_in_range, morning_table.
  repeat (apply List.Forall_cons; [simpl; lia|]). apply List.Forall_nil.
Defined.

Lemma loop_keeps_table_valid_witness :
  medications (world_of (loop setup_world)) !! 2%nat
  = Some (mkMedication true 23 59 false) /\
  table_ok (medications (world_of (loop setup_world))).
Proof.
  split; [vm_compute; reflexivity|].
  apply (loop_keeps_table_valid setup_world). exact morning_table_ok.
Defined.

(** * A setup survives a restart *)

Lemma table_ok_bytes meds : table_ok meds -> table_of_bytes meds.
Proof.
  intros [_ Hr]. unfold table_of_bytes, table_in_range, BYTE_MOD in *.
  eapply Forall_impl; [exact Hr|]. simpl. intros m. lia.
Qed.

(** X6. When [setupMedications] returns it has either been left at the
    slot prompt, with table and EEPROM as they were, or it has saved: then
    loading from that EEPROM, into whatever table a restarted device holds,
    gives back exactly the table the setup ended with, also when the entry
    of the slot was cancelled half way. *)
Theorem setupMedications_persists (w w' : World) :
  table_ok (medications w) ->
  setupMedications w = Ret tt w' ->
  (medications w' = medications w /\ eeprom w' = eeprom w) \/
  (forall w2,
     eeprom w2 = eeprom w' ->
     length (medications w2) = MAX_MEDICATIONS ->
     exists w3,
       loadMedications w2 = Ret tt w3 /\ medications w3 = medications w').
Proof.
  intros Hok. unfold setupMedications. run.
  match goal with |- context [bind (poll_loop ?ks selection_body tt) _ ?w0] =>
    assert (keeps medications (poll_loop ks selection_body tt)) as Hk
      by (unfold selection_body; prog);
    assert (keeps eeprom (poll_loop ks selection_body tt)) as He
      by (unfold selection_body; prog);
    specialize (Hk w0); specialize (He w0);
    destruct (poll_loop ks selection_body tt w0) as [[c|] w1|w1] eqn:E
  end; revert Hk He; norm_world; intros Hk He.
  - rewrite (bind_Ret _ _ _ _ _ E). intros Hrun. right.
    assert (table_ok (medications w1)) as H1 by now rewrite Hk.
    set (i := Z.to_nat (char_val c - char_val "1")) in *.
    assert (i < MAX_MEDICATIONS)%nat as Hi
      by (eapply selection_index, selection_in_range, E).
    pose proof (maintains_ok_setMedicationTime i Hi w1 H1) as H2.
    destruct (setMedicationTime i w1) as [[] w2|w2] eqn:E2;
      [rewrite (bind_Ret _ _ _ _ _ E2) in Hrun
      |rewrite (bind_Hang _ _ _ _ E2) in Hrun; discriminate].
    cbn [world_of] in H2.
    destruct (load_after_save w2 (proj1 H2) (table_ok_bytes _ H2))
      as (w1' & Hsave & Hload).
    rewrite Hsave in Hrun. injection Hrun as <-.
    pose proof (keeps_Ret _ _ _ _ _ keeps_medications_saveMedications Hsave)
      as Hm.
    intros w3 Hmem Hlen. destruct (Hload w3 Hmem Hlen) as (w4 & H4 & Hid).
    exists w4. split; [exact H4|]. rewrite Hm, Hid.
    apply validate_table_id, H2.
  - rewrite (bind_Ret _ _ _ _ _ E). unfold ret. intros [= <-]. left.
    now split.
  - rewrite (bind_Hang _ _ _ _ E). discriminate.
Qed.

Lemma restart_keeps_eeprom x w : eeprom (set_medications x w) = eeprom w.
Proof. reflexivity. Defined.

Lemma restart_table_length w :
  length (medications (set_medications no_medications w)) = MAX_MEDICATIONS.
Proof. reflexivity. Defined.

Lemma setupMedications_persists_witness :
  exists w' w3,
    setupMedications
      (set_keys ["3"; "1"; "9"; "9"; "#"; "9"; "9"; "#"]%char
         (idle_world morning_table (mkDateTime 9 0 0))) = Ret tt w' /\
    loadMedications (set_medications no_medications w') = Ret tt w3 /\
    medications w3
    = [ mkMedication true 8 0 false; free_slot;
        mkMedication true 23 59 false;
        mkMedication true 8 0 false; mkMedication true 20 30 true ].
Proof.
  set (w := set_keys ["3"; "1"; "9"; "9"; "#"; "9"; "9"; "#"]%char
              (idle_world morning_table (mkDateTime 9 0 0))).
  assert (setupMedications w = Ret tt (world_of (setupMedications w))) as E
    by (vm_compute; reflexivity).
  destruct (setupMedications_persists w _ morning_table_ok E)
    as [[Hsame _]|Hload].
  - vm_compute in Hsame. discriminate Hsame.
  - destruct (Hload (set_medications no_medications
                       (world_of (setupMedications w)))
                (restart_keeps_eeprom _ _) (restart_table_length _))
      as (w3 & H3 & Hm).
    exists (world_of (setupMedications w)), w3.
    split; [exact E|]. split; [exact H3|].
    rewrite Hm. vm_compute. reflexivity.
Defined.

(** * Who writes the EEPROM *)

(** Reasoning about a sequence by its first block, when that block keeps
    the part of the world the rest depends on. *)
Lemma after_block {T A B} (proj : World -> T) (m : M A) (k : A -> M B) w
    (Q : World -> Prop) :
  keeps proj m ->
  (forall a w1, proj w1 = proj w -> Q (world_of (k a w1))) ->
  (forall w1, proj w1 = proj w -> Q w1) ->
  Q (world_of (bind m k w)).
Proof.
  intros Hk Hret Hhang. rewrite world_of_bind. specialize (Hk w).
  destruct (m w) as [a w1|w1]; cbn [world_of] in Hk; auto.
Qed.

Lemma keeps_at {T A} (proj : World -> T) (m : M A) w x :
  keeps proj m -> proj w = x -> proj (world_of (m w)) = x.
Proof. intros Hk <-. apply Hk. Qed.

Lemma keeps_store_keys_await_wake batches :
  keeps store_keys (await_wake batches).
Proof.
  assert (forall q, keeps store_keys (deliver q)) as Hd.
  { intros []; unfold deliver, ISR_INT0, ISR_WDT; prog. }
  assert (forall qs, keeps store_keys (deliver_all qs)) as Hall.
  { induction qs as [|q rest IH]; simpl; prog. }
  induction batches as [|qs rest IH]; simpl; prog.
Qed.

Lemma keeps_store_keys_wake_blocks :
  keeps store_keys button_wake /\ keeps store_keys watchdog_wake.
Proof.
  pose proof keeps_store_keys_await_wake.
  split.
  - unfold button_wake, blinkLED, displayTime, getTimeToNextMedication. prog.
  - unfold watchdog_wake, blinkLED, checkMedicationDue,
      checkMedicationDue_entry, resetDailyDispensedFlags, update_med,
      enterSleepMode, setupWatchdog.
    prog.
Qed.

Lemma keeps_eeprom_after_keys :
  keeps eeprom displayAllMedications /\
  keeps eeprom dispense /\
  keeps eeprom checkSchedule /\
  keeps eeprom enterSleepMode /\
  (forall force, keeps eeprom (displayTime force)).
Proof.
  assert (forall force, keeps eeprom (displayTime force)) as Hshow.
  { intros force. unfold displayTime, getTimeToNextMedication. prog. }
  assert (keeps eeprom dispense) as Hdisp.
  { unfold dispense, beep. prog. }
  assert (forall batches, keeps eeprom (await_wake batches)) as Hawait.
  { assert (forall q, keeps eeprom (deliver q)) as Hd.
    { intros []; unfold deliver, ISR_INT0, ISR_WDT; prog. }
    assert (forall qs, keeps eeprom (deliver_all qs)) as Hall.
    { induction qs as [|q rest IH]; simpl; prog. }
    induction batches as [|qs rest IH]; simpl; prog. }
  repeat split; auto.
  - unfold displayAllMedications, review_body. prog.
  - unfold checkSchedule, checkSchedule_from, checkSchedule_entry,
      dispense_entry, resetDailyDispensedFlags, update_med. prog.
  - unfold enterSleepMode, setupWatchdog. prog.
Qed.

(** X7. An iteration of [loop] in which the key polled is not 'A' leaves
    every EEPROM cell as it was, whether it dispenses, resets the daily
    flags, goes to sleep or waits for a key for ever. *)
Theorem loop_saves_only_in_setup (w : World) :
  (forall k rest, keys w = k :: rest -> key_is k "A" = false) ->
  eeprom (world_of (loop w)) = eeprom w.
Proof.
  intros Hkey. destruct keeps_store_keys_wake_blocks as [Hbw Hww].
  destruct keeps_eeprom_after_keys as (Hall & Hdisp & Hsched & Hsleep & Hshow).
  assert (forall w1, store_keys w1 = store_keys w ->
            eeprom (world_of (loop_rest w1)) = eeprom w) as Hrest.
  { intros w1 [= He Hk]. rewrite <- He. unfold loop_rest.
    rewrite world_of_bind. unfold getKey.
    destruct (keys w1) as [|k rest] eqn:Ek.
    - change (char_val NO_KEY =? 0) with true. cbn [negb world_of].
      apply keeps_at; [prog | reflexivity].
    - cbn [world_of]. rewrite (Hkey k rest) by congruence.
      apply keeps_at; [|reflexivity]. unfold test_body. prog. }
  unfold loop. run.
  apply (after_block store_keys); [destruct (buttonWakeFlag w); [exact Hbw|prog]| |].
  2: { now intros w1 [= -> _]. }
  intros _ w1 H1. run.
  apply (after_block store_keys);
    [destruct (_ && _); [exact Hww|prog]| |].
  2: { intros w2 H2. rewrite H1 in H2. now injection H2 as -> _. }
  intros returned w2 H2. rewrite H1 in H2. destruct returned.
  - cbn [world_of ret]. now injection H2 as -> _.
  - now apply Hrest.
Qed.

Lemma loop_saves_only_in_setup_witness :
  eeprom (world_of (loop checking_world)) = eeprom checking_world /\
  medications (world_of (loop checking_world)) !! 0%nat
  = Some (mkMedication true 8 0 true).
Proof.
  split.
  - apply (loop_saves_only_in_setup checking_world).
    intros k rest Hk. vm_compute in Hk. discriminate Hk.
  - vm_compute. reflexivity.
Defined.

(** * Time to the next dose *)

Lemma int16_small x : -32768 <= x < 32768 -> int16 x = x.
Proof.
  intros Hx. unfold int16. rewrite Z.mod_small by lia. lia.
Qed.

Lemma lookup_total_in_range (meds : list Medication) i :
  table_in_range meds ->
  0 <= hour (meds !!! i) <= 23 /\ 0 <= minute (meds !!! i) <= 59.
Proof.
  intros Hr. rewrite list_lookup_total_alt.
  destruct (meds !! i) as [m|] eqn:Hm; simpl.
  - unfold table_in_range in Hr. rewrite Forall_lookup in Hr.
    exact (Hr i m Hm).
  - lia.
Qed.

Lemma minutes_until_bounds now m :
  valid_time now ->
  0 <= hour m <= 23 /\ 0 <= minute m <= 59 ->
  0 <= minutes_until now m < 2 * (24 * 60).
Proof.
  intros [Hh Hmi] [Hmh Hmm]. unfold minutes_until. cbv zeta.
  destruct (dispensedToday m); [lia|].
  destruct (Z.ltb_spec (hour m * 60 + minute m
                        - (dt_hour now * 60 + dt_minute now)) 0); lia.
Qed.

(** On a valid table and time no step of the search leaves the 16-bit
    range, so the step is the plain comparison. *)
Lemma nextMedication_step_plain now meds acc i :
  valid_time now -> table_in_range meds ->
  nextMedication_step now meds acc i
  = if active (meds !!! i) then
      if minutes_until now (meds !!! i) <? fst acc
      then (minutes_until now (meds !!! i), true) else acc
    else acc.
Proof.
  intros [Hh Hmi] Hr. unfold nextMedication_step. cbv zeta.
  destruct (lookup_total_in_range meds i Hr) as [Hmh Hmm].
  destruct (active (meds !!! i)); [|reflexivity].
  unfold minutes_until. cbv zeta.
  rewrite !(int16_small (hour (meds !!! i) * 60 + minute (meds !!! i)))
    by lia.
  rewrite !(int16_small (dt_hour now * 60 + dt_minute now)) by lia.
  rewrite !(int16_small (_ - _)) by lia.
  destruct (dispensedToday (meds !!! i)); [reflexivity|].
  destruct (Z.ltb_spec (hour (meds !!! i) * 60 + minute (meds !!! i)
                        - (dt_hour now * 60 + dt_minute now)) 0);
    [rewrite int16_small by lia|]; reflexivity.
Qed.

(** The search keeps the smallest distance seen, and says so. *)
Lemma nextMedication_fold now meds ixs :
  valid_time now -> table_in_range meds ->
  forall acc,
    let r := fold_left (nextMedication_step now meds) ixs acc in
    (forall i, In i ixs -> active (meds !!! i) = true ->
               fst r <= minutes_until now (meds !!! i)) /\
    (r = acc \/
     (snd r = true /\ fst r < fst acc /\
      exists i, In i ixs /\ active (meds !!! i) = true /\
                minutes_until now (meds !!! i) = fst r)).
Proof.
  intros Hnow Hr. induction ixs as [|i rest IH]; intros acc; cbn [fold_left].
  - split; [intros i []|]. now left.
  - rewrite nextMedication_step_plain by assumption.
    set (d := minutes_until now (meds !!! i)).
    destruct (active (meds !!! i)) eqn:Hact.
    + destruct (Z.ltb_spec d (fst acc)) as [Hlt|Hge].
      * destruct (IH (d, true)) as [Hlow Hbest]. cbn [fst snd] in *. split.
        -- intros j [<-|Hj] Hj'; [|now apply Hlow].
           destruct Hbest as [->|(_ & Hlt' & _)]; cbn [fst]; fold d; lia.
        -- right. destruct Hbest as [->|(Hf & Hlt' & j & Hj & Ha & Hd)].
           ++ cbn [fst snd]. repeat split; [exact Hlt|].
              exists i. repeat split; [now left | exact Hact].
           ++ repeat split; [exact Hf | lia|].
              exists j. repeat split; [now right | exact Ha | exact Hd].
      * destruct (IH acc) as [Hlow Hbest]. split.
        -- intros j [<-|Hj] Hj'; [|now apply Hlow].
           destruct Hbest as [->|(_ & Hlt' & _)]; fold d; lia.
        -- destruct Hbest as [->|(Hf & Hlt' & j & Hj & Ha & Hd)];
             [now left|].
           right. repeat split; [exact Hf | exact Hlt'|].
           exists j. repeat split; [now right | exact Ha | exact Hd].
    + destruct (IH acc) as [Hlow Hbest]. split.
      * intros j [<-|Hj] Hj'; [congruence | now apply Hlow].
      * destruct Hbest as [->|(Hf & Hlt' & j & Hj & Ha & Hd)]; [now left|].
        right. repeat split; [exact Hf | exact Hlt'|].
        exists j. repeat split; [now right | exact Ha | exact Hd].
Qed.

(** X8. On a table of valid times and a valid clock reading,
    [getTimeToNextMedication] changes nothing, and its outputs satisfy
    hours * 60 + minutes <= the distance to every active entry. When it
    returns true the outputs are the distance to some active entry, the
    nearest one, below 24 hours (hours within 0..23, minutes within 0..59);
    when it returns false the outputs are 24 h 0 min and no active entry is
    less than 24 hours away. *)
Theorem getTimeToNextMedication_nearest (now : DateTime) (w : World) :
  valid_time now ->
  table_in_range (medications w) ->
  exists found hours minutes,
    getTimeToNextMedication now w = Ret (found, (hours, minutes)) w /\
    (forall i, (i < MAX_MEDICATIONS)%nat ->
       active (medications w !!! i) = true ->
       hours * 60 + minutes <= minutes_until now (medications w !!! i)) /\
    (found = true ->
     0 <= hours <= 23 /\ 0 <= minutes <= 59 /\
     exists i, (i < MAX_MEDICATIONS)%nat /\
       active (medications w !!! i) = true /\
       minutes_until now (medications w !!! i) = hours * 60 + minutes) /\
    (found = false -> hours = 24 /\ minutes = 0).
Proof.
  intros Hnow Hr. unfold getTimeToNextMedication. rewrite bind_get.
  cbv zeta. unfold ret.
  destruct (nextMedication_fold now (medications w) (seq 0 MAX_MEDICATIONS)
              Hnow Hr (24 * 60, false)) as [Hlow Hbest].
  cbv zeta in Hlow, Hbest.
  set (r := fold_left _ _ _) in *.
  exists (snd r), (Z.quot (fst r) 60), (Z.rem (fst r) 60).
  split; [reflexivity|].
  assert (Hpos : 0 <= fst r).
  { destruct Hbest as [->|(_ & _ & i & _ & _ & <-)]; [cbn; lia|].
    apply minutes_until_bounds;
      [exact Hnow | apply lookup_total_in_range, Hr]. }
  assert (Hsum : Z.quot (fst r) 60 * 60 + Z.rem (fst r) 60 = fst r).
  { rewrite (Z.quot_rem' (fst r) 60) at 3. lia. }
  assert (Hrem : 0 <= Z.rem (fst r) 60 < 60).
  { apply Z.rem_bound_pos; lia. }
  split; [|split].
  - intros i Hi Ha. rewrite Hsum. apply Hlow; [|exact Ha].
    apply in_seq. lia.
  - intros Hf. destruct Hbest as [Heq|(_ & Hlt & i & Hi & Ha & Hd)].
    + rewrite Heq in Hf. discriminate.
    + cbn [fst] in Hlt. split; [lia|]. split; [lia|].
      exists i. apply in_seq in Hi. repeat split; [lia | exact Ha|].
      now rewrite Hsum.
  - intros Hf. destruct Hbest as [->|(Ht & _)]; [|congruence].
    split; reflexivity.
Qed.

Lemma getTimeToNextMedication_nearest_witness :
  getTimeToNextMedication (mkDateTime 19 45 0) breakfast_world
  = Ret (true, (12, 15)) breakfast_world.
Proof.
  assert (valid_time (mkDateTime 19 45 0)) as Hnow
    by (unfold valid_time; simpl; lia).
  destruct (getTimeToNextMedication_nearest (mkDateTime 19 45 0)
              breakfast_world Hnow (proj2 morning_table_ok))
    as (found & hours & minutes & Hrun & _).
  rewrite Hrun. vm_compute in Hrun. injection Hrun as <- <- <-. reflexivity.
Defined.

(** * The schedule check at midnight and twice in a minute *)

Lemma filter_none {A} (p : A -> bool) l :
  (forall x, In x l -> p x = false) -> List.filter p l = [].
Proof.
  induction l as [|x l IH]; intros H; simpl; [reflexivity|].
  rewrite (H x (or_introl eq_refl)). apply IH. intros y Hy. apply H. now right.
Qed.

(** X9. In the midnight minute [checkSchedule] first clears every
    [dispensedToday] flag and then dispenses all the same: each active entry
    set to 00:00 is dispensed, in index order, also one that was marked
    dispensed before the call; every other entry ends with its flag clear. *)
Theorem checkSchedule_at_midnight (w : World) :
  is_midnight (next_reading w) = true ->
  length (medications w) = MAX_MEDICATIONS ->
  exists w',
    checkSchedule w = Ret tt w' /\
    (rtc_now;; resetDailyDispensedFlags;;
     forM (List.filter (fun i => is_midnight_dose (medications w !!! i))
             (seq 0 MAX_MEDICATIONS))
          dispense_entry) w = Ret tt w' /\
    medications w'
    = (fun m => with_dispensedToday (is_midnight_dose m) m) <$> medications w.
Proof.
  intros Hmid Hlen. assert (Hmid' := Hmid).
  apply is_midnight_spec in Hmid' as [Hh Hm].
  unfold checkSchedule, checkSchedule_from.
  rewrite !bind_rtc_now. unfold is_midnight in Hmid. rewrite Hmid.
  set (w0 := set_rtc_reads _ w).
  assert (length (medications w0) = MAX_MEDICATIONS) as Hlen0 by exact Hlen.
  rewrite !(bind_Ret _ _ _ _ _ (resetDailyDispensedFlags_run w0 Hlen0)).
  set (w1 := set_medications _ w0).
  destruct (checkSchedule_loop (next_reading w) MAX_MEDICATIONS 0 w1)
    as (w' & E & F & L).
  assert (Hdue : forall m,
            is_due (next_reading w) (with_dispensedToday false m)
            = is_midnight_dose m).
  { intros m. unfold is_due, is_midnight_dose. cbn. rewrite Hh, Hm.
    now rewrite andb_true_r. }
  exists w'. split; [exact E|]. split.
  - rewrite <- F. f_equal. apply List.filter_ext_in. intros i Hi.
    apply in_seq in Hi. subst w1 w0. norm_world.
    destruct (lookup_lt_is_Some_2 (medications w) i ltac:(lia)) as (m & Hm').
    rewrite (list_lookup_total_correct _ _ _ Hm').
    erewrite list_lookup_total_correct
      by (rewrite list_lookup_fmap, Hm'; reflexivity).
    symmetry. apply Hdue.
  - apply list_eq. intros i. rewrite L. subst w1 w0. norm_world.
    rewrite !list_lookup_fmap. case_decide as Hi.
    + destruct (medications w !! i) as [m|]; [|reflexivity]. cbn.
      rewrite Hdue. now destruct (is_midnight_dose m).
    + rewrite lookup_ge_None_2 by lia. reflexivity.
Qed.

Lemma checkSchedule_at_midnight_witness :
  exists w',
    checkSchedule midnight_world = Ret tt w' /\
    medications w'
    = [ mkMedication true 0 0 true; mkMedication true 8 0 false; free_slot;
        free_slot; free_slot ] /\
    List.filter is_gate (trace w')
    = [ TopServoWrite SERVO_OPEN_POS; TopServoWrite SERVO_CLOSED_POS;
        BottomServoWrite SERVO_OPEN_POS; BottomServoWrite SERVO_CLOSED_POS ].
Proof.
  destruct (checkSchedule_at_midnight midnight_world eq_refl eq_refl)
    as (w' & H1 & _ & H3).
  exists w'. split; [exact H1|]. split.
  - rewrite H3. vm_compute. reflexivity.
  - vm_compute in H1. injection H1 as <-. vm_compute. reflexivity.
Defined.

(** X10. No dose twice in its minute: after a check outside midnight,
    another check that reads the same hour and minute, on a table the first
    one left, dispenses nothing, prints nothing and leaves the table as it
    is. *)
Theorem checkSchedule_once_per_minute (w w' w2 : World) :
  is_midnight (next_reading w) = false ->
  length (medications w) = MAX_MEDICATIONS ->
  checkSchedule w = Ret tt w' ->
  medications w2 = medications w' ->
  dt_hour (next_reading w2) = dt_hour (next_reading w) ->
  dt_minute (next_reading w2) = dt_minute (next_reading w) ->
  checkSchedule w2 = Ret tt (set_rtc_reads (S (rtc_reads w2)) w2).
Proof.
  intros Hmid Hlen Hrun Hm2 Hh Hmi.
  assert (forall m, is_due (next_reading w2) m = is_due (next_reading w) m)
    as Hsame by (intros m; unfold is_due; now rewrite Hh, Hmi).
  assert (medications w' = mark_due (next_reading w) (medications w)) as Hm'.
  { revert Hrun. unfold checkSchedule, checkSchedule_from.
    rewrite !bind_rtc_now. unfold is_midnight in Hmid. rewrite Hmid, bind_ret.
    set (w0 := set_rtc_reads _ w).
    destruct (checkSchedule_loop (next_reading w) MAX_MEDICATIONS 0 w0)
      as (w1 & E & _ & L).
    rewrite E. intros [= <-]. apply list_eq. intros i. rewrite L.
    unfold mark_due. rewrite list_lookup_fmap. subst w0. norm_world.
    case_decide; [reflexivity|]. rewrite lookup_ge_None_2 by lia.
    reflexivity. }
  unfold checkSchedule, checkSchedule_from. rewrite !bind_rtc_now.
  replace ((dt_hour (next_reading w2) =? 0)
           && (dt_minute (next_reading w2) =? 0)) with false
    by (rewrite Hh, Hmi; symmetry; exact Hmid).
  rewrite bind_ret. set (w0 := set_rtc_reads _ w2).
  destruct (checkSchedule_loop (next_reading w2) MAX_MEDICATIONS 0 w0)
    as (w3 & E & F & _).
  rewrite E, <- F. rewrite filter_none; [reflexivity|].
  intros i _. subst w0. norm_world. rewrite Hm2, Hm', Hsame.
  unfold mark_due. rewrite list_lookup_total_alt, list_lookup_fmap.
  destruct (medications w !! i) as [m|]; [|reflexivity]. cbn.
  destruct (is_due (next_reading w) m) eqn:Hd; [|exact Hd].
  unfold is_due. cbn. now rewrite andb_false_r.
Qed.

Lemma checkSchedule_once_per_minute_witness :
  exists w',
    checkSchedule breakfast_world = Ret tt w' /\
    checkSchedule w' = Ret tt (set_rtc_reads (S (rtc_reads w')) w').
Proof.
  assert (checkSchedule breakfast_world
          = Ret tt (world_of (checkSchedule breakfast_world))) as E
    by (vm_compute; reflexivity).
  exists (world_of (checkSchedule breakfast_world)). split; [exact E|].
  apply (checkSchedule_once_per_minute breakfast_world _ _
           eq_refl eq_refl E eq_refl); vm_compute; reflexivity.
Defined.

(** * The gates move in whole cycles only *)

Lemma dispense_gates w :
  List.filter is_gate (trace (world_of (dispense w)))
  = List.filter is_gate (trace w) ++ gate_cycle.
Proof.
  destruct w as [meds]. unfold dispense. run. rewrite bind_beep_dispense. run.
  match goal with |- context [displayTime true ?w0] =>
    destruct (emits_lcd_displayTime true w0) as (shown & Htrace & Hlcd)
  end.
  rewrite Htrace. norm_world. rewrite !List.filter_app.
  rewrite (filter_lcd is_gate shown); [|now intros []|exact Hlcd].
  cbn [List.filter is_gate]. rewrite !app_nil_r, <- !app_assoc.
  reflexivity.
Qed.

Lemma replicate_cycles_snoc {A} k (c : list A) :
  concat (replicate k c) ++ c = concat (replicate (S k) c).
Proof.
  induction k as [|k IH]; cbn [replicate concat].
  - now rewrite app_nil_r.
  - cbn [replicate concat] in IH. now rewrite <- app_assoc, IH.
Qed.

Section Cycles.
Context (base : list Event).

Lemma maintains_cycles_dispense : maintains (whole_cycles base) dispense.
Proof.
  intros w [k Hk]. exists (S k).
  now rewrite dispense_gates, Hk, <- app_assoc, replicate_cycles_snoc.
Qed.

Lemma maintains_cycles_quiet {A} (m : M A) :
  emits (fun e => is_gate e = false) m -> maintains (whole_cycles base) m.
Proof.
  intros Hm w [k Hk]. exists k. destruct (Hm w) as (evs & -> & Hq).
  rewrite List.filter_app, Hk, filter_none, app_nil_r; [reflexivity|].
  intros e He. rewrite List.Forall_forall in Hq. now apply Hq.
Qed.

Lemma maintains_cycles_silent {A} (m : M A) :
  keeps trace m -> maintains (whole_cycles base) m.
Proof. intros Hk w [k Hw]. exists k. now rewrite Hk. Qed.

End Cycles.

(** Goals [maintains (whole_cycles base) m], by the shape of [m]. *)
Ltac gate_step :=
  lazymatch goal with
  | |- forall _, _ => intros
  | |- _ (if ?b then _ else _) => destruct b
  | |- _ (match ?x with _ => _ end) => destruct x
  | |- maintains _ dispense => apply maintains_cycles_dispense
  | |- maintains _ (ret _) => apply maintains_ret
  | |- maintains _ hang => apply maintains_hang
  | |- maintains _ (get _) => apply maintains_get
  | |- maintains _ (modify _) =>
      apply maintains_modify;
      let H := fresh in intros ? H; exact H
  | |- maintains _ (emit _) =>
      apply maintains_cycles_quiet, emits_emit; reflexivity
  | |- maintains _ (delay _) => unfold delay
  | |- maintains _ millis => unfold millis
  | |- maintains _ (med _) => unfold med
  | |- maintains _ (update_med _ _) => unfold update_med
  | |- maintains _ touch_lastActionTime => unfold touch_lastActionTime
  | |- maintains _ rtc_now =>
      apply maintains_cycles_silent, keeps_rtc_now; intros; reflexivity
  | |- maintains _ getKey =>
      apply maintains_cycles_silent, keeps_getKey; intros; reflexivity
  | |- maintains _ (bind _ _) => apply maintains_bind
  | |- maintains _ (forM _ _) => apply maintains_forM
  | |- maintains _ (forM_return _ _) => apply maintains_forM_return
  | |- maintains _ (poll_loop _ _ _) =>
      apply maintains_poll_loop;
      [let H := fresh in intros ? ? H; exact H|]
  | |- _ => solve [auto with prog nocore]
  end.

Ltac gates := repeat gate_step.

(** X11. The gates move in whole dispensing cycles only. Whatever one
    iteration of [loop] does (a wake-up, a menu, the manual test, the
    schedule check) and whether it comes back or waits for ever, the
    commands it sends to the two servos are some number of repetitions of:
    | top open, top closed, bottom open, bottom closed |. No path opens a
    gate alone or leaves one open. *)
Theorem loop_moves_gates_in_cycles (w : World) :
  exists k,
    List.filter is_gate (trace (world_of (loop w)))
    = List.filter is_gate (trace w) ++ concat (replicate k gate_cycle).
Proof.
  assert (whole_cycles (List.filter is_gate (trace w)) w) as Hw
    by (exists 0%nat; cbn; now rewrite app_nil_r).
  revert Hw. generalize (List.filter is_gate (trace w)). intros base.
  revert w. change (maintains (whole_cycles base) loop).
  assert (maintains (whole_cycles base) enterSleepMode).
  { pose proof (fun bs => maintains_cycles_silent base _
                            (keeps_trace_await_wake bs)).
    unfold enterSleepMode, setupWatchdog. gates. }
  assert (forall force, maintains (whole_cycles base) (displayTime force)).
  { intros force. unfold displayTime, getTimeToNextMedication. gates. }
  assert (maintains (whole_cycles base) checkSchedule).
  { unfold checkSchedule, checkSchedule_from, checkSchedule_entry,
      dispense_entry, resetDailyDispensedFlags. gates. }
  assert (maintains (whole_cycles base) checkMedicationDue).
  { unfold checkMedicationDue, checkMedicationDue_entry,
      resetDailyDispensedFlags. gates. }
  assert (forall n, maintains (whole_cycles base) (blinkLED n)).
  { intros n. unfold blinkLED. gates. }
  assert (forall n, maintains (whole_cycles base) (beep n)).
  { intros n. unfold beep. gates. }
  assert (maintains (whole_cycles base) saveMedications).
  { unfold saveMedications. gates. }
  assert (maintains (whole_cycles base) setupMedications).
  { unfold setupMedications, selection_body, setMedicationTime, ask_active,
      active_prompt_body, enter_number, enter_number_body. gates. }
  assert (maintains (whole_cycles base) displayAllMedications).
  { unfold displayAllMedications, review_body. gates. }
  unfold loop, button_wake, watchdog_wake, loop_rest, test_body.
  gates.
Qed.

(** * Waking from sleep *)

Lemma slept_refl w : inSleepMode w = true -> slept w w.
Proof. intros H. unfold slept. auto 10. Qed.

Lemma slept_trans w1 w2 w3 : slept w1 w2 -> slept w2 w3 -> slept w1 w3.
Proof.
  unfold slept. intros (_ & D1 & A1 & T1 & B1 & W1) (S2 & D2 & A2 & T2 & B2 & W2).
  split; [exact S2|]. split; [congruence|]. split; [congruence|].
  split; [congruence|]. auto.
Qed.

Lemma deliver_asleep q w :
  inSleepMode w = true ->
  exists w',
    deliver q w = Ret tt w' /\ slept w w' /\
    (is_watchdog q = true -> watchdogWakeFlag w' = true).
Proof.
  intros Hs. destruct w as [meds]. simpl in Hs. subst.
  destruct q as [t|t]; unfold deliver, ISR_INT0, ISR_WDT; run.
  - destruct (_ >=? DEBOUNCE_TIME); run;
      (eexists; split; [reflexivity|]; split; [|discriminate]);
      unfold slept; norm_world; auto 10.
  - unfold modify. norm_world. eexists. split; [reflexivity|].
    split; [|reflexivity]. unfold slept. norm_world. auto 10.
Qed.

Lemma deliver_all_asleep qs : forall w,
  inSleepMode w = true ->
  exists w',
    deliver_all qs w = Ret tt w' /\ slept w w' /\
    (existsb is_watchdog qs = true -> watchdogWakeFlag w' = true).
Proof.
  induction qs as [|q rest IH]; intros w Hs; cbn [deliver_all existsb].
  - exists w. split; [reflexivity|]. split; [now apply slept_refl|].
    discriminate.
  - destruct (deliver_asleep q w Hs) as (w1 & E1 & S1 & W1).
    rewrite (bind_Ret _ _ _ _ _ E1).
    destruct (IH w1 (proj1 S1)) as (w2 & E2 & S2 & W2).
    exists w2. split; [exact E2|]. split; [exact (slept_trans _ _ _ S1 S2)|].
    intros [Hq|Hr]%orb_true_iff; [|exact (W2 Hr)].
    apply S2, W1, Hq.
Qed.

Lemma await_wake_wakes batches : forall w,
  inSleepMode w = true ->
  Exists (fun qs => existsb is_watchdog qs = true) batches ->
  exists w',
    await_wake batches w = Ret tt w' /\ slept w w' /\
    (buttonWakeFlag w' = true \/ watchdogWakeFlag w' = true).
Proof.
  induction batches as [|qs rest IH]; intros w Hs Hwd.
  - inversion Hwd.
  - cbn [await_wake]. rewrite bind_modify.
    assert (slept w (set_irqs rest w)) as S0
      by (unfold slept, set_irqs; cbn; auto 10).
    destruct (deliver_all_asleep qs (set_irqs rest w) Hs)
      as (w1 & E1 & S1 & W1).
    rewrite (bind_Ret _ _ _ _ _ E1), !bind_get.
    pose proof (slept_trans _ _ _ S0 S1) as S01.
    destruct (buttonWakeFlag w1) eqn:Hb; cbn [negb andb].
    { exists w1. split; [reflexivity|]. split; [exact S01 | now left]. }
    destruct (watchdogWakeFlag w1) eqn:Hw; cbn [negb].
    { exists w1. split; [reflexivity|]. split; [exact S01 | now right]. }
    assert (Exists (fun qs => existsb is_watchdog qs = true) rest) as Hrest.
    { inversion Hwd as [? ? Hq|? ? Hr]; [|exact Hr]. subst.
      specialize (W1 Hq). congruence. }
    destruct (IH w1 (proj1 S1) Hrest) as (w2 & E2 & S2 & F2).
    exists w2. split; [exact E2|]. split; [|exact F2].
    exact (slept_trans _ _ _ S01 S2).
Qed.

(** X12. A watchdog interrupt always ends the sleep: if one is still to
    come, [enterSleepMode] returns, with [inSleepMode] cleared and a wake
    flag set. Whatever button presses arrived in between have changed
    neither the display mode nor the inactivity timer, and the commands
    sent are those of going to sleep followed by the three of waking
    up. *)
Theorem enterSleepMode_wakes (w : World) :
  Exists (fun qs => existsb is_watchdog qs = true) (irqs w) ->
  exists w',
    enterSleepMode w = Ret tt w' /\
    inSleepMode w' = false /\
    (buttonWakeFlag w' = true \/ watchdogWakeFlag w' = true) /\
    displayMode w' = displayMode w /\
    lastActionTime w' = lastActionTime w /\
    trace w'
    = trace w ++ sleep_entry_events
              ++ [SleepDisable; AdcEnable true; WdtDisable].
Proof.
  intros Hwd. destruct w as [meds]. cbn [irqs] in Hwd.
  unfold enterSleepMode, setupWatchdog. run.
  match goal with |- context [bind (await_wake ?bs) _ ?w0] =>
    destruct (await_wake_wakes bs w0 eq_refl Hwd)
      as (w1 & E & (_ & D1 & A1 & T1 & _) & F1)
  end.
  revert D1 A1 T1. norm_world. intros D1 A1 T1.
  rewrite (bind_Ret _ _ _ _ _ E). run. unfold modify. norm_world.
  eexists. split; [reflexivity|]. norm_world.
  split; [reflexivity|]. split; [exact F1|]. split; [exact D1|].
  split; [exact A1|]. rewrite T1, <- !app_assoc. reflexivity.
Qed.

Lemma enterSleepMode_wakes_witness :
  exists w',
    enterSleepMode dozing_world = Ret tt w' /\
    buttonWakeFlag w' = false /\ watchdogWakeFlag w' = true /\
    inSleepMode w' = false /\ clock w' = 10000.
Proof.
  assert (Exists (fun qs => existsb is_watchdog qs = true)
            (irqs dozing_world)) as Hwd
    by (apply Exists_cons_tl, Exists_cons_hd; reflexivity).
  destruct (enterSleepMode_wakes dozing_world Hwd) as (w' & E & Hs & _).
  exists w'. split; [exact E|].
  vm_compute in E. injection E as <-. vm_compute. auto.
Defined.

(** * The idle display *)

(** X13. The idle display is drawn once a minute: after any call of
    [displayTime], a call without [forceUpdate] that finds the same display
    mode and reads the same minute sends nothing to the display; it only
    consumes a reading of the clock. *)
Theorem displayTime_draws_once_a_minute (force : bool) (w w1 w2 : World) :
  displayTime force w = Ret tt w1 ->
  lastDisplayedMinute w2 = lastDisplayedMinute w1 ->
  lastDisplayMode w2 = lastDisplayMode w1 ->
  displayMode w2 = displayMode w ->
  dt_minute (next_reading w2) = dt_minute (next_reading w) ->
  displayTime false w2 = Ret tt (set_rtc_reads (S (rtc_reads w2)) w2).
Proof.
  intros E Hmin Hmode Hdm Hnow.
  assert (lastDisplayedMinute w1 = dt_minute (next_reading w) /\
          lastDisplayMode w1 = displayMode w) as [Hs1 Hs2].
  { revert E. unfold displayTime. rewrite bind_rtc_now, !bind_get.
    norm_world.
    destruct (force || negb (dt_minute (next_reading w) =? lastDisplayedMinute w)
              || negb (displayMode w =? lastDisplayMode w)) eqn:Hdraw.
    - rewrite bind_modify. intros E.
      match type of E with ?m ?w0 = _ =>
        assert (keeps (fun w => (lastDisplayedMinute w, lastDisplayMode w)) m)
          as Hk by (unfold getTimeToNextMedication; prog);
        pose proof (keeps_Ret _ _ _ _ _ Hk E) as H
      end.
      revert H. norm_world. intros [= -> ->]. split; reflexivity.
    - unfold ret. intros [= <-]. norm_world.
      apply orb_false_iff in Hdraw as [[_ H1]%orb_false_iff H2].
      apply negb_false_iff in H1, H2. split; [now apply Z.eqb_eq in H1 |].
      apply Z.eqb_eq in H2. now symmetry. }
  unfold displayTime. rewrite bind_rtc_now, !bind_get. norm_world.
  fold (next_reading w2).
  rewrite Hnow, Hmin, Hmode, Hdm, Hs1, Hs2, !Z.eqb_refl. reflexivity.
Qed.

Lemma displayTime_draws_once_a_minute_witness :
  exists w1,
    displayTime false breakfast_world = Ret tt w1 /\
    trace w1 <> [] /\
    displayTime false w1 = Ret tt (set_rtc_reads (S (rtc_reads w1)) w1).
Proof.
  assert (displayTime false breakfast_world
          = Ret tt (world_of (displayTime false breakfast_world))) as E
    by (vm_compute; reflexivity).
  exists (world_of (displayTime false breakfast_world)).
  split; [exact E|]. split; [vm_compute; discriminate|].
  apply (displayTime_draws_once_a_minute false breakfast_world _ _ E);
    vm_compute; reflexivity.
Defined.

(** * The wake-up check and the scheduler *)

Lemma checkMedicationDue_by_day w :
  is_midnight (next_reading w) = false ->
  medications (world_of (checkMedicationDue w)) = medications w.
Proof.
  intros Hmid. unfold checkMedicationDue. rewrite bind_rtc_now.
  fold (next_reading w). unfold is_midnight in Hmid. rewrite Hmid.
  match goal with |- medications (world_of (?m ?w0)) = _ =>
    assert (keeps medications m) as Hk
      by (unfold checkMedicationDue_entry; prog);
    rewrite (Hk w0)
  end.
  reflexivity.
Qed.

(** X14. Outside the midnight minute the wake-up check and the scheduler
    agree: [checkMedicationDue] leaves the table alone and answers true
    exactly when [checkSchedule], run on that table in the same hour and
    minute, dispenses an entry (marks one that was not yet dispensed). *)
Theorem wake_check_agrees_with_schedule (w w1 : World) :
  is_midnight (next_reading w) = false ->
  medications w1 = medications w ->
  dt_hour (next_reading w1) = dt_hour (next_reading w) ->
  dt_minute (next_reading w1) = dt_minute (next_reading w) ->
  exists due wa wb,
    checkMedicationDue w = Ret due wa /\
    medications wa = medications w /\
    checkSchedule w1 = Ret tt wb /\
    (due = true <->
     exists i m m',
       medications w1 !! i = Some m /\ medications wb !! i = Some m' /\
       dispensedToday m = false /\ dispensedToday m' = true).
Proof.
  intros Hmid Hmeds Hh Hmi.
  destruct (checkMedicationDue_result w) as (wa & Ea).
  pose proof (checkMedicationDue_by_day w Hmid) as Hka.
  rewrite Ea in Hka. cbn [world_of] in Hka. rewrite Hmid in Ea.
  cbn [negb andb] in Ea.
  assert (forall m, is_due (next_reading w1) m = is_due (next_reading w) m)
    as Hsame by (intros m; unfold is_due; now rewrite Hh, Hmi).
  unfold checkSchedule, checkSchedule_from. rewrite !bind_rtc_now.
  fold (next_reading w1).
  replace ((dt_hour (next_reading w1) =? 0)
           && (dt_minute (next_reading w1) =? 0)) with false
    by (rewrite Hh, Hmi; symmetry; exact Hmid).
  rewrite bind_ret. set (w0 := set_rtc_reads _ w1).
  destruct (checkSchedule_loop (next_reading w1) MAX_MEDICATIONS 0 w0)
    as (wb & Eb & _ & L).
  exists (some_due (next_reading w) (medications w)), wa, wb.
  split; [exact Ea|]. split; [exact Hka|]. split; [exact Eb|].
  rewrite some_due_spec. subst w0. revert L. norm_world. intros L. split.
  - intros (i & m & Hi & Hm & Hdue). rewrite <- Hmeds in Hm.
    exists i, m, (with_dispensedToday true m).
    split; [exact Hm|]. split.
    + rewrite L, Hm. case_decide; [|lia]. cbn. now rewrite Hsame, Hdue.
    + apply is_due_spec in Hdue. split; [tauto | reflexivity].
  - intros (i & m & m' & Hm & Hm' & Hf & Ht). rewrite L, Hm in Hm'.
    case_decide as Hi.
    + cbn in Hm'. rewrite Hsame in Hm'.
      destruct (is_due (next_reading w) m) eqn:Hdue.
      * exists i, m. rewrite <- Hmeds. split; [lia|]. now split.
      * injection Hm' as <-. congruence.
    + injection Hm' as <-. congruence.
Qed.

Lemma wake_check_agrees_with_schedule_witness :
  exists wa wb,
    checkMedicationDue breakfast_world = Ret true wa /\
    checkSchedule breakfast_world = Ret tt wb /\
    medications wb !! 0%nat = Some (mkMedication true 8 0 true).
Proof.
  destruct (wake_check_agrees_with_schedule breakfast_world breakfast_world
              eq_refl eq_refl eq_refl eq_refl)
    as (due & wa & wb & Ea & _ & Eb & _).
  vm_compute in Ea. injection Ea as <- <-.
  vm_compute in Eb. injection Eb as <-.
  eexists _, _. split; [vm_compute; reflexivity|].
  split; vm_compute; reflexivity.
Defined.

(** * How long the buzzer and the LED block *)

Section Pulses.
Context (a b : Event) (d count : Z) (p : Event -> bool).
Hypothesis (Ha : p a = true) (Hb : p b = false).
Hypothesis (Hd : forall ms, p (Delay ms) = false).

Lemma filter_snoc_length (evs : list Event) e :
  length (List.filter p (evs ++ [e]))
  = (length (List.filter p evs) + if p e then 1 else 0)%nat.
Proof.
  rewrite List.filter_app, length_app. cbn [List.filter].
  now destruct (p e).
Qed.

Lemma pulse_loop m : forall k w,
  Z.of_nat (k + m) <= count ->
  exists w',
    forM (seq k m) (fun i =>
      emit a;; delay d;; emit b;;
      if Z.of_nat i <? count - 1 then delay d else ret tt) w = Ret tt w' /\
    clock w'
    = clock w + 2 * Z.of_nat m * d
      - (if decide (m <> 0%nat /\ Z.of_nat (k + m) = count) then d else 0) /\
    length (List.filter p (trace w'))
    = (length (List.filter p (trace w)) + m)%nat.
Proof.
  induction m as [|m IH]; intros k w Hle; cbn [seq forM].
  - exists w. split; [reflexivity|]. split; [|lia].
    case_decide; lia.
  - destruct w as [meds]. run.
    destruct (Z.ltb_spec (Z.of_nat k) (count - 1)) as [Hlt|Hge]; run;
      match goal with |- context [forM _ _ ?w0] =>
        destruct (IH (S k) w0 ltac:(lia)) as (w' & E & C & T)
      end;
      revert C T; norm_world; intros C T;
      (exists w'; split; [exact E|]; split;
       [rewrite C; repeat case_decide; lia
       |rewrite T, !filter_snoc_length, Ha, Hb, !Hd; lia]).
Qed.

End Pulses.

(** X15. How long a signal blocks: [beep count] and [blinkLED count], for
    a positive [count], return after [2 * count - 1] periods of [delay]
    (no pause after the last pulse), having started the tone, or lit the
    LED, exactly [count] times. *)
Theorem beep_and_blink_duration (count : Z) (w : World) :
  0 < count ->
  (exists w',
     beep count w = Ret tt w' /\
     clock w' = clock w + (2 * count - 1) * BUZZER_DURATION /\
     length (List.filter is_tone (trace w'))
     = (length (List.filter is_tone (trace w)) + Z.to_nat count)%nat) /\
  (exists w',
     blinkLED count w = Ret tt w' /\
     clock w' = clock w + (2 * count - 1) * LED_BLINK_DURATION /\
     length (List.filter is_led_on (trace w'))
     = (length (List.filter is_led_on (trace w)) + Z.to_nat count)%nat).
Proof.
  intros Hc. split.
  - destruct (pulse_loop (Tone BUZZER_PIN BUZZER_FREQ BUZZER_DURATION)
                (NoTone BUZZER_PIN) BUZZER_DURATION count is_tone
                eq_refl eq_refl (fun _ => eq_refl)
                (Z.to_nat count) 0 w ltac:(lia)) as (w' & E & C & T).
    exists w'. split; [exact E|]. split; [|exact T].
    rewrite C. case_decide; lia.
  - destruct (pulse_loop (DigitalWrite WAKE_LED_PIN true)
                (DigitalWrite WAKE_LED_PIN false) LED_BLINK_DURATION count
                is_led_on eq_refl eq_refl (fun _ => eq_refl)
                (Z.to_nat count) 0 w ltac:(lia)) as (w' & E & C & T).
    exists w'. split; [exact E|]. split; [|exact T].
    rewrite C. case_decide; lia.
Qed.

Lemma beep_and_blink_duration_witness :
  (exists w',
     beep 3 breakfast_world = Ret tt w' /\ clock w' = 1000 /\
     length (List.filter is_tone (trace w')) = 3%nat) /\
  (exists w',
     blinkLED 3 breakfast_world = Ret tt w' /\ clock w' = 1000 /\
     length (List.filter is_led_on (trace w')) = 3%nat).
Proof.
  destruct (beep_and_blink_duration 3 breakfast_world ltac:(lia))
    as [(w1 & E1 & C1 & T1) (w2 & E2 & C2 & T2)].
  split.
  - exists w1. split; [exact E1|]. split; [exact C1 | exact T1].
  - exists w2. split; [exact E2|]. split; [exact C2 | exact T2].
Defined.

(** * A watchdog wake-up with a dose due *)

Lemma bind_getKey_none {B} (k : ascii -> M B) w :
  keys w = [] -> bind getKey k w = k NO_KEY w.
Proof. intros H. unfold bind, getKey. now rewrite H. Qed.

Lemma emits_up_checkMedicationDue :
  emits (fun e => stays_up e = true) checkMedicationDue.
Proof.
  unfold checkMedicationDue, checkMedicationDue_entry,
    resetDailyDispensedFlags.
  prog; reflexivity.
Qed.

Lemma emits_up_displayTime force :
  emits (fun e => stays_up e = true) (displayTime force).
Proof. unfold displayTime, getTimeToNextMedication. prog; reflexivity. Qed.

Lemma keeps_timers_checkMedicationDue : keeps timers checkMedicationDue.
Proof.
  unfold checkMedicationDue, checkMedicationDue_entry,
    resetDailyDispensedFlags, update_med.
  prog.
Qed.

Lemma keeps_watchdogWakeFlag_checkMedicationDue :
  keeps watchdogWakeFlag checkMedicationDue.
Proof.
  unfold checkMedicationDue, checkMedicationDue_entry,
    resetDailyDispensedFlags, update_med.
  prog.
Qed.

Lemma keeps_timers_displayTime force : keeps timers (displayTime force).
Proof. unfold displayTime, getTimeToNextMedication. prog. Qed.

Lemma keeps_watchdogWakeFlag_displayTime force :
  keeps watchdogWakeFlag (displayTime force).
Proof. unfold displayTime, getTimeToNextMedication. prog. Qed.

(** X16. A watchdog wake-up that finds a dose due (no button press, no
    key, outside the setup dialogue): the iteration of [loop] switches the
    display on, restarts the inactivity and check timers and returns awake.
    It sends nothing to the gates and does not go back to sleep; the table
    is as it was: the dose is left to the schedule check of a later
    iteration, at least [CHECK_INTERVAL] after the wake-up. *)
Theorem loop_watchdog_wake_with_dose (w : World) :
  buttonWakeFlag w = false ->
  watchdogWakeFlag w = true ->
  keys w = [] ->
  inSetupMode w = false ->
  (exists w', checkMedicationDue w = Ret true w') ->
  exists w' evs,
    loop w = Ret tt w' /\
    trace w' = trace w ++ evs /\
    In LcdBacklight evs /\ In LcdDisplay evs /\
    Forall (fun e => stays_up e = true) evs /\
    medications w' = medications w /\
    watchdogWakeFlag w' = false /\
    lastActionTime w' = clock w' mod ULONG_MOD /\
    lastCheckTime w' = clock w' mod ULONG_MOD.
Proof.
  intros Hb Hwd Hkeys Hsetup (w' & Hdue).
  destruct (checkMedicationDue_result w) as (w'' & Hres).
  rewrite Hres in Hdue. injection Hdue as Hdue _. clear Hres w' w''.
  assert (is_midnight (next_reading w) = false) as Hmid
    by (destruct (is_midnight (next_reading w)); [discriminate|reflexivity]).
  unfold loop. run. rewrite Hb. run. rewrite Hwd, Hb. cbn [andb negb].
  unfold watchdog_wake. run. rewrite bind_blinkLED_watchdog. run.
  match goal with |- context [bind checkMedicationDue _ ?w0] =>
    set (w1 := w0) end.
  destruct (checkMedicationDue_result w1) as (w2 & E2).
  destruct (emits_Ret _ _ _ _ _ emits_up_checkMedicationDue E2)
    as (evs2 & Htr2 & Hevs2).
  pose proof (keeps_Ret _ _ _ _ _ keeps_timers_checkMedicationDue E2) as Ht2.
  pose proof (keeps_Ret _ _ _ _ _
                keeps_watchdogWakeFlag_checkMedicationDue E2) as Hw2.
  pose proof (checkMedicationDue_by_day w1 Hmid) as Hm2.
  rewrite E2 in Hm2. cbn [world_of] in Hm2.
  change (medications w1) with (medications w) in E2, Hm2.
  change (next_reading w1) with (next_reading w) in E2.
  rewrite Hdue in E2. rewrite (bind_Ret _ _ _ _ _ E2).
  revert Htr2 Ht2 Hw2. subst w1. unfold timers. norm_world.
  rewrite Hkeys, Hsetup. clear E2. destruct w2 as [meds2]. norm_world.
  intros Htr2 [= -> -> -> -> ->] ->. cbn [medications] in Hm2. subst meds2.
  unfold touch_lastActionTime. run. unfold loop_rest.
  rewrite bind_getKey_none by reflexivity.
  change (negb (char_val NO_KEY =? 0)) with false. cbv iota. run.
  rewrite Z.sub_diag.
  change (0 mod ULONG_MOD >=? CHECK_INTERVAL) with false. cbv iota. run.
  cbn [negb]. cbv iota.
  match goal with |- context [bind (displayTime false) _ ?w0] =>
    destruct (returns_displayTime false w0) as ([] & w4 & E4);
    destruct (emits_Ret _ _ _ _ _ (emits_up_displayTime false) E4)
      as (evs4 & Htr4 & Hevs4);
    pose proof (keeps_Ret _ _ _ _ _ (keeps_timers_displayTime false) E4)
      as Ht4;
    pose proof (keeps_Ret _ _ _ _ _ (keeps_medications_displayTime false) E4)
      as Hm4;
    pose proof (keeps_Ret _ _ _ _ _
                  (keeps_watchdogWakeFlag_displayTime false) E4) as Hw4
  end.
  rewrite (bind_Ret _ _ _ _ _ E4). clear E4.
  revert Htr4 Ht4 Hm4 Hw4. unfold timers. norm_world.
  destruct w4 as [meds4]. norm_world.
  intros Htr4 [= -> -> -> -> ->] -> ->. run.
  rewrite Z.sub_diag.
  change (0 mod ULONG_MOD >? SLEEP_TIMEOUT) with false. cbn [andb].
  eexists _, _. split; [reflexivity|]. norm_world.
  split; [rewrite Htr4, Htr2, <- !app_assoc; reflexivity|].
  split; [apply in_or_app; right; apply in_or_app; right; now left|].
  split.
  { apply in_or_app. right. apply in_or_app. right. right. now left. }
  split.
  { repeat (apply Forall_app; split); auto; repeat constructor. }
  repeat split.
Qed.

Lemma loop_watchdog_wake_with_dose_witness :
  exists w',
    loop due_woken_world = Ret tt w' /\
    medications w' = morning_table /\
    List.filter is_gate (trace w') = [] /\
    lastActionTime w' = 10200.
Proof.
  assert (exists w', checkMedicationDue due_woken_world = Ret true w') as Hdue
    by (eexists; vm_compute; reflexivity).
  destruct (loop_watchdog_wake_with_dose due_woken_world
              eq_refl eq_refl eq_refl eq_refl Hdue)
    as (w' & evs & E & _).
  exists w'. split; [exact E|].
  vm_compute in E. injection E as <-.
  split; [vm_compute; reflexivity|]. split; vm_compute; reflexivity.
Defined.

(** * What the interrupt handlers do *)

Lemma deliver_frame q w :
  exists w',
    deliver q w = Ret tt w' /\ main_state w' = main_state w /\
    (mode_valid w -> mode_valid w').
Proof.
  destruct w as [meds]. unfold main_state, mode_valid.
  destruct q as [t|t]; unfold deliver, ISR_INT0, ISR_WDT; run.
  - destruct (_ >=? DEBOUNCE_TIME); run.
    + destruct inSleepMode0; run; unfold modify; norm_world;
        (eexists; split; [reflexivity|]; norm_world; split; [reflexivity|]);
        [tauto|].
      intros Hm. assert (displayMode0 = 0 \/ displayMode0 = 1) as [-> | ->]
        by (unfold DISPLAY_MODES in Hm; lia); vm_compute; split; congruence.
    + eexists. split; [reflexivity|]. norm_world. split; [reflexivity|tauto].
  - unfold modify. norm_world. eexists. split; [reflexivity|]. norm_world.
    split; [reflexivity|tauto].
Qed.

(** X17. Interrupt handlers do no I/O and keep the display mode valid:
    whatever interrupts arrive, in any number and order, the handlers return,
    send no command to a peripheral, leave the table, the EEPROM and the
    pending keys alone, do not change [inSleepMode], and leave
    [displayMode] below [DISPLAY_MODES] if it was. *)
Theorem interrupts_touch_flags_only (qs : list Irq) (w : World) :
  exists w',
    deliver_all qs w = Ret tt w' /\
    main_state w' = main_state w /\
    (mode_valid w -> mode_valid w').
Proof.
  revert w. induction qs as [|q rest IH]; intros w; cbn [deliver_all].
  - exists w. split; [reflexivity|]. split; [reflexivity|tauto].
  - destruct (deliver_frame q w) as (w1 & E1 & F1 & M1).
    rewrite (bind_Ret _ _ _ _ _ E1).
    destruct (IH w1) as (w2 & E2 & F2 & M2).
    exists w2. split; [exact E2|]. split; [congruence|tauto].
Qed.

(** * When the idle device goes to sleep *)

(** An iteration with no wake flag, no key and no schedule check due is
    the redraw of the idle display followed by the sleep decision. *)
Lemma loop_idle w :
  buttonWakeFlag w = false ->
  watchdogWakeFlag w = false ->
  keys w = [] ->
  (clock w mod ULONG_MOD - lastCheckTime w) mod ULONG_MOD < CHECK_INTERVAL ->
  loop w
  = (setup1 ← get inSetupMode;
     (if negb setup1 then displayTime false else ret tt);;
     t ← millis;
     lastAction ← get lastActionTime;
     setup2 ← get inSetupMode;
     if ((t - lastAction) mod ULONG_MOD >? SLEEP_TIMEOUT) && negb setup2 then
       emit LcdClear;;
       emit (LcdPrint "Entering sleep");;
       emit (LcdSetCursor 0 1);;
       emit (LcdPrint "Press wake btn");;
       delay 1500;;
       enterSleepMode
     else ret tt) w.
Proof.
  intros Hb Hwd Hkeys Hcheck.
  unfold loop. rewrite bind_get, Hb. cbv iota. rewrite bind_ret, !bind_get.
  rewrite Hwd, Hb. cbn [andb]. cbv iota. rewrite bind_ret.
  unfold loop_rest. rewrite bind_getKey_none by exact Hkeys.
  change (negb (char_val NO_KEY =? 0)) with false. cbv iota.
  rewrite bind_ret, bind_millis, bind_get.
  destruct (Z.geb_spec ((clock w mod ULONG_MOD - lastCheckTime w)
                          mod ULONG_MOD) CHECK_INTERVAL) as [Hge|_];
    [lia|].
  now rewrite bind_ret.
Qed.

(** X19. When the idle device goes to sleep. In an iteration of [loop]
    with no wake flag set, no key pressed, outside the setup dialogue and
    with no schedule check due, the idle display is brought up to date and
    then: if no more than [SLEEP_TIMEOUT] has passed since the last action
    the iteration returns and has sent nothing else; if more has passed it
    announces the sleep, switches the display off and halts the CPU, and
    with no interrupt to come it stays halted. *)
Theorem loop_idle_sleep_rule (w : World) :
  buttonWakeFlag w = false ->
  watchdogWakeFlag w = false ->
  keys w = [] ->
  inSetupMode w = false ->
  (clock w mod ULONG_MOD - lastCheckTime w) mod ULONG_MOD < CHECK_INTERVAL ->
  let idle := (clock w mod ULONG_MOD - lastActionTime w) mod ULONG_MOD in
  exists shown,
    Forall (fun e => is_lcd e = true) shown /\
    (idle <= SLEEP_TIMEOUT ->
     exists w', loop w = Ret tt w' /\ trace w' = trace w ++ shown) /\
    (SLEEP_TIMEOUT < idle ->
     exists after,
       trace (world_of (loop w))
       = trace w ++ shown ++ sleep_announcement ++ sleep_entry_events
                 ++ after /\
       Forall (fun e => is_display_on e = false) after /\
       (irqs w = [] -> exists w', loop w = Hang w' /\ inSleepMode w' = true)).
Proof.
  intros Hb Hwd Hkeys Hsetup Hcheck idle.
  rewrite (loop_idle w Hb Hwd Hkeys Hcheck).
  rewrite bind_get, Hsetup. cbn [negb]. cbv iota.
  destruct (returns_displayTime false w) as ([] & w1 & E1).
  destruct (emits_Ret _ _ _ _ _ (emits_lcd_displayTime false) E1)
    as (shown & Htr & Hshown).
  pose proof (keeps_Ret _ _ _ _ _ (keeps_timers_displayTime false) E1) as Ht.
  assert (irqs w1 = irqs w) as Hq.
  { assert (keeps irqs (displayTime false)) as Hk
      by (unfold displayTime, getTimeToNextMedication; prog).
    exact (keeps_Ret _ _ _ _ _ Hk E1). }
  rewrite (bind_Ret _ _ _ _ _ E1). clear E1.
  unfold timers in Ht. injection Ht as Hk1 Hs1 Hc1 Ha1 _.
  rewrite bind_millis, !bind_get, Hc1, Ha1, Hs1, Hsetup. fold idle.
  cbn [negb]. rewrite andb_true_r.
  exists shown. split; [exact Hshown|].
  destruct (Z.gtb_spec idle SLEEP_TIMEOUT) as [Hgt|Hle]; split;
    try (intros; lia).
  - intros _. destruct w1 as [meds1]. cbn [trace irqs] in Htr, Hq. subst.
    run.
    match goal with |- context [enterSleepMode ?w0] =>
      destruct (enterSleepMode_trace w0) as (after & Hsleep & Hafter);
      exists after; split; [|split; [exact Hafter|]]
    end.
    + rewrite Hsleep. norm_world. rewrite <- !app_assoc. reflexivity.
    + intros Hnone.
      match goal with |- context [enterSleepMode ?w0] =>
        destruct (enterSleepMode_stays_asleep w0 Hnone) as (w' & E & Hs)
      end.
      exists w'. split; assumption.
  - intros _. exists w1. split; [reflexivity | exact Htr].
Qed.

Lemma loop_idle_sleep_rule_witness :
  exists w' shown after,
    loop weary_world = Hang w' /\ inSleepMode w' = true /\
    trace w' = shown ++ sleep_announcement ++ sleep_entry_events ++ after.
Proof.
  destruct (loop_idle_sleep_rule weary_world eq_refl eq_refl eq_refl eq_refl
              ltac:(vm_compute; reflexivity))
    as (shown & _ & _ & Hsleep).
  destruct (Hsleep ltac:(vm_compute; reflexivity))
    as (after & Htr & _ & Hhang).
  destruct (Hhang eq_refl) as (w' & E & Hs).
  exists w', shown, after. split; [exact E|]. split; [exact Hs|].
  rewrite E in Htr. exact Htr.
Defined.

(** * A wake-up by the button *)

Lemma gap_mod c d :
  0 <= d < ULONG_MOD ->
  ((c + d) mod ULONG_MOD - c mod ULONG_MOD) mod ULONG_MOD = d.
Proof.
  intros Hd. rewrite Zminus_mod_idemp_r, Zminus_mod_idemp_l.
  replace (c + d - c) with d by lia. now apply Z.mod_small.
Qed.

Lemma bind_blinkLED_button {B} (k : unit -> M B) w :
  bind (blinkLED BUTTON_WAKE_BLINKS) k w
  = k tt (set_clock (clock w + LED_BLINK_DURATION + LED_BLINK_DURATION
                     + LED_BLINK_DURATION)
            (set_trace
               (trace w ++
                [ DigitalWrite WAKE_LED_PIN true; Delay LED_BLINK_DURATION;
                  DigitalWrite WAKE_LED_PIN false; Delay LED_BLINK_DURATION;
                  DigitalWrite WAKE_LED_PIN true; Delay LED_BLINK_DURATION;
                  DigitalWrite WAKE_LED_PIN false ]) w)).
Proof.
  destruct w. unfold blinkLED.
  change (seq 0 (Z.to_nat BUTTON_WAKE_BLINKS)) with [0%nat; 1%nat].
  cbn [forM].
  change (Z.of_nat 0 <? BUTTON_WAKE_BLINKS - 1) with true.
  change (Z.of_nat 1 <? BUTTON_WAKE_BLINKS - 1) with false.
  cbv iota. run. f_equal. f_equal. rewrite <- !app_assoc. reflexivity.
Qed.

Lemma existsb_none {A} (f : A -> bool) l :
  existsb f l = false -> forall x, In x l -> f x = false.
Proof.
  intros H x Hx. destruct (f x) eqn:E; [|reflexivity].
  rewrite <- H. symmetry. apply existsb_exists. now exists x.
Qed.

Lemma checkSchedule_nothing_due w :
  is_midnight (next_reading w) = false ->
  some_due (next_reading w) (medications w) = false ->
  checkSchedule w = Ret tt (set_rtc_reads (S (rtc_reads w)) w).
Proof.
  intros Hmid Hdue. unfold checkSchedule, checkSchedule_from.
  rewrite !bind_rtc_now. unfold is_midnight in Hmid. rewrite Hmid, bind_ret.
  set (w0 := set_rtc_reads _ w).
  destruct (checkSchedule_loop (next_reading w) MAX_MEDICATIONS 0 w0)
    as (w1 & E & F & _).
  rewrite E, <- F. rewrite filter_none; [reflexivity|].
  intros i Hi. exact (existsb_none _ _ Hdue i Hi).
Qed.

Lemma keeps_wake_view_displayTime force :
  keeps wake_view (displayTime force).
Proof. unfold displayTime, getTimeToNextMedication. prog. Qed.

Lemma displayTime_reads_once force w :
  rtc_reads (world_of (displayTime force w)) = S (rtc_reads w).
Proof.
  unfold displayTime. rewrite bind_rtc_now.
  match goal with |- rtc_reads (world_of (?m ?w0)) = _ =>
    assert (keeps rtc_reads m) as Hk
      by (unfold getTimeToNextMedication; prog);
    rewrite (Hk w0)
  end.
  reflexivity.
Qed.

(** X18. A wake-up by the button (no key, outside the setup dialogue,
    nothing due at the schedule check): the iteration of [loop] clears the
    flag, blinks, switches the display on, restarts the inactivity timer
    after the blinking, shows its greeting for a second, runs the schedule
    check in this same iteration and returns awake, 1.6 s after it
    started; it sends nothing to the gates and does not go to sleep. *)
Theorem loop_button_wake (w : World) :
  buttonWakeFlag w = true ->
  watchdogWakeFlag w = false ->
  keys w = [] ->
  inSetupMode w = false ->
  let now := rtc w (S (rtc_reads w)) in
  is_midnight now = false ->
  some_due now (medications w) = false ->
  exists w' evs,
    loop w = Ret tt w' /\
    trace w' = trace w ++ evs /\
    In LcdBacklight evs /\ In LcdDisplay evs /\
    Forall (fun e => stays_up e = true) evs /\
    buttonWakeFlag w' = false /\
    medications w' = medications w /\
    rtc_reads w' = (rtc_reads w + 3)%nat /\
    clock w' = clock w + 1600 /\
    lastActionTime w' = (clock w + 600) mod ULONG_MOD /\
    lastCheckTime w' = (clock w + 1600) mod ULONG_MOD.
Proof.
  intros Hb Hwd Hkeys Hsetup now Hmid Hdue. subst now.
  destruct w as [meds].
  cbn [buttonWakeFlag watchdogWakeFlag keys inSetupMode rtc rtc_reads
       medications] in Hb, Hwd, Hkeys, Hsetup, Hmid, Hdue.
  subst.
  unfold loop. run. unfold button_wake, touch_lastActionTime. run.
  rewrite bind_blinkLED_button. run.
  match goal with |- context [bind (displayTime true) _ ?w0] =>
    destruct (returns_displayTime true w0) as ([] & w1 & E1);
    destruct (emits_Ret _ _ _ _ _ (emits_up_displayTime true) E1)
      as (evs1 & Htr1 & Hevs1);
    pose proof (keeps_Ret _ _ _ _ _ (keeps_wake_view_displayTime true) E1)
      as Hv1;
    pose proof (displayTime_reads_once true w0) as Hr1
  end.
  rewrite E1 in Hr1. rewrite (bind_Ret _ _ _ _ _ E1). clear E1.
  revert Htr1 Hv1 Hr1. unfold wake_view. norm_world.
  destruct w1 as [meds1]. norm_world.
  intros Htr1 [= -> -> -> -> -> -> -> -> -> ->] ->.
  run. cbn [andb]. cbv iota. run. unfold loop_rest.
  rewrite bind_getKey_none by reflexivity.
  change (negb (char_val NO_KEY =? 0)) with false. cbv iota. run.
  unfold LED_BLINK_DURATION.
  replace (clock0 + 200 + 200 + 200 + 1000) with (clock0 + 600 + 1000)
    by lia.
  replace (clock0 + 200 + 200 + 200) with (clock0 + 600) by lia.
  rewrite gap_mod by (unfold ULONG_MOD; lia).
  change (1000 >=? CHECK_INTERVAL) with true. cbv iota. run.
  match goal with |- context [bind checkSchedule _ ?w0] =>
    rewrite (bind_Ret _ _ _ _ _ (checkSchedule_nothing_due w0 Hmid Hdue))
  end.
  run. cbn [negb]. cbv iota.
  match goal with |- context [bind (displayTime false) _ ?w0] =>
    destruct (returns_displayTime false w0) as ([] & w2 & E2);
    destruct (emits_Ret _ _ _ _ _ (emits_up_displayTime false) E2)
      as (evs2 & Htr2 & Hevs2);
    pose proof (keeps_Ret _ _ _ _ _ (keeps_wake_view_displayTime false) E2)
      as Hv2;
    pose proof (displayTime_reads_once false w0) as Hr2
  end.
  rewrite E2 in Hr2. rewrite (bind_Ret _ _ _ _ _ E2). clear E2.
  revert Htr2 Hv2 Hr2. unfold wake_view. norm_world.
  destruct w2 as [meds2]. norm_world.
  intros Htr2 [= -> -> -> -> -> -> -> -> -> ->] ->.
  run. rewrite gap_mod by (unfold ULONG_MOD; lia).
  change (1000 >? SLEEP_TIMEOUT) with false. cbn [andb].
  eexists _, _. split; [reflexivity|]. norm_world.
  split; [rewrite Htr2, Htr1, <- !app_assoc; reflexivity|].
  split; [cbn; tauto|]. split; [cbn; tauto|]. split.
  { repeat (apply Forall_app; split); auto; repeat constructor. }
  split; [reflexivity|]. split; [reflexivity|]. split; [lia|].
  split; [lia|]. split; f_equal; lia.
Qed.

Lemma loop_button_wake_witness :
  exists w',
    loop button_woken_world = Ret tt w' /\
    clock w' = 61600 /\ lastActionTime w' = 60600 /\
    List.filter is_gate (trace w') = [].
Proof.
  destruct (loop_button_wake button_woken_world
              eq_refl eq_refl eq_refl eq_refl eq_refl eq_refl)
    as (w' & evs & E & _).
  exists w'. split; [exact E|].
  vm_compute in E. injection E as <-.
  split; [vm_compute; reflexivity|]. split; vm_compute; reflexivity.
Defined.

(** * Loading and saving again *)

Lemma cell_of_flag_of_cell c :
  0 <= c < BYTE_MOD -> cell_of_flag (flag_of_cell c) = c.
Proof.
  intros Hc. unfold flag_of_cell, cell_of_flag.
  rewrite Z.mod_small by exact Hc.
  pose proof (Byte.to_of_N_option_map (Z.to_N c)) as H.
  replace (Z.to_N c <=? 255)%N with true in H
    by (symmetry; apply N.leb_le; unfold BYTE_MOD in Hc; lia).
  destruct (Byte.of_N (Z.to_N c)) as [f|]; [|discriminate].
  injection H as ->. lia.
Qed.

(** X20. Loading and then saving gives the EEPROM back: if the cells 0 to
    19 hold bytes, then after [loadMedications] followed by
    [saveMedications] the four cells of a slot whose stored hour is at most
    23 and whose stored minute is at most 59 are as they were, flag bytes
    other than 0 and 1 included, the four cells of any other slot are 0, and
    no cell from 20 on has changed. *)
Theorem load_then_save (w : World) :
  length (medications w) = MAX_MEDICATIONS ->
  (forall a, 0 <= a < Z.of_nat MAX_MEDICATIONS * SIZEOF_MEDICATION ->
             0 <= eeprom w a < BYTE_MOD) ->
  exists w1 w2,
    loadMedications w = Ret tt w1 /\
    saveMedications w1 = Ret tt w2 /\
    (forall i j, (i < MAX_MEDICATIONS)%nat -> 0 <= j < SIZEOF_MEDICATION ->
       let addr := Z.of_nat i * SIZEOF_MEDICATION in
       eeprom w2 (addr + j)
       = if (eeprom w (addr + 1) >? 23) || (eeprom w (addr + 2) >? 59)
         then 0 else eeprom w (addr + j)) /\
    (forall a, ~ 0 <= a < Z.of_nat MAX_MEDICATIONS * SIZEOF_MEDICATION ->
       eeprom w2 a = eeprom w a).
Proof.
  intros Hlen Hbytes. unfold loadMedications.
  rewrite loadMedications_loop by lia.
  eexists _, _. split; [reflexivity|]. split; [apply saveMedications_run|].
  norm_world. split.
  - intros i j Hi Hj. cbv zeta. rewrite saved_cells_seq.
    unfold MAX_MEDICATIONS, SIZEOF_MEDICATION in *.
    case_decide; [|lia]. rewrite cell_of_slot by lia. cbv zeta.
    destruct (lookup_lt_is_Some_2 (medications w) i ltac:(lia)) as (m & Hm).
    erewrite list_lookup_total_correct
      by (rewrite alter_range_seq_lookup, Hm; case_decide; [reflexivity|lia]).
    unfold validate, eeprom_get.
    cbn [hour minute]. rewrite !(Z.mod_small (eeprom w _)) by (apply Hbytes; lia).
    destruct ((eeprom w (Z.of_nat i * 4 + 1) >? 23)
              || (eeprom w (Z.of_nat i * 4 + 2) >? 59)).
    + destruct (Z.eqb_spec j 0); [reflexivity|].
      destruct (Z.eqb_spec j 1); [reflexivity|].
      destruct (Z.eqb_spec j 2); reflexivity.
    + cbn [active_byte hour minute dispensedToday_byte].
      destruct (Z.eqb_spec j 0) as [->|];
        [rewrite Z.add_0_r; apply cell_of_flag_of_cell, Hbytes; lia|].
      destruct (Z.eqb_spec j 1) as [->|];
        [apply Z.mod_small, Hbytes; lia|].
      destruct (Z.eqb_spec j 2) as [->|];
        [apply Z.mod_small, Hbytes; lia|].
      replace j with 3 by lia. apply cell_of_flag_of_cell, Hbytes; lia.
  - intros a Ha. rewrite saved_cells_seq. case_decide; [|reflexivity].
    exfalso. apply Ha. unfold MAX_MEDICATIONS, SIZEOF_MEDICATION in *. lia.
Qed.

Lemma load_then_save_witness :
  exists w1 w2,
    loadMedications worn_world = Ret tt w1 /\
    saveMedications w1 = Ret tt w2 /\
    active (medications w1 !!! 0%nat) = true /\
    eeprom w2 0 = 2 /\ eeprom w2 3 = 255 /\ eeprom w2 4 = 0.
Proof.
  assert (forall a, 0 <= a < Z.of_nat MAX_MEDICATIONS * SIZEOF_MEDICATION ->
                    0 <= eeprom worn_world a < BYTE_MOD) as Hbytes.
  { intros a _. change (eeprom worn_world a) with (worn_cells a).
    unfold worn_cells, BYTE_MOD.
    repeat match goal with |- context [?x =? ?y] => destruct (x =? y) end;
      lia. }
  destruct (load_then_save worn_world eq_refl Hbytes)
    as (w1 & w2 & E1 & E2 & Hcells & _).
  exists w1, w2. split; [exact E1|]. split; [exact E2|].
  split; [vm_compute in E1; injection E1 as <-; vm_compute; reflexivity|].
  pose proof (Hcells 0%nat 0 ltac:(unfold MAX_MEDICATIONS; lia)
                ltac:(unfold SIZEOF_MEDICATION; lia)) as H0.
  pose proof (Hcells 0%nat 3 ltac:(unfold MAX_MEDICATIONS; lia)
                ltac:(unfold SIZEOF_MEDICATION; lia)) as H3.
  pose proof (Hcells 1%nat 0 ltac:(unfold MAX_MEDICATIONS; lia)
                ltac:(unfold SIZEOF_MEDICATION; lia)) as H4.
  split; [exact H0|]. split; [exact H3 | exact H4].
Defined.
